(** * A-share data server: the Baostock data-access layer and the trading-calendar tools

    A shallow embedding of

    - [src/data_source_interface.py]: the exception classes,
    - [src/utils.py]: [baostock_login_context],
    - [src/baostock_data_source.py]: the fetch helpers and the methods of
      [BaostockDataSource],
    - [src/tools/date_utils.py]: the calendar tools,
    - [src/formatting/markdown_formatter.py]: the formatters of tables,
    - [src/services/validation.py]: the validators of tool arguments,
    - [src/tools/stock_market.py], [src/tools/market_overview.py],
      [src/tools/indices.py], [src/tools/helpers.py]: the tools that are
      defined by these sources alone,
    - [mcp_server.py]: the bearer-token check of the HTTP transport,

    followed by the properties established about them.

    Python code that raises is modelled in a state-and-exception monad [M].
    The state is the [World]: the trace of calls made to the [baostock]
    library and the levels of the log records emitted so far.  The library
    itself is a [Provider]: what [bs.login], [bs.logout] and each
    [bs.query_*] answer. *)

From Stdlib Require Import String Ascii List ZArith Bool Lia.
From Stdlib Require Import DecimalString OrderedTypeEx Sorted.
Import ListNotations.

Local Open Scope string_scope.
Local Open Scope list_scope.

(** ** Exceptions *)

(** The classes of the exceptions that occur.  Every value of [exn] stands for
    an instance of Python's [Exception]: [LoginError] and [NoDataFoundError]
    derive from [DataSourceError] (data_source_interface.py), the others are
    built-in classes, and [OtherError] is any further subclass of [Exception]
    unrelated to the four classes the fetch boundary names (a socket error
    of the provider library, say).  Signals that derive from [BaseException]
    only (keyboard interrupt, interpreter exit) are outside the model. *)
Inductive exn_class : Type :=
| DataSourceError
| LoginError
| NoDataFoundError
| ValueError
| KeyError
| IndexError
| TypeError
| OverflowError
| OtherError (name : string).

(** An exception: its class and [str(e)]. *)
Record exn : Type := Exn { exn_cls : exn_class; exn_str : string }.

(** [issubclass c1 c2] on the modelled classes. *)
Definition issubclass (c1 c2 : exn_class) : bool :=
  match c1, c2 with
  | DataSourceError, DataSourceError => true
  | LoginError, (LoginError | DataSourceError) => true
  | NoDataFoundError, (NoDataFoundError | DataSourceError) => true
  | ValueError, ValueError => true
  | KeyError, KeyError => true
  | IndexError, IndexError => true
  | TypeError, TypeError => true
  | OverflowError, OverflowError => true
  | _, _ => false
  end.

(** The test of [except (LoginError, NoDataFoundError, DataSourceError, ValueError)]. *)
Definition is_known_error (e : exn) : bool :=
  issubclass (exn_cls e) LoginError
  || issubclass (exn_cls e) NoDataFoundError
  || issubclass (exn_cls e) DataSourceError
  || issubclass (exn_cls e) ValueError.

(** ** The world and the monad *)

Inductive Level : Type := DEBUG | INFO | WARNING | ERROR.

(** Values passed to the provider's query functions. *)
Inductive pyval : Type :=
| PNone
| PStr (s : string)
| PInt (z : Z).

Definition opt_str (o : option string) : pyval :=
  match o with Some s => PStr s | None => PNone end.

(** The query functions of the [baostock] module that the data source uses. *)
Inductive bs_func : Type :=
| query_history_k_data_plus
| query_stock_basic
| query_dividend_data
| query_adjust_factor
| query_profit_data
| query_operation_data
| query_growth_data
| query_balance_data
| query_cash_flow_data
| query_dupont_data
| query_performance_express_report
| query_forecast_report
| query_stock_industry
| query_sz50_stocks
| query_hs300_stocks
| query_zz500_stocks
| query_trade_dates
| query_all_stock
| query_deposit_rate_data
| query_loan_rate_data
| query_required_reserve_ratio_data
| query_money_supply_data_month
| query_money_supply_data_year.

(** A call [bs.query_x(k1=v1, ...)]; positional arguments are listed under
    the name of their parameter. *)
Record Query : Type := mkQuery { q_func : bs_func; q_args : list (string * pyval) }.

Inductive Call : Type :=
| CallLogin
| CallQuery (q : Query)
| CallLogout.

Record World : Type := mkWorld {
  calls : list Call;      (* calls made to the provider, oldest first *)
  logs : list Level       (* level of each log record, oldest first *)
}.

Definition M (A : Type) : Type := World -> (exn + A) * World.

Definition ret {A} (a : A) : M A := fun w => (inr a, w).

Definition raise {A} (e : exn) : M A := fun w => (inl e, w).

Definition bind {A B} (m : M A) (k : A -> M B) : M B :=
  fun w =>
    match m w with
    | (inr a, w1) => k a w1
    | (inl e, w1) => (inl e, w1)
    end.

Declare Scope py_scope.
Delimit Scope py_scope with py.
Notation "x <- m ;; k" := (bind m (fun x => k))
  (at level 61, m at next level, right associativity) : py_scope.
Notation "m ;; k" := (bind m (fun _ => k))
  (at level 61, right associativity) : py_scope.
Local Open Scope py_scope.

(** [try: body except Exception as e: handler(e)]. *)
Definition try_except {A} (body : M A) (handler : exn -> M A) : M A :=
  fun w =>
    match body w with
    | (inr a, w1) => (inr a, w1)
    | (inl e, w1) => handler e w1
    end.

(** [try: body finally: cleanup].  The cleanup always runs; when it raises,
    its exception replaces the outcome of the body. *)
Definition try_finally {A} (body : M A) (cleanup : M unit) : M A :=
  fun w =>
    match body w with
    | (r, w1) =>
        match cleanup w1 with
        | (inr _, w2) => (r, w2)
        | (inl e, w2) => (inl e, w2)
        end
    end.

(** [logger.debug/info/warning/error/exception]: only the level is kept
    ([logger.exception] logs at [ERROR]). *)
Definition log (l : Level) : M unit :=
  fun w => (inr tt, mkWorld (calls w) (logs w ++ [l])).

(** Lifting of a pure computation that may raise. *)
Definition lift {A} (r : exn + A) : M A := fun w => (r, w).

(** ** The provider *)

(** [baostock]'s [ResultData].  [data] holds the rows that the cursor hands
    out one by one (over all pages); [fault], when present, is an exception
    that [rs.next()] raises once those rows are consumed. *)
Record ResultData : Type := mkResultData {
  error_code : string;
  error_msg : string;
  fields : list string;
  data : list (list string);
  fault : option exn
}.

(** What the library answers: each entry is either the returned
    [ResultData] or the exception that the call raises. *)
Record Provider : Type := mkProvider {
  login_reply : exn + ResultData;
  logout_reply : option exn;
  query_reply : Query -> exn + ResultData
}.

(** ** Strings *)

(** An f-string: the concatenation of its pieces. *)
Definition fstr (pieces : list string) : string := String.concat "" pieces.

(** [str(n)] for an integer. *)
Definition str_Z (z : Z) : string := NilZero.string_of_int (Z.to_int z).

Definition str_nat (n : nat) : string := str_Z (Z.of_nat n).

(** [str(x)] for an [Optional[str]]. *)
Definition str_opt (o : option string) : string :=
  match o with Some s => s | None => "None" end.

(** [c.lower()] on the ASCII range. *)
Definition lower_ascii (c : ascii) : ascii :=
  let n := N_of_ascii c in
  if (65 <=? n)%N && (n <=? 90)%N then ascii_of_N (n + 32) else c.

(** [s.lower()]. *)
Fixpoint lower (s : string) : string :=
  match s with
  | EmptyString => EmptyString
  | String c s' => String (lower_ascii c) (lower s')
  end.

(** [pat in s]. *)
Fixpoint contains (pat s : string) : bool :=
  String.prefix pat s
  || match s with
     | EmptyString => false
     | String _ s' => contains pat s'
     end.

(** ** Tables *)

(** A cell of a table: a string, or [None] where a short row was padded. *)
Definition cell : Type := option string.

(** A [pandas.DataFrame] of strings: the column labels and the rows. *)
Record DataFrame : Type := mkDataFrame {
  columns : list string;
  rows : list (list cell)
}.

Definition pad_row (n : nat) (r : list string) : list cell :=
  map Some r ++ repeat None (n - List.length r).

Definition max_width (data_list : list (list string)) : nat :=
  fold_right (fun r m => Nat.max (List.length r) m) 0%nat data_list.

(** [pd.DataFrame(data_list, columns=cols)] on a list of rows: short rows
    are padded with [None] up to the longest one, and the construction
    raises [ValueError] when that width is not the number of labels. *)
Definition pd_DataFrame (data_list : list (list string)) (cols : list string)
  : exn + DataFrame :=
  match data_list with
  | [] => inr (mkDataFrame cols [])
  | _ =>
      if (max_width data_list =? List.length cols)%nat then
        inr (mkDataFrame cols (map (pad_row (List.length cols)) data_list))
      else
        inl (Exn ValueError
               (fstr [str_nat (List.length cols); " columns passed, passed data had ";
                      str_nat (max_width data_list); " columns"]))
  end.

(** [len(obj) == 0], the test behind [not data_list] and [df.empty]. *)
Definition is_empty {A} (l : list A) : bool :=
  match l with [] => true | _ => false end.

Section DataSource.

Variable bs : Provider.

Definition bs_login : M ResultData :=
  fun w => (login_reply bs, mkWorld (calls w ++ [CallLogin]) (logs w)).

Definition bs_logout : M unit :=
  fun w => (match logout_reply bs with Some e => inl e | None => inr tt end,
            mkWorld (calls w ++ [CallLogout]) (logs w)).

Definition bs_query (f : bs_func) (args : list (string * pyval)) : M ResultData :=
  fun w => (query_reply bs (mkQuery f args),
            mkWorld (calls w ++ [CallQuery (mkQuery f args)]) (logs w)).

(** *** utils.py *)

(** [with baostock_login_context(): body].  The redirection of the standard
    output around the two library calls is left out. *)
Definition baostock_login_context {A} (body : M A) : M A :=
  log DEBUG ;;
  lg <- bs_login ;;
  log DEBUG ;;
  if negb (error_code lg =? "0") then
    log ERROR ;;
    raise (Exn LoginError ("Baostock login failed: " ++ error_msg lg))
  else
    log INFO ;;
    try_finally body
      (log DEBUG ;;
       bs_logout ;;
       log DEBUG ;;
       log INFO).

(** *** baostock_data_source.py *)

(** An [if cond: ...] statement without [else]. *)
Definition when (cond : bool) (m : M unit) : M unit :=
  if cond then m else ret tt.

(** The loop
    [while rs.next(): data_list.append(rs.get_row_data())]
    over the rows still pending in the cursor. *)
Fixpoint drain_loop (pending : list (list string)) (flt : option exn)
    (data_list : list (list string)) : exn + list (list string) :=
  match pending with
  | r :: rest => drain_loop rest flt (data_list ++ [r])
  | [] =>
      match flt with
      | Some e => inl e
      | None => inr data_list
      end
  end.

(** [data_list = []] followed by the loop. *)
Definition drain (rs : ResultData) : M (list (list string)) :=
  lift (drain_loop (data rs) (fault rs) []).

(** The test that classifies a provider error as "no data". *)
Definition no_data_signal (rs : ResultData) : bool :=
  contains "no record found" (lower (error_msg rs)) || (error_code rs =? "10002").

(** The two [except] clauses that close every fetch:
    [except (LoginError, NoDataFoundError, DataSourceError, ValueError) as e: raise e]
    and [except Exception as e: raise DataSourceError(f"<unexpected>{e}")]. *)
Definition reraise_or_wrap {A} (unexpected : string) (e : exn) : M A :=
  if is_known_error e then
    log WARNING ;;
    raise e
  else
    log ERROR ;;
    raise (Exn DataSourceError (fstr [unexpected; exn_str e])).

Definition _fetch_financial_data (bs_query_func : bs_func)
    (data_type_name code year : string) (quarter : Z) : M DataFrame :=
  log INFO ;;
  try_except
    (baostock_login_context
       (rs <- bs_query bs_query_func
                [("code", PStr code); ("year", PStr year); ("quarter", PInt quarter)] ;;
        when (negb (error_code rs =? "0"))
          (log ERROR ;;
           if no_data_signal rs then
             raise (Exn NoDataFoundError
                      (fstr ["No "; data_type_name; " data found for "; code; ", "; year; "Q";
                             str_Z quarter; ". Baostock msg: "; error_msg rs]))
           else
             raise (Exn DataSourceError
                      (fstr ["Baostock API error fetching "; data_type_name; " data: ";
                             error_msg rs; " (code: "; error_code rs; ")"]))) ;;
        data_list <- drain rs ;;
        when (is_empty data_list)
          (log WARNING ;;
           raise (Exn NoDataFoundError
                    (fstr ["No "; data_type_name; " data found for "; code; ", "; year; "Q";
                           str_Z quarter; " (empty result set)."]))) ;;
        result_df <- lift (pd_DataFrame data_list (fields rs)) ;;
        log INFO ;;
        ret result_df))
    (reraise_or_wrap
       (fstr ["Unexpected error fetching "; data_type_name; " data for "; code; ": "])).

Definition _fetch_index_constituent_data (bs_query_func : bs_func)
    (index_name : string) (date : option string) : M DataFrame :=
  log INFO ;;
  try_except
    (baostock_login_context
       (rs <- bs_query bs_query_func [("date", opt_str date)] ;;
        when (negb (error_code rs =? "0"))
          (log ERROR ;;
           if no_data_signal rs then
             raise (Exn NoDataFoundError
                      (fstr ["No "; index_name; " constituent data found for date ";
                             str_opt date; ". Baostock msg: "; error_msg rs]))
           else
             raise (Exn DataSourceError
                      (fstr ["Baostock API error fetching "; index_name; " constituents: ";
                             error_msg rs; " (code: "; error_code rs; ")"]))) ;;
        data_list <- drain rs ;;
        when (is_empty data_list)
          (log WARNING ;;
           raise (Exn NoDataFoundError
                    (fstr ["No "; index_name; " constituent data found for date ";
                           str_opt date; " (empty result set)."]))) ;;
        result_df <- lift (pd_DataFrame data_list (fields rs)) ;;
        log INFO ;;
        ret result_df))
    (reraise_or_wrap
       (fstr ["Unexpected error fetching "; index_name; " constituents for date ";
              str_opt date; ": "])).

Definition _fetch_macro_data (bs_query_func : bs_func) (data_type_name : string)
    (start_date end_date : option string) (kwargs : list (string * pyval))
  : M DataFrame :=
  log INFO ;;
  try_except
    (baostock_login_context
       (rs <- bs_query bs_query_func
                ([("start_date", opt_str start_date); ("end_date", opt_str end_date)]
                 ++ kwargs) ;;
        when (negb (error_code rs =? "0"))
          (log ERROR ;;
           if no_data_signal rs then
             raise (Exn NoDataFoundError
                      (fstr ["No "; data_type_name;
                             " data found for the specified criteria. Baostock msg: ";
                             error_msg rs]))
           else
             raise (Exn DataSourceError
                      (fstr ["Baostock API error fetching "; data_type_name; " data: ";
                             error_msg rs; " (code: "; error_code rs; ")"]))) ;;
        data_list <- drain rs ;;
        when (is_empty data_list)
          (log WARNING ;;
           raise (Exn NoDataFoundError
                    (fstr ["No "; data_type_name;
                           " data found for the specified criteria (empty result set)."]))) ;;
        result_df <- lift (pd_DataFrame data_list (fields rs)) ;;
        log INFO ;;
        ret result_df))
    (reraise_or_wrap (fstr ["Unexpected error fetching "; data_type_name; " data: "])).

(** The methods of [BaostockDataSource]; [self] carries no state. *)

Definition DEFAULT_K_FIELDS : list string :=
  ["date"; "code"; "open"; "high"; "low"; "close"; "preclose";
   "volume"; "amount"; "adjustflag"; "turn"; "tradestatus";
   "pctChg"; "peTTM"; "pbMRQ"; "psTTM"; "pcfNcfTTM"; "isST"].

Definition DEFAULT_BASIC_FIELDS : list string :=
  ["code"; "tradeStatus"; "code_name"].

(** [isinstance(f, str)]. *)
Definition is_str (v : pyval) : bool :=
  match v with PStr _ => true | _ => false end.

Definition str_items (l : list pyval) : list string :=
  flat_map (fun v => match v with PStr s => [s] | _ => [] end) l.

(** The parameter [fields] is written [fields_], the name [fields] being
    taken by the attribute of [ResultData]. *)
Definition _format_fields (fields_ : option (list pyval)) (default_fields : list string)
  : M string :=
  match fields_ with
  | None | Some [] =>
      log DEBUG ;;
      ret (String.concat "," default_fields)
  | Some fs =>
      when (negb (forallb is_str fs))
        (raise (Exn ValueError "All items in the fields list must be strings.")) ;;
      log DEBUG ;;
      ret (String.concat "," (str_items fs))
  end.

Definition get_historical_k_data (code start_date end_date frequency adjust_flag : string)
    (fields_ : option (list pyval)) : M DataFrame :=
  log INFO ;;
  try_except
    (formatted_fields <- _format_fields fields_ DEFAULT_K_FIELDS ;;
     log DEBUG ;;
     baostock_login_context
       (rs <- bs_query query_history_k_data_plus
                [("code", PStr code); ("fields", PStr formatted_fields);
                 ("start_date", PStr start_date); ("end_date", PStr end_date);
                 ("frequency", PStr frequency); ("adjustflag", PStr adjust_flag)] ;;
        when (negb (error_code rs =? "0"))
          (log ERROR ;;
           if no_data_signal rs then
             raise (Exn NoDataFoundError
                      (fstr ["No historical data found for "; code;
                             " in the specified range. Baostock msg: "; error_msg rs]))
           else
             raise (Exn DataSourceError
                      (fstr ["Baostock API error fetching K-data: "; error_msg rs;
                             " (code: "; error_code rs; ")"]))) ;;
        data_list <- drain rs ;;
        when (is_empty data_list)
          (log WARNING ;;
           raise (Exn NoDataFoundError
                    (fstr ["No historical data found for "; code;
                           " in the specified range (empty result set)."]))) ;;
        result_df <- lift (pd_DataFrame data_list (fields rs)) ;;
        log INFO ;;
        ret result_df))
    (reraise_or_wrap (fstr ["Unexpected error fetching K-data for "; code; ": "])).

(** [repr] of a field list, as an f-string prints it (no escaping of the
    characters inside the strings). *)
Definition repr_val (v : pyval) : string :=
  match v with
  | PNone => "None"
  | PStr s => fstr ["'"; s; "'"]
  | PInt z => str_Z z
  end.

Definition repr_list (l : list pyval) : string :=
  fstr ["["; String.concat ", " (map repr_val l); "]"].

(** [col in df.columns]. *)
Definition in_columns (df : DataFrame) (v : pyval) : bool :=
  match v with
  | PStr s => existsb (String.eqb s) (columns df)
  | _ => false
  end.

Fixpoint positions (name : string) (cols : list string) (i : nat) : list nat :=
  match cols with
  | [] => []
  | c :: cs => (if c =? name then [i] else []) ++ positions name cs (S i)
  end.

(** [df[names]] for labels that all occur among the columns: the columns
    carrying each label, in the order of [names]; the rows are kept. *)
Definition select_columns (df : DataFrame) (names : list string) : DataFrame :=
  let idx := flat_map (fun n => positions n (columns df) 0%nat) names in
  mkDataFrame (map (fun i => nth i (columns df) "") idx)
              (map (fun r => map (fun i => nth i r None) idx) (rows df)).

Definition get_stock_basic_info (code : string) (fields_ : option (list pyval))
  : M DataFrame :=
  log INFO ;;
  try_except
    (log DEBUG ;;
     baostock_login_context
       (rs <- bs_query query_stock_basic [("code", PStr code)] ;;
        when (negb (error_code rs =? "0"))
          (log ERROR ;;
           if no_data_signal rs then
             raise (Exn NoDataFoundError
                      (fstr ["No basic info found for "; code; ". Baostock msg: ";
                             error_msg rs]))
           else
             raise (Exn DataSourceError
                      (fstr ["Baostock API error fetching basic info: "; error_msg rs;
                             " (code: "; error_code rs; ")"]))) ;;
        data_list <- drain rs ;;
        when (is_empty data_list)
          (log WARNING ;;
           raise (Exn NoDataFoundError
                    (fstr ["No basic info found for "; code; " (empty result set)."]))) ;;
        result_df <- lift (pd_DataFrame data_list (fields rs)) ;;
        log INFO ;;
        match fields_ with
        | None | Some [] => ret result_df
        | Some fs =>
            let available_cols := filter (in_columns result_df) fs in
            when (is_empty available_cols)
              (raise (Exn ValueError
                        (fstr ["None of the requested fields "; repr_list fs;
                               " are available in the basic info result."]))) ;;
            log DEBUG ;;
            ret (select_columns result_df (str_items available_cols))
        end))
    (reraise_or_wrap (fstr ["Unexpected error fetching basic info for "; code; ": "])).

Definition get_dividend_data (code year year_type : string) : M DataFrame :=
  log INFO ;;
  try_except
    (baostock_login_context
       (rs <- bs_query query_dividend_data
                [("code", PStr code); ("year", PStr year); ("yearType", PStr year_type)] ;;
        when (negb (error_code rs =? "0"))
          (log ERROR ;;
           if no_data_signal rs then
             raise (Exn NoDataFoundError
                      (fstr ["No dividend data found for "; code; " and year "; year;
                             ". Baostock msg: "; error_msg rs]))
           else
             raise (Exn DataSourceError
                      (fstr ["Baostock API error fetching dividend data: "; error_msg rs;
                             " (code: "; error_code rs; ")"]))) ;;
        data_list <- drain rs ;;
        when (is_empty data_list)
          (log WARNING ;;
           raise (Exn NoDataFoundError
                    (fstr ["No dividend data found for "; code; ", year "; year;
                           " (empty result set)."]))) ;;
        result_df <- lift (pd_DataFrame data_list (fields rs)) ;;
        log INFO ;;
        ret result_df))
    (reraise_or_wrap (fstr ["Unexpected error fetching dividend data for "; code; ": "])).

Definition get_adjust_factor_data (code start_date end_date : string) : M DataFrame :=
  log INFO ;;
  try_except
    (baostock_login_context
       (rs <- bs_query query_adjust_factor
                [("code", PStr code); ("start_date", PStr start_date);
                 ("end_date", PStr end_date)] ;;
        when (negb (error_code rs =? "0"))
          (log ERROR ;;
           if no_data_signal rs then
             raise (Exn NoDataFoundError
                      (fstr ["No adjustment factor data found for "; code;
                             " in the specified range. Baostock msg: "; error_msg rs]))
           else
             raise (Exn DataSourceError
                      (fstr ["Baostock API error fetching adjust factor data: "; error_msg rs;
                             " (code: "; error_code rs; ")"]))) ;;
        data_list <- drain rs ;;
        when (is_empty data_list)
          (log WARNING ;;
           raise (Exn NoDataFoundError
                    (fstr ["No adjustment factor data found for "; code;
                           " in the specified range (empty result set)."]))) ;;
        result_df <- lift (pd_DataFrame data_list (fields rs)) ;;
        log INFO ;;
        ret result_df))
    (reraise_or_wrap (fstr ["Unexpected error fetching adjust factor data for "; code; ": "])).

Definition get_profit_data (code year : string) (quarter : Z) : M DataFrame :=
  _fetch_financial_data query_profit_data "Profitability" code year quarter.

Definition get_operation_data (code year : string) (quarter : Z) : M DataFrame :=
  _fetch_financial_data query_operation_data "Operation Capability" code year quarter.

Definition get_growth_data (code year : string) (quarter : Z) : M DataFrame :=
  _fetch_financial_data query_growth_data "Growth Capability" code year quarter.

Definition get_balance_data (code year : string) (quarter : Z) : M DataFrame :=
  _fetch_financial_data query_balance_data "Balance Sheet" code year quarter.

Definition get_cash_flow_data (code year : string) (quarter : Z) : M DataFrame :=
  _fetch_financial_data query_cash_flow_data "Cash Flow" code year quarter.

Definition get_dupont_data (code year : string) (quarter : Z) : M DataFrame :=
  _fetch_financial_data query_dupont_data "DuPont Analysis" code year quarter.

Definition get_performance_express_report (code start_date end_date : string) : M DataFrame :=
  log INFO ;;
  try_except
    (baostock_login_context
       (rs <- bs_query query_performance_express_report
                [("code", PStr code); ("start_date", PStr start_date);
                 ("end_date", PStr end_date)] ;;
        when (negb (error_code rs =? "0"))
          (log ERROR ;;
           if no_data_signal rs then
             raise (Exn NoDataFoundError
                      (fstr ["No performance express report found for "; code; " in range ";
                             start_date; "-"; end_date; ". Baostock msg: "; error_msg rs]))
           else
             raise (Exn DataSourceError
                      (fstr ["Baostock API error fetching performance express report: ";
                             error_msg rs; " (code: "; error_code rs; ")"]))) ;;
        data_list <- drain rs ;;
        when (is_empty data_list)
          (log WARNING ;;
           raise (Exn NoDataFoundError
                    (fstr ["No performance express report found for "; code; " in range ";
                           start_date; "-"; end_date; " (empty result set)."]))) ;;
        result_df <- lift (pd_DataFrame data_list (fields rs)) ;;
        log INFO ;;
        ret result_df))
    (reraise_or_wrap (fstr ["Unexpected error fetching performance express report for "; code; ": "])).

Definition get_forecast_report (code start_date end_date : string) : M DataFrame :=
  log INFO ;;
  try_except
    (baostock_login_context
       (rs <- bs_query query_forecast_report
                [("code", PStr code); ("start_date", PStr start_date);
                 ("end_date", PStr end_date)] ;;
        when (negb (error_code rs =? "0"))
          (log ERROR ;;
           if no_data_signal rs then
             raise (Exn NoDataFoundError
                      (fstr ["No performance forecast report found for "; code; " in range ";
                             start_date; "-"; end_date; ". Baostock msg: "; error_msg rs]))
           else
             raise (Exn DataSourceError
                      (fstr ["Baostock API error fetching performance forecast report: ";
                             error_msg rs; " (code: "; error_code rs; ")"]))) ;;
        data_list <- drain rs ;;
        when (is_empty data_list)
          (log WARNING ;;
           raise (Exn NoDataFoundError
                    (fstr ["No performance forecast report found for "; code; " in range ";
                           start_date; "-"; end_date; " (empty result set)."]))) ;;
        result_df <- lift (pd_DataFrame data_list (fields rs)) ;;
        log INFO ;;
        ret result_df))
    (reraise_or_wrap (fstr ["Unexpected error fetching performance forecast report for "; code; ": "])).

Definition get_stock_industry (code date : option string) : M DataFrame :=
  log INFO ;;
  try_except
    (baostock_login_context
       (rs <- bs_query query_stock_industry [("code", opt_str code); ("date", opt_str date)] ;;
        when (negb (error_code rs =? "0"))
          (log ERROR ;;
           if no_data_signal rs then
             raise (Exn NoDataFoundError
                      (fstr ["No industry data found for "; str_opt code; ", "; str_opt date;
                             ". Baostock msg: "; error_msg rs]))
           else
             raise (Exn DataSourceError
                      (fstr ["Baostock API error fetching industry data: "; error_msg rs;
                             " (code: "; error_code rs; ")"]))) ;;
        data_list <- drain rs ;;
        when (is_empty data_list)
          (log WARNING ;;
           raise (Exn NoDataFoundError
                    (fstr ["No industry data found for "; str_opt code; ", "; str_opt date;
                           " (empty result set)."]))) ;;
        result_df <- lift (pd_DataFrame data_list (fields rs)) ;;
        log INFO ;;
        ret result_df))
    (reraise_or_wrap (fstr ["Unexpected error fetching industry data for "; str_opt code; ", ";
                            str_opt date; ": "])).

Definition get_sz50_stocks (date : option string) : M DataFrame :=
  _fetch_index_constituent_data query_sz50_stocks "SZSE 50" date.

Definition get_hs300_stocks (date : option string) : M DataFrame :=
  _fetch_index_constituent_data query_hs300_stocks "CSI 300" date.

Definition get_zz500_stocks (date : option string) : M DataFrame :=
  _fetch_index_constituent_data query_zz500_stocks "CSI 500" date.

(** Unlike the other fetches, a provider error is never read as "no data"
    here (the source notes: unlikely to have 'no record found' for dates). *)
Definition get_trade_dates (start_date end_date : option string) : M DataFrame :=
  log INFO ;;
  try_except
    (baostock_login_context
       (rs <- bs_query query_trade_dates
                [("start_date", opt_str start_date); ("end_date", opt_str end_date)] ;;
        when (negb (error_code rs =? "0"))
          (log ERROR ;;
           raise (Exn DataSourceError
                    (fstr ["Baostock API error fetching trade dates: "; error_msg rs;
                           " (code: "; error_code rs; ")"]))) ;;
        data_list <- drain rs ;;
        when (is_empty data_list)
          (log WARNING ;;
           raise (Exn NoDataFoundError
                    (fstr ["No trade dates found for range "; str_opt start_date; "-";
                           str_opt end_date; " (empty result set)."]))) ;;
        result_df <- lift (pd_DataFrame data_list (fields rs)) ;;
        log INFO ;;
        ret result_df))
    (reraise_or_wrap (fstr ["Unexpected error fetching trade dates: "])).

Definition get_all_stock (date : option string) : M DataFrame :=
  log INFO ;;
  try_except
    (baostock_login_context
       (rs <- bs_query query_all_stock [("day", opt_str date)] ;;
        when (negb (error_code rs =? "0"))
          (log ERROR ;;
           if no_data_signal rs then
             raise (Exn NoDataFoundError
                      (fstr ["No stock data found for date "; str_opt date;
                             ". Baostock msg: "; error_msg rs]))
           else
             raise (Exn DataSourceError
                      (fstr ["Baostock API error fetching all stock list: "; error_msg rs;
                             " (code: "; error_code rs; ")"]))) ;;
        data_list <- drain rs ;;
        when (is_empty data_list)
          (log WARNING ;;
           raise (Exn NoDataFoundError
                    (fstr ["No stock list found for date "; str_opt date; " (empty result set)."]))) ;;
        result_df <- lift (pd_DataFrame data_list (fields rs)) ;;
        log INFO ;;
        ret result_df))
    (reraise_or_wrap (fstr ["Unexpected error fetching all stock list for date "; str_opt date; ": "])).

Definition get_deposit_rate_data (start_date end_date : option string) : M DataFrame :=
  _fetch_macro_data query_deposit_rate_data "Deposit Rate" start_date end_date [].

Definition get_loan_rate_data (start_date end_date : option string) : M DataFrame :=
  _fetch_macro_data query_loan_rate_data "Loan Rate" start_date end_date [].

Definition get_required_reserve_ratio_data (start_date end_date : option string)
    (year_type : string) : M DataFrame :=
  _fetch_macro_data query_required_reserve_ratio_data "Required Reserve Ratio"
    start_date end_date [("yearType", PStr year_type)].

Definition get_money_supply_data_month (start_date end_date : option string) : M DataFrame :=
  _fetch_macro_data query_money_supply_data_month "Monthly Money Supply" start_date end_date [].

Definition get_money_supply_data_year (start_date end_date : option string) : M DataFrame :=
  _fetch_macro_data query_money_supply_data_year "Yearly Money Supply" start_date end_date [].

(** A call of the data source: one constructor per public method of
    [BaostockDataSource]. *)
Inductive FetchCall : Type :=
| HistoricalKData (code start_date end_date frequency adjust_flag : string)
    (fields_ : option (list pyval))
| StockBasicInfo (code : string) (fields_ : option (list pyval))
| DividendData (code year year_type : string)
| AdjustFactorData (code start_date end_date : string)
| ProfitData (code year : string) (quarter : Z)
| OperationData (code year : string) (quarter : Z)
| GrowthData (code year : string) (quarter : Z)
| BalanceData (code year : string) (quarter : Z)
| CashFlowData (code year : string) (quarter : Z)
| DupontData (code year : string) (quarter : Z)
| PerformanceExpressReport (code start_date end_date : string)
| ForecastReport (code start_date end_date : string)
| StockIndustry (code date : option string)
| Sz50Stocks (date : option string)
| Hs300Stocks (date : option string)
| Zz500Stocks (date : option string)
| TradeDates (start_date end_date : option string)
| AllStock (date : option string)
| DepositRateData (start_date end_date : option string)
| LoanRateData (start_date end_date : option string)
| RequiredReserveRatioData (start_date end_date : option string) (year_type : string)
| MoneySupplyDataMonth (start_date end_date : option string)
| MoneySupplyDataYear (start_date end_date : option string).

(** Dispatch of a call to the method that serves it. *)
Definition fetch (c : FetchCall) : M DataFrame :=
  match c with
  | HistoricalKData code s e fr adj fs => get_historical_k_data code s e fr adj fs
  | StockBasicInfo code fs => get_stock_basic_info code fs
  | DividendData code year yt => get_dividend_data code year yt
  | AdjustFactorData code s e => get_adjust_factor_data code s e
  | ProfitData code year q => get_profit_data code year q
  | OperationData code year q => get_operation_data code year q
  | GrowthData code year q => get_growth_data code year q
  | BalanceData code year q => get_balance_data code year q
  | CashFlowData code year q => get_cash_flow_data code year q
  | DupontData code year q => get_dupont_data code year q
  | PerformanceExpressReport code s e => get_performance_express_report code s e
  | ForecastReport code s e => get_forecast_report code s e
  | StockIndustry code date => get_stock_industry code date
  | Sz50Stocks date => get_sz50_stocks date
  | Hs300Stocks date => get_hs300_stocks date
  | Zz500Stocks date => get_zz500_stocks date
  | TradeDates s e => get_trade_dates s e
  | AllStock date => get_all_stock date
  | DepositRateData s e => get_deposit_rate_data s e
  | LoanRateData s e => get_loan_rate_data s e
  | RequiredReserveRatioData s e yt => get_required_reserve_ratio_data s e yt
  | MoneySupplyDataMonth s e => get_money_supply_data_month s e
  | MoneySupplyDataYear s e => get_money_supply_data_year s e
  end.

End DataSource.

(** *** tools/date_utils.py: dates *)

(** The date part of a [datetime]; the tools never use the time of day. *)
Record datetime : Type := mkDatetime { year : Z; month : Z; day : Z }.

Definition isleap (y : Z) : bool :=
  (y mod 4 =? 0)%Z && (negb (y mod 100 =? 0)%Z || (y mod 400 =? 0)%Z).

(** [calendar.monthrange(year, month)[1]], the number of days of the month. *)
Definition get_month_end_day (y m : Z) : Z :=
  if (m =? 2)%Z then (if isleap y then 29 else 28)%Z
  else if (m =? 4)%Z || (m =? 6)%Z || (m =? 9)%Z || (m =? 11)%Z then 30%Z
  else 31%Z.

(** The constructor [datetime(y, m, d)] with its range checks. *)
Definition datetime_new (y m d : Z) : exn + datetime :=
  if negb ((1 <=? y)%Z && (y <=? 9999)%Z) then
    inl (Exn ValueError (fstr ["year "; str_Z y; " is out of range"]))
  else if negb ((1 <=? m)%Z && (m <=? 12)%Z) then
    inl (Exn ValueError "month must be in 1..12")
  else if negb ((1 <=? d)%Z && (d <=? get_month_end_day y m)%Z) then
    inl (Exn ValueError "day is out of range for month")
  else inr (mkDatetime y m d).

(** [dt.replace(day=d)]. *)
Definition replace_day (dt : datetime) (d : Z) : exn + datetime :=
  datetime_new (year dt) (month dt) d.

(** [s.zfill(n)] for the digits of a non-negative number. *)
Definition zfill (n : nat) (s : string) : string :=
  String.concat "" (repeat "0" (n - String.length s)) ++ s.

(** [f"{z:02d}"]. *)
Definition fmt02 (z : Z) : string := zfill 2 (str_Z z).

(** [dt.strftime("%Y-%m-%d")], the year on four digits. *)
Definition strftime (dt : datetime) : string :=
  fstr [zfill 4 (str_Z (year dt)); "-"; fmt02 (month dt); "-"; fmt02 (day dt)].

(** [dt.toordinal()]: the number of the day, 0001-01-01 being day 1. *)
Definition toordinal (dt : datetime) : Z :=
  let y := (if month dt <=? 2 then year dt - 1 else year dt)%Z in
  let era := (y / 400)%Z in
  let yoe := (y - era * 400)%Z in
  let mp := (if month dt <=? 2 then month dt + 9 else month dt - 3)%Z in
  let doy := ((153 * mp + 2) / 5 + day dt - 1)%Z in
  let doe := (yoe * 365 + yoe / 4 - yoe / 100 + doy)%Z in
  (era * 146097 + doe - 305)%Z.

(** The date with a given ordinal (the inverse of [toordinal]). *)
Definition fromordinal (n : Z) : datetime :=
  let z := (n + 305)%Z in
  let era := (z / 146097)%Z in
  let doe := (z - era * 146097)%Z in
  let yoe := ((doe - doe / 1460 + doe / 36524 - doe / 146096) / 365)%Z in
  let doy := (doe - (365 * yoe + yoe / 4 - yoe / 100))%Z in
  let mp := ((5 * doy + 2) / 153)%Z in
  let d := (doy - (153 * mp + 2) / 5 + 1)%Z in
  let m := (if mp <? 10 then mp + 3 else mp - 9)%Z in
  let y := (yoe + era * 400 + (if m <=? 2 then 1 else 0))%Z in
  mkDatetime y m d.

(** [dt + timedelta(days=n)] (and [dt - timedelta(days=k)] for [n = -k]):
    [OverflowError] outside the years 1 to 9999. *)
Definition add_days (dt : datetime) (n : Z) : exn + datetime :=
  let o := (toordinal dt + n)%Z in
  if (1 <=? o)%Z && (o <=? 3652059)%Z then inr (fromordinal o)
  else inl (Exn OverflowError "date value out of range").

Definition is_digit (c : ascii) : bool :=
  let n := N_of_ascii c in (48 <=? n)%N && (n <=? 57)%N.

Definition digit (c : ascii) : Z := (Z.of_N (N_of_ascii c) - 48)%Z.

Definition in_range (c : ascii) (lo hi : Z) : bool :=
  is_digit c && (lo <=? digit c)%Z && (digit c <=? hi)%Z.

Inductive parsed (A : Type) : Type :=
| Parsed (a : A) (rest : string)
| NoMatch.
Arguments Parsed {A} a rest.
Arguments NoMatch {A}.

(** The directive [%Y]: four digits. *)
Definition parse_Y (s : string) : parsed Z :=
  match s with
  | String a (String b (String c (String d rest))) =>
      if is_digit a && is_digit b && is_digit c && is_digit d then
        Parsed (digit a * 1000 + digit b * 100 + digit c * 10 + digit d)%Z rest
      else NoMatch
  | _ => NoMatch
  end.

(** The directive [%m] followed by the literal [-]:
    the alternatives [1[0-2]], [0[1-9]], [[1-9]] in this order. *)
Definition parse_m_dash (s : string) : parsed Z :=
  match s with
  | String a (String b (String "-" rest)) =>
      if (Ascii.eqb a "1" && in_range b 0 2) then Parsed (10 + digit b)%Z rest
      else if (Ascii.eqb a "0" && in_range b 1 9) then Parsed (digit b) rest
      else NoMatch
  | String a (String "-" rest) =>
      if in_range a 1 9 then Parsed (digit a) rest else NoMatch
  | _ => NoMatch
  end.

(** The directive [%d]: the alternatives [3[01]], [[12]\d], [0[1-9]], [[1-9]],
    [ [1-9]] in this order; what follows the match is returned. *)
Definition parse_d (s : string) : parsed Z :=
  let two :=
    match s with
    | String a (String b rest) =>
        if Ascii.eqb a "3" && in_range b 0 1 then Parsed (30 + digit b)%Z rest
        else if in_range a 1 2 && is_digit b then Parsed (digit a * 10 + digit b)%Z rest
        else if Ascii.eqb a "0" && in_range b 1 9 then Parsed (digit b) rest
        else NoMatch
    | _ => NoMatch
    end in
  match two with
  | Parsed d rest => Parsed d rest
  | NoMatch =>
      match s with
      | String a rest =>
          if in_range a 1 9 then Parsed (digit a) rest
          else
            match rest with
            | String b rest' =>
                if Ascii.eqb a " " && in_range b 1 9 then Parsed (digit b) rest'
                else NoMatch
            | EmptyString => NoMatch
            end
      | EmptyString => NoMatch
      end
  end.

(** [datetime.strptime(s, "%Y-%m-%d")]. *)
Definition strptime (s : string) : exn + datetime :=
  let no_match :=
    Exn ValueError (fstr ["time data '"; s; "' does not match format '%Y-%m-%d'"]) in
  match parse_Y s with
  | Parsed y (String "-" rest) =>
      match parse_m_dash rest with
      | Parsed m rest1 =>
          match parse_d rest1 with
          | Parsed d EmptyString => datetime_new y m d
          | Parsed _ rest2 =>
              inl (Exn ValueError (fstr ["unconverted data remains: "; rest2]))
          | NoMatch => inl no_match
          end
      | NoMatch => inl no_match
      end
  | _ => inl no_match
  end.


(** *** tools/date_utils.py: table access *)

Fixpoint index_of (name : string) (cols : list string) : option nat :=
  match cols with
  | [] => None
  | c :: cs => if c =? name then Some 0%nat else option_map S (index_of name cs)
  end.

(** [df[name]]: the cells of the (first) column labelled [name], or
    [KeyError]. *)
Definition df_getitem (df : DataFrame) (name : string) : exn + list cell :=
  match index_of name (columns df) with
  | Some i => inr (map (fun r => nth i r None) (rows df))
  | None => inl (Exn KeyError (fstr ["'"; name; "'"]))
  end.

(** [df[mask]]: the rows whose entry in the boolean mask is set. *)
Definition df_mask (df : DataFrame) (mask : list bool) : DataFrame :=
  mkDataFrame (columns df)
    (map fst (filter snd (combine (rows df) mask))).

(** [df.empty]. *)
Definition df_empty (df : DataFrame) : bool :=
  is_empty (rows df) || is_empty (columns df).

(** [series == s], elementwise. *)
Definition cell_eq (s : string) (c : cell) : bool :=
  match c with Some v => v =? s | None => false end.

(** [series < s] and [series > s], elementwise; a missing value compares
    false. *)
Definition cell_lt (s : string) (c : cell) : bool :=
  match c with Some v => (v <? s)%string | None => false end.

Definition cell_gt (s : string) (c : cell) : bool :=
  match c with Some v => (s <? v)%string | None => false end.

(** [str(x)] for a cell. *)
Definition str_cell (c : cell) : string :=
  match c with Some v => v | None => "None" end.

(** [df.columns[-1]] and [df.columns[0]]. *)
Definition columns_last (df : DataFrame) : exn + string :=
  match rev (columns df) with
  | c :: _ => inr c
  | [] => inl (Exn IndexError "index -1 is out of bounds for axis 0 with size 0")
  end.

Definition columns_first (df : DataFrame) : exn + string :=
  match columns df with
  | c :: _ => inr c
  | [] => inl (Exn IndexError "index 0 is out of bounds for axis 0 with size 0")
  end.

(** Ordering of cells for [sort_values]: strings in lexicographic order,
    missing values last. *)
Definition cell_leb (a b : cell) : bool :=
  match a, b with
  | Some x, Some y => (x <=? y)%string
  | Some _, None => true
  | None, Some _ => false
  | None, None => true
  end.

Fixpoint insert_sorted (i : nat) (r : list cell) (sorted : list (list cell))
  : list (list cell) :=
  match sorted with
  | [] => [r]
  | r' :: rest =>
      if cell_leb (nth i r None) (nth i r' None) then r :: r' :: rest
      else r' :: insert_sorted i r rest
  end.

(** [df.sort_values(by=name)]: the rows in ascending order of that column. *)
Definition sort_values (df : DataFrame) (name : string) : exn + DataFrame :=
  match index_of name (columns df) with
  | Some i => inr (mkDataFrame (columns df) (fold_right (insert_sorted i) [] (rows df)))
  | None => inl (Exn KeyError (fstr ["'"; name; "'"]))
  end.

(** [df.iloc[0][name]] and [df.iloc[-1][name]]. *)
Definition iloc_first (df : DataFrame) (name : string) : exn + cell :=
  match rows df with
  | [] => inl (Exn IndexError "single positional indexer is out-of-bounds")
  | r :: _ =>
      match index_of name (columns df) with
      | Some i => inr (nth i r None)
      | None => inl (Exn KeyError (fstr ["'"; name; "'"]))
      end
  end.

Definition iloc_last (df : DataFrame) (name : string) : exn + cell :=
  match rev (rows df) with
  | [] => inl (Exn IndexError "single positional indexer is out-of-bounds")
  | r :: _ =>
      match index_of name (columns df) with
      | Some i => inr (nth i r None)
      | None => inl (Exn KeyError (fstr ["'"; name; "'"]))
      end
  end.

(** The loop of [get_latest_trading_date]:
    [if dstr <= today and (latest is None or dstr > latest): latest = dstr]. *)
Fixpoint latest_loop (valid_trading_days : list cell) (today : string)
    (latest_trading_date : option string) : exn + option string :=
  match valid_trading_days with
  | [] => inr latest_trading_date
  | None :: _ =>
      inl (Exn TypeError "'<=' not supported between instances of 'NoneType' and 'str'")
  | Some dstr :: rest =>
      if (dstr <=? today)%string
         && match latest_trading_date with
            | None => true
            | Some l => (l <? dstr)%string
            end
      then latest_loop rest today (Some dstr)
      else latest_loop rest today latest_trading_date
  end.

Section DateUtils.

Variable active_data_source : Provider.

(** [now] is what [datetime.now()] returns during the call. *)
Definition get_latest_trading_date (now : datetime) : M string :=
  log INFO ;;
  try_except
    (let today := strftime now in
     first <- lift (replace_day now 1) ;;
     let start_date := strftime first in
     d28 <- lift (replace_day now 28) ;;
     let end_date := strftime d28 in
     df <- get_trade_dates active_data_source (Some start_date) (Some end_date) ;;
     flags <- lift (df_getitem df "is_trading_day") ;;
     valid_trading_days <-
       lift (df_getitem (df_mask df (map (cell_eq "1") flags)) "calendar_date") ;;
     latest_trading_date <- lift (latest_loop valid_trading_days today None) ;;
     match latest_trading_date with
     | Some (String c d) =>
         log INFO ;;
         ret (String c d)
     | _ =>
         log WARNING ;;
         ret today
     end)
    (fun e =>
       log ERROR ;;
       ret (strftime now)).

(** The window and the label are built from [now] alone. *)
Definition get_market_analysis_timeframe (period : string) (now : datetime) : M string :=
  log INFO ;;
  let end_date := now in
  sm <-
    (if period =? "recent" then
       if (day now <? 15)%Z then
         if (month now =? 1)%Z then
           start_date <- lift (datetime_new (year now - 1) 11 1) ;;
           middle_date <- lift (datetime_new (year now - 1) 12 1) ;;
           ret (start_date, middle_date)
         else if (month now =? 2)%Z then
           start_date <- lift (datetime_new (year now) 1 1) ;;
           ret (start_date, start_date)
         else
           start_date <- lift (datetime_new (year now) (month now - 2) 1) ;;
           middle_date <- lift (datetime_new (year now) (month now - 1) 1) ;;
           ret (start_date, middle_date)
       else
         if (month now =? 1)%Z then
           start_date <- lift (datetime_new (year now - 1) 12 1) ;;
           ret (start_date, start_date)
         else
           start_date <- lift (datetime_new (year now) (month now - 1) 1) ;;
           ret (start_date, start_date)
     else if period =? "quarter" then
       start_date <-
         (if (month now <=? 3)%Z then lift (datetime_new (year now - 1) (month now + 9) 1)
          else lift (datetime_new (year now) (month now - 3) 1)) ;;
       ret (start_date, start_date)
     else if period =? "half_year" then
       start_date <-
         (if (month now <=? 6)%Z then lift (datetime_new (year now - 1) (month now + 6) 1)
          else lift (datetime_new (year now) (month now - 6) 1)) ;;
       middle_date <-
         (if (month start_date <=? 9)%Z then
            lift (datetime_new (year start_date) (month start_date + 3) 1)
          else lift (datetime_new (year start_date + 1) (month start_date - 9) 1)) ;;
       ret (start_date, middle_date)
     else if period =? "year" then
       start_date <- lift (datetime_new (year now - 1) (month now) 1) ;;
       middle_date <-
         (if (month start_date <=? 6)%Z then
            lift (datetime_new (year start_date) (month start_date + 6) 1)
          else lift (datetime_new (year start_date + 1) (month start_date - 6) 1)) ;;
       ret (start_date, middle_date)
     else
       start_date <-
         (if (month now =? 1)%Z then lift (datetime_new (year now - 1) 12 1)
          else lift (datetime_new (year now) (month now - 1) 1)) ;;
       ret (start_date, start_date)) ;;
  let start_date := fst sm in
  let middle_date := snd sm in
  let end_day := Z.min (get_month_end_day (year end_date) (month end_date)) (day end_date) in
  let end_iso_date :=
    fstr [str_Z (year end_date); "-"; fmt02 (month end_date); "-"; fmt02 end_day] in
  let start_iso_date :=
    fstr [str_Z (year start_date); "-"; fmt02 (month start_date); "-01"] in
  let date_range :=
    if negb (year start_date =? year end_date)%Z then
      fstr [str_Z (year start_date); "年"; str_Z (month start_date); "月-";
            str_Z (year end_date); "年"; str_Z (month end_date); "月"]
    else if negb (month middle_date =? month start_date)%Z
            && negb (month middle_date =? month end_date)%Z then
      fstr [str_Z (year start_date); "年"; str_Z (month start_date); "月-";
            str_Z (month middle_date); "月-"; str_Z (month end_date); "月"]
    else if negb (month start_date =? month end_date)%Z then
      fstr [str_Z (year start_date); "年"; str_Z (month start_date); "月-";
            str_Z (month end_date); "月"]
    else
      fstr [str_Z (year start_date); "年"; str_Z (month start_date); "月"] in
  let result := fstr [date_range; " (ISO: "; start_iso_date; " to "; end_iso_date; ")"] in
  log INFO ;;
  ret result.

(** ['is_trading_day' if 'is_trading_day' in df.columns else df.columns[-1]]. *)
Definition pick_flag_col (df : DataFrame) : exn + string :=
  if existsb (String.eqb "is_trading_day") (columns df) then inr "is_trading_day"
  else columns_last df.

(** ['calendar_date' if 'calendar_date' in df.columns else df.columns[0]]. *)
Definition pick_day_col (df : DataFrame) : exn + string :=
  if existsb (String.eqb "calendar_date") (columns df) then inr "calendar_date"
  else columns_first df.

(** [a & b] on boolean masks. *)
Definition mask_and (a b : list bool) : list bool :=
  map (fun p => fst p && snd p) (combine a b).

Definition is_trading_day (date : string) : M string :=
  log INFO ;;
  try_except
    (df <- get_trade_dates active_data_source (Some date) (Some date) ;;
     if df_empty df then ret "No"
     else
       flag_col <- lift (pick_flag_col df) ;;
       val <- lift (iloc_first df flag_col) ;;
       ret (if str_cell val =? "1" then "Yes" else "No"))
    (fun e =>
       log ERROR ;;
       ret (fstr ["Error: "; exn_str e])).

Definition previous_trading_day (date : string) : M string :=
  log INFO ;;
  try_except
    (d <- lift (strptime date) ;;
     d30 <- lift (add_days d (-30)) ;;
     let start := strftime d30 in
     let end_ := date in
     df <- get_trade_dates active_data_source (Some start) (Some end_) ;;
     if df_empty df then ret date
     else
       flag_col <- lift (pick_flag_col df) ;;
       day_col <- lift (pick_day_col df) ;;
       flags <- lift (df_getitem df flag_col) ;;
       days <- lift (df_getitem df day_col) ;;
       candidates <-
         lift (sort_values
                 (df_mask df (mask_and (map (cell_eq "1") flags) (map (cell_lt date) days)))
                 day_col) ;;
       if df_empty candidates then ret date
       else
         v <- lift (iloc_last candidates day_col) ;;
         ret (str_cell v))
    (fun e =>
       log ERROR ;;
       ret (fstr ["Error: "; exn_str e])).

Definition next_trading_day (date : string) : M string :=
  log INFO ;;
  try_except
    (d <- lift (strptime date) ;;
     let start := date in
     d30 <- lift (add_days d 30) ;;
     let end_ := strftime d30 in
     df <- get_trade_dates active_data_source (Some start) (Some end_) ;;
     if df_empty df then ret date
     else
       flag_col <- lift (pick_flag_col df) ;;
       day_col <- lift (pick_day_col df) ;;
       flags <- lift (df_getitem df flag_col) ;;
       days <- lift (df_getitem df day_col) ;;
       candidates <-
         lift (sort_values
                 (df_mask df (mask_and (map (cell_eq "1") flags) (map (cell_gt date) days)))
                 day_col) ;;
       if df_empty candidates then ret date
       else
         v <- lift (iloc_first candidates day_col) ;;
         ret (str_cell v))
    (fun e =>
       log ERROR ;;
       ret (fstr ["Error: "; exn_str e])).

End DateUtils.

(** *** formatting/markdown_formatter.py *)

(** The line feed of ["\n"]. *)
Definition nl : string := String (ascii_of_nat 10) EmptyString.

(** [str(v)] for a value of a [meta] dictionary. *)
Definition str_val (v : pyval) : string :=
  match v with
  | PNone => "None"
  | PStr s => s
  | PInt z => str_Z z
  end.

(** What [json.dumps] is given. *)
#[local] Unset Elimination Schemes.
Inductive json : Type :=
| JNull
| JBool (b : bool)
| JInt (z : Z)
| JStr (s : string)
| JList (l : list json)
| JDict (d : list (string * json)).
#[local] Set Elimination Schemes.

(** [d[k] = v] on a dictionary kept in insertion order: a key that is
    present keeps its place and takes the new value. *)
Fixpoint dict_set {V} (k : string) (v : V) (d : list (string * V)) : list (string * V) :=
  match d with
  | [] => [(k, v)]
  | (k', v') :: rest =>
      if k' =? k then (k, v) :: rest else (k', v') :: dict_set k v rest
  end.

(** [d.get(k)]. *)
Fixpoint dict_get {V} (k : string) (d : list (string * V)) : option V :=
  match d with
  | [] => None
  | (k', v') :: rest => if k' =? k then Some v' else dict_get k rest
  end.

(** The dictionary built from key-value pairs listed in order. *)
Definition dict_of {V} (items : list (string * V)) : list (string * V) :=
  fold_left (fun d kv => dict_set (fst kv) (snd kv) d) items [].

Definition json_of_val (v : pyval) : json :=
  match v with
  | PNone => JNull
  | PStr s => JStr s
  | PInt z => JInt z
  end.

Definition json_of_cell (c : cell) : json :=
  match c with
  | Some s => JStr s
  | None => JNull
  end.

(** [df.to_dict(orient="records")]: one dictionary per row. *)
Definition to_dict_records (df : DataFrame) : list json :=
  map (fun r => JDict (dict_of (combine (columns df) (map json_of_cell r)))) (rows df).

(** What [DataFrame.to_markdown(index=False)], [DataFrame.to_csv(index=False)]
    and [json.dumps(payload, ensure_ascii=False)] answer: the text, or the
    exception that the call raises (a missing [tabulate] package, say). *)
Record Rendering : Type := mkRendering {
  to_markdown : DataFrame -> exn + string;
  to_csv : DataFrame -> exn + string;
  json_dumps : json -> exn + string
}.

Definition MAX_MARKDOWN_ROWS : Z := 250.

(** [df.shape[0]]. *)
Definition shape0 (df : DataFrame) : Z := Z.of_nat (List.length (rows df)).

(** [df.head(n)]: the first [n] rows; for a negative [n], all rows but the
    last [-n]. *)
Definition df_head (df : DataFrame) (n : Z) : DataFrame :=
  mkDataFrame (columns df)
    (if (0 <=? n)%Z then firstn (Z.to_nat n) (rows df)
     else firstn (List.length (rows df) - Z.to_nat (- n)) (rows df)).

Section Formatting.

Variable render : Rendering.

Definition format_df_to_markdown (df : option DataFrame) (max_rows : option Z)
  : M string :=
  match df with
  | None =>
      log WARNING ;;
      ret "(No data available to display)"
  | Some df =>
      if df_empty df then
        log WARNING ;;
        ret "(No data available to display)"
      else
        let max_rows :=
          match max_rows with None => MAX_MARKDOWN_ROWS | Some n => n end in
        let original_rows := shape0 df in
        let rows_to_show := Z.min original_rows max_rows in
        let df_display := df_head df rows_to_show in
        let truncated := (rows_to_show <? original_rows)%Z in
        match to_markdown render df_display with
        | inl e =>
            log ERROR ;;
            ret "Error: Could not format data into Markdown table."
        | inr markdown_table =>
            if truncated then
              let notes :=
                fstr ["rows truncated to "; str_Z rows_to_show; " from ";
                      str_Z original_rows] in
              ret (fstr ["Note: Data truncated ("; notes; ")."; nl; nl; markdown_table])
            else ret markdown_table
        end
  end.

(** The header that the Markdown output puts before the table when [meta]
    is neither [None] nor empty. *)
Definition meta_header (meta : option (list (string * pyval))) : string :=
  match meta with
  | Some (kv :: m) =>
      let lines :=
        "Meta:" :: map (fun kv => fstr ["- "; fst kv; ": "; str_val (snd kv)]) (kv :: m) in
      (String.concat nl lines ++ nl ++ nl)%string
  | _ => ""
  end.

(** The [payload] of the JSON output. *)
Definition json_payload (df_display : DataFrame) (meta : option (list (string * pyval)))
    (total_rows rows_to_show : Z) (truncated : bool) : json :=
  let base :=
    match meta with
    | Some m => map (fun kv => (fst kv, json_of_val (snd kv))) m
    | None => []
    end in
  JDict
    [("data", JList (to_dict_records df_display));
     ("meta",
      JDict
        (dict_set "columns" (JList (map JStr (columns df_display)))
           (dict_set "truncated" (JBool truncated)
              (dict_set "returned_rows" (JInt rows_to_show)
                 (dict_set "total_rows" (JInt total_rows) base)))))].

Definition format_table_output (df : option DataFrame) (format : string)
    (max_rows : option Z) (meta : option (list (string * pyval))) : M string :=
  let fmt := lower (if format =? "" then "markdown" else format) in
  let max_rows :=
    match max_rows with
    | None => if fmt =? "markdown" then MAX_MARKDOWN_ROWS else MAX_MARKDOWN_ROWS
    | Some n => n
    end in
  let total_rows := match df with None => 0%Z | Some d => shape0 d end in
  let rows_to_show :=
    match df with None => 0%Z | Some d => Z.min total_rows max_rows end in
  let truncated := (rows_to_show <? total_rows)%Z in
  let df_display :=
    match df with
    | Some d => df_head d rows_to_show
    | None => mkDataFrame [] []
    end in
  if fmt =? "markdown" then
    body <- format_df_to_markdown (Some df_display) (Some max_rows) ;;
    ret (meta_header meta ++ body)%string
  else if fmt =? "csv" then
    match to_csv render df_display with
    | inr s => ret s
    | inl e =>
        log ERROR ;;
        ret "Error: Could not format data into CSV."
    end
  else if fmt =? "json" then
    match json_dumps render (json_payload df_display meta total_rows rows_to_show truncated) with
    | inr s => ret s
    | inl e =>
        log ERROR ;;
        ret "Error: Could not format data into JSON."
    end
  else
    log WARNING ;;
    format_df_to_markdown (Some df_display) (Some max_rows).

End Formatting.

(** *** services/validation.py *)

(** [c.isdigit()] for a character; characters are code points below 256,
    where the digits are the ASCII ones and the superscripts one, two and
    three. *)
Definition isdigit_char (c : ascii) : bool :=
  let n := N_of_ascii c in
  ((48 <=? n)%N && (n <=? 57)%N) || (n =? 178)%N || (n =? 179)%N || (n =? 185)%N.

(** [s.isdigit()]: every character is a digit and there is at least one. *)
Definition isdigit (s : string) : bool :=
  negb (s =? "") && forallb isdigit_char (list_ascii_of_string s).

Module validation.

Definition VALID_FREQS : list string := ["d"; "w"; "m"; "5"; "15"; "30"; "60"].
Definition VALID_ADJUST_FLAGS : list string := ["1"; "2"; "3"].
Definition VALID_FORMATS : list string := ["markdown"; "json"; "csv"].
Definition VALID_YEAR_TYPES : list string := ["report"; "operate"].

Definition _ensure_in (value : string) (allowed : list string) (label : string)
  : exn + unit :=
  if negb (existsb (String.eqb value) allowed) then
    inl (Exn ValueError
           (fstr ["Invalid "; label; " '"; value; "'. Valid options are: ";
                  repr_list (map PStr allowed)]))
  else inr tt.

Definition validate_frequency (frequency : string) : exn + unit :=
  _ensure_in frequency VALID_FREQS "frequency".

Definition validate_adjust_flag (adjust_flag : string) : exn + unit :=
  _ensure_in adjust_flag VALID_ADJUST_FLAGS "adjust_flag".

Definition validate_output_format (fmt : string) : exn + unit :=
  _ensure_in fmt VALID_FORMATS "format".

Definition validate_year (year : string) : exn + unit :=
  if negb (isdigit year) || negb (String.length year =? 4)%nat then
    inl (Exn ValueError (fstr ["Invalid year '"; year; "'. Please provide a 4-digit year."]))
  else inr tt.

Definition validate_year_type (year_type : string) : exn + unit :=
  _ensure_in year_type VALID_YEAR_TYPES "year_type".

End validation.

(** *** The tools: what they share *)

(** [x or default] for an [Optional[str]]. *)
Definition or_else (x : option string) (default : string) : string :=
  match x with
  | Some (String c s) => String c s
  | _ => default
  end.

(** The five [except] clauses that close each tool of stock_market.py and
    the tools [get_trade_dates] and [get_all_stock] of market_overview.py:
    [NoDataFoundError], [LoginError], [DataSourceError], [ValueError] and
    [Exception], in this order.  [value_error] is the text that the fourth
    clause puts before the message. *)
Definition tool_except (value_error : string) (e : exn) : M string :=
  if issubclass (exn_cls e) NoDataFoundError then
    log WARNING ;;
    ret (fstr ["Error: "; exn_str e])
  else if issubclass (exn_cls e) LoginError then
    log ERROR ;;
    ret (fstr ["Error: Could not connect to data source. "; exn_str e])
  else if issubclass (exn_cls e) DataSourceError then
    log ERROR ;;
    ret (fstr ["Error: An error occurred while fetching data. "; exn_str e])
  else if issubclass (exn_cls e) ValueError then
    log WARNING ;;
    ret (fstr [value_error; exn_str e])
  else
    log ERROR ;;
    ret (fstr ["Error: An unexpected error occurred: "; exn_str e]).

(** The single clause [except Exception as e] of the other tools. *)
Definition tool_except_any (e : exn) : M string :=
  log ERROR ;;
  ret (fstr ["Error: An unexpected error occurred: "; exn_str e]).

(** *** tools/stock_market.py *)

Module stock_market.
Section Tools.

Variable active_data_source : Provider.
Variable render : Rendering.

Definition get_historical_k_data (code start_date end_date frequency adjust_flag : string)
    (fields_ : option (list pyval)) (limit : Z) (format : string) : M string :=
  log INFO ;;
  try_except
    (let valid_freqs := ["d"; "w"; "m"; "5"; "15"; "30"; "60"] in
     let valid_adjusts := ["1"; "2"; "3"] in
     if negb (existsb (String.eqb frequency) valid_freqs) then
       log WARNING ;;
       ret (fstr ["Error: Invalid frequency '"; frequency; "'. Valid options are: ";
                  repr_list (map PStr valid_freqs)])
     else if negb (existsb (String.eqb adjust_flag) valid_adjusts) then
       log WARNING ;;
       ret (fstr ["Error: Invalid adjust_flag '"; adjust_flag; "'. Valid options are: ";
                  repr_list (map PStr valid_adjusts)])
     else
       df <- get_historical_k_data active_data_source code start_date end_date
               frequency adjust_flag fields_ ;;
       log INFO ;;
       let meta := [("code", PStr code); ("start_date", PStr start_date);
                    ("end_date", PStr end_date); ("frequency", PStr frequency);
                    ("adjust_flag", PStr adjust_flag)] in
       format_table_output render (Some df) format (Some limit) (Some meta))
    (tool_except "Error: Invalid input parameter. ").

Definition get_stock_basic_info (code : string) (fields_ : option (list pyval))
    (format : string) : M string :=
  log INFO ;;
  try_except
    (df <- get_stock_basic_info active_data_source code fields_ ;;
     log INFO ;;
     let meta := [("code", PStr code)] in
     format_table_output render (Some df) format (Some (shape0 df)) (Some meta))
    (tool_except "Error: Invalid input parameter or requested field not available. ").

Definition get_dividend_data (code year year_type : string) (limit : Z) (format : string)
  : M string :=
  log INFO ;;
  try_except
    (if negb (existsb (String.eqb year_type) ["report"; "operate"]) then
       log WARNING ;;
       ret (fstr ["Error: Invalid year_type '"; year_type;
                  "'. Valid options are: 'report', 'operate'"])
     else if negb (isdigit year) || negb (String.length year =? 4)%nat then
       log WARNING ;;
       ret (fstr ["Error: Invalid year '"; year; "'. Please provide a 4-digit year."])
     else
       df <- get_dividend_data active_data_source code year year_type ;;
       log INFO ;;
       let meta := [("code", PStr code); ("year", PStr year);
                    ("year_type", PStr year_type)] in
       format_table_output render (Some df) format (Some limit) (Some meta))
    (tool_except "Error: Invalid input parameter. ").

Definition get_adjust_factor_data (code start_date end_date : string) (limit : Z)
    (format : string) : M string :=
  log INFO ;;
  try_except
    (df <- get_adjust_factor_data active_data_source code start_date end_date ;;
     log INFO ;;
     let meta := [("code", PStr code); ("start_date", PStr start_date);
                  ("end_date", PStr end_date)] in
     format_table_output render (Some df) format (Some limit) (Some meta))
    (tool_except "Error: Invalid input parameter. ").

End Tools.
End stock_market.

(** *** tools/market_overview.py *)

Module market_overview.
Section Tools.

Variable active_data_source : Provider.
Variable render : Rendering.

Definition get_trade_dates (start_date end_date : option string) (limit : Z)
    (format : string) : M string :=
  log INFO ;;
  try_except
    (df <- get_trade_dates active_data_source start_date end_date ;;
     log INFO ;;
     let meta := [("start_date", PStr (or_else start_date "default"));
                  ("end_date", PStr (or_else end_date "default"))] in
     format_table_output render (Some df) format (Some limit) (Some meta))
    (tool_except "Error: Invalid input parameter. ").

(** Placed before the tool [get_all_stock], whose name hides the method of
    the data source. *)
Definition get_suspensions (date : option string) (limit : Z) (format : string)
  : M string :=
  log INFO ;;
  try_except
    (df <- get_all_stock active_data_source date ;;
     if df_empty df then ret "(No data available to display)"
     else if negb (existsb (String.eqb "tradeStatus") (columns df)) then
       ret "Error: 'tradeStatus' column not present in data source response."
     else
       status <- lift (df_getitem df "tradeStatus") ;;
       let suspended := df_mask df (map (cell_eq "0") status) in
       let meta := [("as_of", PStr (or_else date "current"));
                    ("total_suspended", PInt (shape0 suspended))] in
       format_table_output render (Some suspended) format (Some limit) (Some meta))
    tool_except_any.

Definition get_all_stock (date : option string) (limit : Z) (format : string)
  : M string :=
  log INFO ;;
  try_except
    (df <- get_all_stock active_data_source date ;;
     log INFO ;;
     let meta := [("as_of", PStr (or_else date "default"))] in
     format_table_output render (Some df) format (Some limit) (Some meta))
    (tool_except "Error: Invalid input parameter. ").

End Tools.
End market_overview.

(** *** tools/indices.py *)

(** [c.isspace()] for a character (code points below 256). *)
Definition isspace (c : ascii) : bool :=
  let n := N_of_ascii c in
  ((9 <=? n)%N && (n <=? 13)%N) || ((28 <=? n)%N && (n <=? 32)%N)
  || (n =? 133)%N || (n =? 160)%N.

Fixpoint lstrip (s : string) : string :=
  match s with
  | String c s' => if isspace c then lstrip s' else s
  | EmptyString => EmptyString
  end.

Fixpoint rstrip (s : string) : string :=
  match s with
  | EmptyString => EmptyString
  | String c s' =>
      match rstrip s' with
      | EmptyString => if isspace c then EmptyString else String c EmptyString
      | t => String c t
      end
  end.

(** [s.strip()]. *)
Definition strip (s : string) : string := rstrip (lstrip s).

(** Equality of cells and of rows; two missing values count as equal. *)
Definition cell_eqb (a b : cell) : bool :=
  match a, b with
  | Some x, Some y => x =? y
  | None, None => true
  | _, _ => false
  end.

Fixpoint row_eqb (a b : list cell) : bool :=
  match a, b with
  | [], [] => true
  | x :: a', y :: b' => cell_eqb x y && row_eqb a' b'
  | _, _ => false
  end.

(** [df.drop_duplicates()]: of equal rows the first is kept. *)
Fixpoint drop_duplicate_rows (rs : list (list cell)) : list (list cell) :=
  match rs with
  | [] => []
  | r :: rest => r :: filter (fun r' => negb (row_eqb r r')) (drop_duplicate_rows rest)
  end.

Definition drop_duplicates (df : DataFrame) : DataFrame :=
  mkDataFrame (columns df) (drop_duplicate_rows (rows df)).

(** [df.rename(columns={old: new})]. *)
Definition rename_column (df : DataFrame) (old new : string) : DataFrame :=
  mkDataFrame (map (fun c => if c =? old then new else c) (columns df)) (rows df).

(** ['industry' if 'industry' in df.columns else df.columns[-1]]. *)
Definition pick_industry_col (df : DataFrame) : exn + string :=
  if existsb (String.eqb "industry") (columns df) then inr "industry"
  else columns_last df.

Module indices.
Section Tools.

Variable active_data_source : Provider.
Variable render : Rendering.

Definition get_index_constituents (index : string) (date : option string) (limit : Z)
    (format : string) : M string :=
  log INFO ;;
  try_except
    (let key := lower (strip index) in
     if negb (existsb (String.eqb key) ["hs300"; "sz50"; "zz500"]) then
       ret "Error: Invalid index. Valid options are 'hs300', 'sz50', 'zz500'."
     else
       df <- (if key =? "hs300" then get_hs300_stocks active_data_source date
              else if key =? "sz50" then get_sz50_stocks active_data_source date
              else get_zz500_stocks active_data_source date) ;;
       let meta := [("index", PStr key); ("as_of", PStr (or_else date "latest"))] in
       format_table_output render (Some df) format (Some limit) (Some meta))
    tool_except_any.

Definition list_industries (date : option string) (format : string) : M string :=
  log INFO ;;
  try_except
    (df <- get_stock_industry active_data_source None date ;;
     if df_empty df then ret "(No data available to display)"
     else
       col <- lift (pick_industry_col df) ;;
       out <- lift (sort_values (drop_duplicates (select_columns df [col])) col) ;;
       let out := rename_column out col "industry" in
       let meta := [("as_of", PStr (or_else date "latest"));
                    ("count", PInt (shape0 out))] in
       format_table_output render (Some out) format (Some (shape0 out)) (Some meta))
    tool_except_any.

Definition get_industry_members (industry : string) (date : option string) (limit : Z)
    (format : string) : M string :=
  log INFO ;;
  try_except
    (if (industry =? "") || (strip industry =? "") then
       ret "Error: 'industry' is required. Call list_industries() to discover available values."
     else
       df <- get_stock_industry active_data_source None date ;;
       if df_empty df then ret "(No data available to display)"
       else
         col <- lift (pick_industry_col df) ;;
         values <- lift (df_getitem df col) ;;
         let filtered := df_mask df (map (cell_eq industry) values) in
         let meta := [("industry", PStr industry);
                      ("as_of", PStr (or_else date "latest"))] in
         format_table_output render (Some filtered) format (Some limit) (Some meta))
    tool_except_any.

Definition get_stock_industry (code date : option string) (limit : Z) (format : string)
  : M string :=
  log INFO ;;
  try_except
    (df <- get_stock_industry active_data_source code date ;;
     log INFO ;;
     let meta := [("code", PStr (or_else code "all"));
                  ("as_of", PStr (or_else date "latest"))] in
     format_table_output render (Some df) format (Some limit) (Some meta))
    tool_except_any.

End Tools.
End indices.

(** *** tools/helpers.py *)

(** [re.fullmatch(r"\d{6}", s)] on ASCII text: six characters, each one of
    the digits 0 to 9.  On other text the pattern of Python also accepts the
    decimal digits of other scripts, so what is stated of [six_digits] for
    all texts of the source is stated under [is_ascii]. *)
Definition six_digits (s : string) : bool :=
  (String.length s =? 6)%nat && forallb is_digit (list_ascii_of_string s).

(** [re.fullmatch(r"(?i)(sh|sz)", s)] on ASCII text: the two letters in
    small or capital form.  On other text the flag also lets U+017F stand
    for the letter s. *)
Definition exchange (s : string) : bool :=
  (lower s =? "sh") || (lower s =? "sz").

(** What is left of [s] for the rest of a pattern after [[\.]?]: the
    optional dot is taken when there is one, since no later part of the
    patterns below can start with a dot. *)
Definition after_dot (s : string) : string :=
  match s with
  | String "." s' => s'
  | _ => s
  end.

(** [re.fullmatch(r"(?i)(sh|sz)[\.]?(\d{6})", raw)]: the two groups. *)
Definition fullmatch_exchange_number (raw : string) : option (string * string) :=
  let ex := substring 0 2 raw in
  let num := after_dot (substring 2 (String.length raw - 2) raw) in
  if (2 <=? String.length raw)%nat && exchange ex && six_digits num
  then Some (ex, num) else None.

(** The same with the number first: the two groups of
    [(\d{6})[\.]?(sh|sz)], letters in either case. *)
Definition match_number_exchange (raw : string) : option (string * string) :=
  let num := substring 0 6 raw in
  let ex := after_dot (substring 6 (String.length raw - 6) raw) in
  if (6 <=? String.length raw)%nat && six_digits num && exchange ex
  then Some (num, ex) else None.

Module helpers.
Section Tools.

(** Whether the interpreter accepts a global flag such as [(?i)] inside a
    pattern, as Python did before version 3.11; since then compiling such a
    pattern raises [re.error]. *)
Variable inline_flag_anywhere : bool.

(** [re.fullmatch(r"(\d{6})[\.]?(?i)(sh|sz)", raw)]. *)
Definition fullmatch_number_exchange (raw : string) : exn + option (string * string) :=
  if inline_flag_anywhere then inr (match_number_exchange raw)
  else inl (Exn (OtherError "re.error")
              "global flags not at the start of the expression at position 12").

Definition normalize_stock_code (code : string) : M string :=
  log INFO ;;
  try_except
    (let raw := strip code in
     if raw =? "" then ret "Error: 'code' is required."
     else
       match fullmatch_exchange_number raw with
       | Some (ex, num) => ret (fstr [lower ex; "."; num])
       | None =>
           m2 <- lift (fullmatch_number_exchange raw) ;;
           match m2 with
           | Some (num, ex) => ret (fstr [lower ex; "."; num])
           | None =>
               if six_digits raw then
                 let ex := if String.prefix "6" raw then "sh" else "sz" in
                 ret (fstr [ex; "."; raw])
               else
                 ret "Error: Unsupported code format. Examples: 'sh.600000', '600000', '000001.SZ'."
           end
       end)
    (fun e =>
       log ERROR ;;
       ret (fstr ["Error: "; exn_str e])).

End Tools.
End helpers.

(** *** mcp_server.py *)

(** [s.partition(" ")]: the text before the first space and the text after
    it; without a space, the whole text and the empty text. *)
Fixpoint partition_space (s : string) : string * string :=
  match s with
  | EmptyString => (EmptyString, EmptyString)
  | String c s' =>
      if Ascii.eqb c " " then (EmptyString, s')
      else let (head, tail) := partition_space s' in (String c head, tail)
  end.

(** What a middleware answers: a plain-text response of its own, or what
    the rest of the application answers to the request. *)
Inductive Response (A : Type) : Type :=
| PlainTextResponse (content : string) (status_code : Z)
| Next (answer : A).

Arguments PlainTextResponse {A} content status_code.
Arguments Next {A} answer.

Module mcp_server.
Section Server.

(** The requests, what the application answers, and the value of the
    header "authorization" of a request, if it has one. *)
Variable Request Answer : Type.
Variable authorization : Request -> option string.

(** [BearerAuthMiddleware(app, token).dispatch(request, call_next)]. *)
Definition dispatch (_token : string) (request : Request)
    (call_next : Request -> Answer) : Response Answer :=
  let auth_header := match authorization request with Some h => h | None => "" end in
  let (scheme, token) := partition_space auth_header in
  if negb (lower scheme =? "bearer") || negb (strip token =? _token) then
    PlainTextResponse "Unauthorized" 401
  else Next (call_next request).

(** [_build_streamable_http_app]: [streamable_http_app] is what the
    attribute of this name of the FastMCP application builds, if there is
    one and it can be called. *)
Definition _build_streamable_http_app (streamable_http_app : option (Request -> Answer))
    (bearer_token : option string) : exn + (Request -> Response Answer) :=
  match streamable_http_app with
  | None =>
      inl (Exn (OtherError "RuntimeError")
             "Streamable HTTP transport requires a newer MCP SDK. Please upgrade the 'mcp' package.")
  | Some streamable_app =>
      match bearer_token with
      | Some (String c t) =>
          inr (fun request => dispatch (String c t) request streamable_app)
      | _ => inr (fun request => Next (streamable_app request))
      end
  end.

End Server.
End mcp_server.

(** * Notions used in the statements *)

(** The world in which the body of a [with] statement starts. *)
Definition entered (w : World) : World :=
  mkWorld (calls w ++ [CallLogin]) (logs w ++ [DEBUG; DEBUG; INFO]).

(** Every value that [m] returns satisfies [P]. *)
Definition returns {A} (m : M A) (P : A -> Prop) : Prop :=
  forall w a w', m w = (inr a, w') -> P a.

(** Every exception that [m] raises satisfies [P]. *)
Definition raises {A} (m : M A) (P : exn -> Prop) : Prop :=
  forall w e w', m w = (inl e, w') -> P e.

(** The exact classes named by the fetch boundary. *)
Definition classified (e : exn) : Prop :=
  exn_cls e = LoginError \/ exn_cls e = NoDataFoundError
  \/ exn_cls e = DataSourceError \/ exn_cls e = ValueError.

(** The login is accepted. *)
Definition login_accepted (bs : Provider) : Prop :=
  exists lg, login_reply bs = inr lg /\ error_code lg = "0".

(** The session opens and closes without incident. *)
Definition session_ok (bs : Provider) : Prop :=
  login_accepted bs /\ logout_reply bs = None.

(** The provider answers the queries with the cursor [rs]. *)
Definition answers (bs : Provider) (rs : ResultData) : Prop :=
  forall q, query_reply bs q = inr rs.

(** The field list of a K-line request holds strings only, as its type
    [Optional[List[str]]] says; other calls have nothing to validate before
    the query. *)
Definition fields_are_strings (c : FetchCall) : bool :=
  match c with
  | HistoricalKData _ _ _ _ _ (Some fs) => forallb is_str fs
  | _ => true
  end.

(** The calls whose methods read a provider error as "no data" when the
    provider says so: all but the trade-date calendar. *)
Definition uses_no_data_rule (c : FetchCall) : bool :=
  match c with
  | TradeDates _ _ => false
  | _ => true
  end.

(** The calls that return the fetched table whole: all but a basic-info
    request that selects columns. *)
Definition whole_table (c : FetchCall) : bool :=
  match c with
  | StockBasicInfo _ (Some (_ :: _)) => false
  | _ => true
  end.

(** The message contains "no record found", in any character case. *)
Definition mentions_no_record (msg : string) : Prop :=
  exists pre mid post,
    msg = (pre ++ mid ++ post)%string /\ lower mid = "no record found".

(** What the fetch boundary is to make of an exception [e0] raised inside
    the fetch: a [LoginError], a [NoDataFoundError], a [DataSourceError] or a
    [ValueError] passes unchanged, any other is replaced by a
    [DataSourceError] whose message ends with [str(e0)]. *)
Definition surfaced (e0 e : exn) : Prop :=
  (classified e0 -> e = e0)
  /\ (~ classified e0 ->
      exn_cls e = DataSourceError
      /\ exists unexpected, exn_str e = (unexpected ++ exn_str e0)%string).

(** The places where the provider library can raise [e0] during a fetch:
    in [bs.login], in the query function, in [rs.next()] while the rows are
    drained, and in [bs.logout]. *)
Inductive raised_inside (bs : Provider) (e0 : exn) : Prop :=
| login_raises :
    login_reply bs = inl e0 -> raised_inside bs e0
| query_raises :
    session_ok bs -> (forall q, query_reply bs q = inl e0) -> raised_inside bs e0
| cursor_raises (rs : ResultData) :
    session_ok bs -> answers bs rs -> error_code rs = "0" -> fault rs = Some e0 ->
    raised_inside bs e0
| logout_raises :
    login_accepted bs -> logout_reply bs = Some e0 -> raised_inside bs e0.

(** ** Sample providers and inputs *)

Definition empty_world : World := mkWorld [] [].

Definition login_success : ResultData := mkResultData "0" "success" [] [] None.

Definition login_refused : ResultData :=
  mkResultData "10001001" "network error" [] [] None.

(** A provider whose session works and that answers every query with [rs]. *)
Definition provider_answering (rs : ResultData) : Provider :=
  mkProvider (inr login_success) None (fun _ => inr rs).

(** A cursor over the two columns of the trade-date calendar. *)
Definition calendar_cursor (records : list (list string)) : ResultData :=
  mkResultData "0" "success" ["calendar_date"; "is_trading_day"] records None.

Definition empty_cursor : ResultData := calendar_cursor [].

Definition no_record_cursor : ResultData :=
  mkResultData "10004011" "No Record Found." [] [] None.

Definition sentinel_cursor : ResultData :=
  mkResultData "10002" "no record found" [] [] None.

Definition january_2024 : list (list string) :=
  [["2024-01-01"; "0"]; ["2024-01-02"; "1"]; ["2024-01-03"; "1"];
   ["2024-01-04"; "1"]; ["2024-01-05"; "1"]; ["2024-01-06"; "0"];
   ["2024-01-07"; "0"]; ["2024-01-08"; "1"]; ["2024-01-09"; "1"];
   ["2024-01-10"; "0"]].

Definition connection_lost : exn := Exn (OtherError "ConnectionResetError") "connection lost".

Definition no_rows : exn := Exn NoDataFoundError "nothing found".

(** A provider whose logout raises. *)
Definition provider_failing_logout : Provider :=
  mkProvider (inr login_success) (Some connection_lost) (fun _ => inr empty_cursor).

Definition provider_refusing_login : Provider :=
  mkProvider (inr login_refused) None (fun _ => inr empty_cursor).

(** A provider whose query functions raise. *)
Definition provider_failing_query : Provider :=
  mkProvider (inr login_success) None (fun _ => inl connection_lost).

Definition bad_argument : exn := Exn ValueError "bad argument".

(** A provider whose query functions raise a [ValueError]. *)
Definition provider_rejecting_query : Provider :=
  mkProvider (inr login_success) None (fun _ => inl bad_argument).

Definition profit_call : FetchCall := ProfitData "sh.600000" "2023" 4.

Definition calendar_call : FetchCall :=
  TradeDates (Some "2024-01-01") (Some "2024-01-28").

(** ** Notions for the calendar tools *)

(** A date that exists: the range of [datetime] and the length of the month. *)
Definition valid_date (dt : datetime) : Prop :=
  (1 <= year dt <= 9999)%Z /\ (1 <= month dt <= 12)%Z
  /\ (1 <= day dt <= get_month_end_day (year dt) (month dt))%Z.

(** The month before the current one: December of the year before when
    called in January. *)
Definition preceding_month (now : datetime) : Z * Z :=
  if (month now =? 1)%Z then (year now - 1, 12)%Z else (year now, month now - 1)%Z.

(** [YYYY-MM-DD] as the labels print it. *)
Definition iso_date (y m d : Z) : string :=
  fstr [str_Z y; "-"; fmt02 m; "-"; fmt02 d].

(** The label of the window that starts on day 1 of the preceding month
    and ends today. *)
Definition preceding_month_to_today_label (now : datetime) : string :=
  let (y, m) := preceding_month now in
  let months :=
    if (month now =? 1)%Z then
      fstr [str_Z y; "年"; str_Z m; "月-"; str_Z (year now); "年"; str_Z (month now); "月"]
    else
      fstr [str_Z y; "年"; str_Z m; "月-"; str_Z (month now); "月"] in
  fstr [months; " (ISO: "; iso_date y m 1; " to ";
        iso_date (year now) (month now) (day now); ")"].

(** A record of the trade-date calendar, as the provider returns it. *)
Record TradingDateRecord : Type := mkTradingDateRecord {
  calendar_date : string;
  is_trading : string
}.

Definition record_row (r : TradingDateRecord) : list string :=
  [calendar_date r; is_trading r].

(** The query that [get_latest_trading_date] sends on the day [now]: the
    calendar from day 1 to day 28 of the current month. *)
Definition month_window_query (now : datetime) : Query :=
  mkQuery query_trade_dates
    [("start_date", PStr (strftime (mkDatetime (year now) (month now) 1)));
     ("end_date", PStr (strftime (mkDatetime (year now) (month now) 28)))].

(** The dates of the records flagged "1" that are not after [today]. *)
Definition trading_days_until (today : string) (records : list TradingDateRecord)
  : list string :=
  map calendar_date
    (filter (fun r => (is_trading r =? "1") && (calendar_date r <=? today)%string) records).

Definition january_records : list TradingDateRecord :=
  [mkTradingDateRecord "2024-01-01" "0"; mkTradingDateRecord "2024-01-02" "1";
   mkTradingDateRecord "2024-01-03" "1"; mkTradingDateRecord "2024-01-04" "1";
   mkTradingDateRecord "2024-01-05" "1"; mkTradingDateRecord "2024-01-06" "0";
   mkTradingDateRecord "2024-01-07" "0"; mkTradingDateRecord "2024-01-08" "1";
   mkTradingDateRecord "2024-01-09" "1"; mkTradingDateRecord "2024-01-10" "0"].

(** The dates of the records flagged "1" that are strictly before, and
    strictly after, [date]. *)
Definition trading_days_before (date : string) (records : list TradingDateRecord)
  : list string :=
  map calendar_date
    (filter (fun r => (is_trading r =? "1") && (calendar_date r <? date)%string) records).

Definition trading_days_after (date : string) (records : list TradingDateRecord)
  : list string :=
  map calendar_date
    (filter (fun r => (is_trading r =? "1") && (date <? calendar_date r)%string) records).

(** The calendar query for a range of dates. *)
Definition range_query (start_date end_date : string) : Query :=
  mkQuery query_trade_dates
    [("start_date", PStr start_date); ("end_date", PStr end_date)].

(** The row of a calendar table that a record becomes. *)
Definition record_cells (r : TradingDateRecord) : list cell :=
  [Some (calendar_date r); Some (is_trading r)].

(** Order of the rows of a table by their first column. *)
Definition date_le (a b : list cell) : Prop :=
  cell_leb (nth 0 a None) (nth 0 b None) = true.

(** ** Notions for the further properties *)

(** How many months before the current month the analysis window starts. *)
Definition months_back (period : string) (now : datetime) : Z :=
  if period =? "recent" then
    if (day now <? 15)%Z then (if (month now =? 2)%Z then 1 else 2)%Z else 1%Z
  else if period =? "quarter" then 3%Z
  else if period =? "half_year" then 6%Z
  else if period =? "year" then 12%Z
  else 1%Z.

(** A cursor over three columns of the basic information of one stock. *)
Definition basic_info_cursor : ResultData :=
  mkResultData "0" "success" ["code"; "code_name"; "ipoDate"]
    [["sh.600000"; "SPDB"; "1999-11-10"]] None.

(** ** Notions for the formatter and the tools *)

(** What the Markdown output shows of a table already cut to the rows to
    show: the placeholder when nothing is left, otherwise what the renderer
    makes of the rows, or the formatting error. *)
Definition markdown_body (render : Rendering) (shown : DataFrame) : string :=
  if df_empty shown then "(No data available to display)"
  else match to_markdown render shown with
       | inr t => t
       | inl _ => "Error: Could not format data into Markdown table."
       end.

(** A renderer that prints the column labels and the number of rows. *)
Definition sample_rendering : Rendering :=
  mkRendering
    (fun df => inr (fstr [String.concat "|" (columns df); " x "; str_nat (List.length (rows df))]))
    (fun df => inr (String.concat "," (columns df)))
    (fun _ => inr "{}").

(** A renderer in an installation without the [tabulate] package. *)
Definition rendering_without_tabulate : Rendering :=
  mkRendering
    (fun _ => inl (Exn (OtherError "ImportError") "Missing optional dependency 'tabulate'."))
    (fun df => inr (String.concat "," (columns df)))
    (fun _ => inr "{}").

(** A table of three trading-calendar rows. *)
Definition three_days : DataFrame :=
  mkDataFrame ["calendar_date"; "is_trading_day"]
    [[Some "2024-01-01"; Some "0"]; [Some "2024-01-02"; Some "1"];
     [Some "2024-01-03"; Some "1"]].

(** A call of one of the tools that close with the five [except] clauses. *)
Inductive ToolCall : Type :=
| HistoricalKDataTool (code start_date end_date frequency adjust_flag : string)
    (fields_ : option (list pyval)) (limit : Z) (format : string)
| StockBasicInfoTool (code : string) (fields_ : option (list pyval)) (format : string)
| DividendDataTool (code year year_type : string) (limit : Z) (format : string)
| AdjustFactorDataTool (code start_date end_date : string) (limit : Z) (format : string)
| TradeDatesTool (start_date end_date : option string) (limit : Z) (format : string)
| AllStockTool (date : option string) (limit : Z) (format : string).

Definition run_tool (ds : Provider) (render : Rendering) (t : ToolCall) : M string :=
  match t with
  | HistoricalKDataTool code s e fr adj fs limit format =>
      stock_market.get_historical_k_data ds render code s e fr adj fs limit format
  | StockBasicInfoTool code fs format =>
      stock_market.get_stock_basic_info ds render code fs format
  | DividendDataTool code year year_type limit format =>
      stock_market.get_dividend_data ds render code year year_type limit format
  | AdjustFactorDataTool code s e limit format =>
      stock_market.get_adjust_factor_data ds render code s e limit format
  | TradeDatesTool s e limit format =>
      market_overview.get_trade_dates ds render s e limit format
  | AllStockTool date limit format =>
      market_overview.get_all_stock ds render date limit format
  end.

(** The method of the data source that serves the tool. *)
Definition source_call (t : ToolCall) : FetchCall :=
  match t with
  | HistoricalKDataTool code s e fr adj fs _ _ => HistoricalKData code s e fr adj fs
  | StockBasicInfoTool code fs _ => StockBasicInfo code fs
  | DividendDataTool code year year_type _ _ => DividendData code year year_type
  | AdjustFactorDataTool code s e _ _ => AdjustFactorData code s e
  | TradeDatesTool s e _ _ => TradeDates s e
  | AllStockTool date _ _ => AllStock date
  end.

Definition tool_format (t : ToolCall) : string :=
  match t with
  | HistoricalKDataTool _ _ _ _ _ _ _ format
  | StockBasicInfoTool _ _ format
  | DividendDataTool _ _ _ _ format
  | AdjustFactorDataTool _ _ _ _ format
  | TradeDatesTool _ _ _ format
  | AllStockTool _ _ format => format
  end.

Definition accepts {A} (r : exn + A) : bool :=
  match r with inr _ => true | inl _ => false end.

(** The arguments pass the validators of services/validation.py that
    apply to them. *)
Definition passes_validation (t : ToolCall) : bool :=
  match t with
  | HistoricalKDataTool _ _ _ fr adj _ _ _ =>
      accepts (validation.validate_frequency fr)
      && accepts (validation.validate_adjust_flag adj)
  | DividendDataTool _ year year_type _ _ =>
      accepts (validation.validate_year_type year_type)
      && accepts (validation.validate_year year)
  | _ => true
  end.

(** The text with which a tool reports a [ValueError]. *)
Definition value_error_text (t : ToolCall) : string :=
  match t with
  | StockBasicInfoTool _ _ _ =>
      "Error: Invalid input parameter or requested field not available. "
  | _ => "Error: Invalid input parameter. "
  end.

(** The answer for an exception, by its class. *)
Definition error_answer (value_error : string) (e : exn) : string :=
  match exn_cls e with
  | NoDataFoundError => fstr ["Error: "; exn_str e]
  | LoginError => fstr ["Error: Could not connect to data source. "; exn_str e]
  | DataSourceError => fstr ["Error: An error occurred while fetching data. "; exn_str e]
  | ValueError => fstr [value_error; exn_str e]
  | _ => fstr ["Error: An unexpected error occurred: "; exn_str e]
  end.

(** The text that [format_table_output] answers for a table. *)
Definition table_answer (render : Rendering) (df : DataFrame) (format : string)
    (max_rows : Z) (meta : list (string * pyval)) : string :=
  match fst (format_table_output render (Some df) format (Some max_rows) (Some meta)
               empty_world) with
  | inr s => s
  | inl e => exn_str e
  end.

(** The row limit and the meta data that a tool passes to the formatter. *)
Definition tool_limit (t : ToolCall) (df : DataFrame) : Z :=
  match t with
  | StockBasicInfoTool _ _ _ => shape0 df
  | HistoricalKDataTool _ _ _ _ _ _ limit _
  | DividendDataTool _ _ _ limit _
  | AdjustFactorDataTool _ _ _ limit _
  | TradeDatesTool _ _ limit _
  | AllStockTool _ limit _ => limit
  end.

Definition tool_meta (t : ToolCall) : list (string * pyval) :=
  match t with
  | HistoricalKDataTool code s e fr adj _ _ _ =>
      [("code", PStr code); ("start_date", PStr s); ("end_date", PStr e);
       ("frequency", PStr fr); ("adjust_flag", PStr adj)]
  | StockBasicInfoTool code _ _ => [("code", PStr code)]
  | DividendDataTool code year year_type _ _ =>
      [("code", PStr code); ("year", PStr year); ("year_type", PStr year_type)]
  | AdjustFactorDataTool code s e _ _ =>
      [("code", PStr code); ("start_date", PStr s); ("end_date", PStr e)]
  | TradeDatesTool s e _ _ =>
      [("start_date", PStr (or_else s "default")); ("end_date", PStr (or_else e "default"))]
  | AllStockTool date _ _ => [("as_of", PStr (or_else date "default"))]
  end.

(** The world after the record that a tool logs on entry. *)
Definition tool_entered (w : World) : World := mkWorld (calls w) (logs w ++ [INFO]).

(** The first validator that refuses. *)
Fixpoint first_refusal (checks : list (exn + unit)) : option exn :=
  match checks with
  | [] => None
  | inl e :: _ => Some e
  | inr _ :: rest => first_refusal rest
  end.

(** A cursor over a list of stocks with their trading status. *)
Definition stock_list_cursor : ResultData :=
  mkResultData "0" "success" ["code"; "tradeStatus"; "code_name"]
    [["sh.600000"; "1"; "SPDB"]; ["sh.600001"; "0"; "HDGT"]; ["sz.000001"; "1"; "PAB"];
     ["sz.000002"; "0"; "WK"]] None.

(** A cursor over the industry classification of four stocks. *)
Definition industry_cursor : ResultData :=
  mkResultData "0" "success" ["updateDate"; "code"; "industry"]
    [["2024-01-08"; "sh.600000"; "J66"]; ["2024-01-08"; "sh.600004"; "G56"];
     ["2024-01-08"; "sh.600015"; "J66"]; ["2024-01-08"; "sh.600006"; "C36"]] None.

(** The field at position [i] of a row of the cursor is [value]. *)
Definition field_is (i : nat) (value : string) (r : list string) : bool :=
  match nth_error r i with
  | Some v => v =? value
  | None => false
  end.

(** The text is ASCII: every character has a code below 128. *)
Definition is_ascii (s : string) : bool :=
  forallb (fun c => (N_of_ascii c <? 128)%N) (list_ascii_of_string s).

(** A stock code in the form of the provider: "sh." or "sz." and six
    digits. *)
Definition baostock_code (s : string) : Prop :=
  exists ex num,
    (ex = "sh" \/ ex = "sz") /\ six_digits num = true /\ s = fstr [ex; "."; num].

(** The exchange that [normalize_stock_code] gives to a bare number. *)
Definition exchange_of_number (num : string) : string :=
  if String.prefix "6" num then "sh" else "sz".

(** The text of the [re.error] for a global flag inside a pattern. *)
Definition flag_error_answer : string :=
  "Error: global flags not at the start of the expression at position 12".

(** The method of the data source that serves an index key. *)
Definition index_call (key : string) (date : option string) : option FetchCall :=
  if key =? "hs300" then Some (Hs300Stocks date)
  else if key =? "sz50" then Some (Sz50Stocks date)
  else if key =? "zz500" then Some (Zz500Stocks date)
  else None.

(** The text consists of white space only. *)
Definition blank (s : string) : Prop :=
  Forall (fun c => isspace c = true) (list_ascii_of_string s).

(** * Properties *)


(** ** The session context (utils.py) *)

Section SessionContext.

Context {A : Type}.
Variable bs : Provider.
Variable body : M A.

Lemma app_assoc3 {B} (l : list B) (a b c : B) :
  ((l ++ [a]) ++ [b]) ++ [c] = l ++ [a; b; c].
Proof. now rewrite <- !app_assoc. Qed.

(** Closed form of the context when the login is accepted. *)
Lemma login_context_accepted (w : World) (lg : ResultData) :
  login_reply bs = inr lg ->
  error_code lg = "0" ->
  baostock_login_context bs body w =
    let (r, w1) := body (entered w) in
    match logout_reply bs with
    | None => (r, mkWorld (calls w1 ++ [CallLogout]) (logs w1 ++ [DEBUG; DEBUG; INFO]))
    | Some e => (inl e, mkWorld (calls w1 ++ [CallLogout]) (logs w1 ++ [DEBUG]))
    end.
Proof.
  intros Hlg Hcode.
  unfold baostock_login_context, bind, log, bs_login, try_finally, bs_logout, entered.
  cbn. rewrite Hlg, Hcode. cbn. rewrite app_assoc3.
  destruct (body _) as [r w1].
  destruct (logout_reply bs); cbn; [reflexivity|].
  now rewrite app_assoc3.
Qed.

(** Closed form of the context when the login is rejected. *)
Lemma login_context_rejected (w : World) (lg : ResultData) :
  login_reply bs = inr lg ->
  error_code lg <> "0" ->
  baostock_login_context bs body w =
    (inl (Exn LoginError ("Baostock login failed: " ++ error_msg lg)),
     mkWorld (calls w ++ [CallLogin]) (logs w ++ [DEBUG; DEBUG; ERROR])).
Proof.
  intros Hlg Hcode. apply String.eqb_neq in Hcode.
  unfold baostock_login_context, bind, log, bs_login, raise.
  cbn. rewrite Hlg, Hcode. cbn. now rewrite app_assoc3.
Qed.

(** Closed form of the context when the login itself raises. *)
Lemma login_context_login_raises (w : World) (e : exn) :
  login_reply bs = inl e ->
  baostock_login_context bs body w =
    (inl e, mkWorld (calls w ++ [CallLogin]) (logs w ++ [DEBUG])).
Proof.
  intros Hlg.
  unfold baostock_login_context, bind, log, bs_login.
  cbn. now rewrite Hlg.
Qed.

End SessionContext.

(** ** A small program logic for [M] *)

Lemma returns_ret {A} (a : A) (P : A -> Prop) : P a -> returns (ret a) P.
Proof. intros H w a' w' E. inversion E; subst. exact H. Qed.

Lemma returns_raise {A} (e : exn) (P : A -> Prop) : returns (raise e) P.
Proof. intros w a w' E. discriminate E. Qed.

Lemma returns_bind {A B} (m : M A) (k : A -> M B) (Q : A -> Prop) (P : B -> Prop) :
  returns m Q -> (forall a, Q a -> returns (k a) P) -> returns (bind m k) P.
Proof.
  intros Hm Hk w b w' E. unfold bind in E.
  destruct (m w) as [[e|a] w1] eqn:Em; [discriminate|].
  eapply Hk; eauto.
Qed.

Lemma returns_bind_any {A B} (m : M A) (k : A -> M B) (P : B -> Prop) :
  (forall a, returns (k a) P) -> returns (bind m k) P.
Proof.
  intros Hk. apply returns_bind with (Q := fun _ => True); [easy|auto].
Qed.

Lemma returns_try_except {A} (body : M A) (h : exn -> M A) (P : A -> Prop) :
  returns body P -> (forall e, returns (h e) P) -> returns (try_except body h) P.
Proof.
  intros Hb Hh w a w' E. unfold try_except in E.
  destruct (body w) as [[e|a0] w1] eqn:Eb.
  - eapply Hh; eauto.
  - inversion E; subst. eapply Hb; eauto.
Qed.

Lemma returns_try_finally {A} (body : M A) (c : M unit) (P : A -> Prop) :
  returns body P -> returns (try_finally body c) P.
Proof.
  intros Hb w a w' E. unfold try_finally in E.
  destruct (body w) as [r w1] eqn:Eb.
  destruct (c w1) as [[e|[]] w2]; [discriminate|].
  inversion E; subst. eapply Hb; eauto.
Qed.

Lemma returns_login_context {A} (bs : Provider) (body : M A) (P : A -> Prop) :
  returns body P -> returns (baostock_login_context bs body) P.
Proof.
  intros Hb. unfold baostock_login_context.
  apply returns_bind_any; intros _.
  apply returns_bind_any; intros lg.
  apply returns_bind_any; intros _.
  destruct (negb _).
  - apply returns_bind_any; intros _. intros w a w' E. discriminate E.
  - apply returns_bind_any; intros _. now apply returns_try_finally.
Qed.

Lemma returns_reraise_or_wrap {A} (u : string) (e : exn) (P : A -> Prop) :
  returns (reraise_or_wrap u e) P.
Proof.
  unfold reraise_or_wrap. destruct (is_known_error e);
    apply returns_bind_any; intros _ w a w' E; discriminate E.
Qed.

(** An [if cond: log; raise] statement lets the rest run only when the
    condition is false. *)
Lemma returns_when_raise {B} (cond : bool) (l : Level) (e : exn) (k : unit -> M B)
    (P : B -> Prop) :
  (cond = false -> returns (k tt) P) ->
  returns (bind (when cond (bind (log l) (fun _ => raise e))) k) P.
Proof.
  intros Hk. destruct cond; unfold when.
  - intros w b w' E. discriminate E.
  - apply returns_bind_any. intros []. now apply Hk.
Qed.

Lemma returns_when_raise_now {B} (cond : bool) (e : exn) (k : unit -> M B)
    (P : B -> Prop) :
  (cond = false -> returns (k tt) P) ->
  returns (bind (when cond (raise e)) k) P.
Proof.
  intros Hk. destruct cond; unfold when.
  - intros w b w' E. discriminate E.
  - apply returns_bind_any. intros []. now apply Hk.
Qed.

(** A table built from at least one row has at least one row. *)
Lemma pd_DataFrame_rows (data_list : list (list string)) (cols : list string)
    (df : DataFrame) :
  pd_DataFrame data_list cols = inr df ->
  List.length (rows df) = List.length data_list.
Proof.
  unfold pd_DataFrame. destruct data_list as [|r l].
  - intros E. inversion E. reflexivity.
  - destruct (_ =? _)%nat; intros E; inversion E. cbn.
    now rewrite length_map.
Qed.

Lemma returns_pd_DataFrame {B} (data_list : list (list string)) (cols : list string)
    (k : DataFrame -> M B) (P : B -> Prop) :
  is_empty data_list = false ->
  (forall df, rows df <> [] -> returns (k df) P) ->
  returns (bind (lift (pd_DataFrame data_list cols)) k) P.
Proof.
  intros Hne Hk. apply returns_bind with (Q := fun df => rows df <> []); [|exact Hk].
  intros w df w' E. unfold lift in E. inversion E as [[E1 E2]].
  apply pd_DataFrame_rows in E1. intros Hrows. rewrite Hrows in E1.
  destruct data_list; [discriminate Hne|discriminate E1].
Qed.

Lemma select_columns_rows (df : DataFrame) (names : list string) :
  rows df <> [] -> rows (select_columns df names) <> [].
Proof.
  unfold select_columns. cbn [rows]. destruct (rows df); [easy|discriminate].
Qed.

(** One step of the walk through a fetch towards its [return]. *)
Ltac returns_step :=
  lazymatch goal with
  | |- forall _, _ => intro
  | |- returns (try_except _ _) _ => apply returns_try_except
  | |- returns (baostock_login_context _ _) _ => apply returns_login_context
  | |- returns (reraise_or_wrap _ _) _ => apply returns_reraise_or_wrap
  | |- returns (bind (when _ (bind (log _) (fun _ => raise _))) _) _ =>
      apply returns_when_raise; intros ?
  | |- returns (bind (when _ (raise _)) _) _ =>
      apply returns_when_raise_now; intros ?
  | |- returns (bind (lift (pd_DataFrame _ _)) _) _ =>
      apply returns_pd_DataFrame; [assumption|intros ? ?]
  | |- returns (bind _ _) _ => apply returns_bind_any; intros ?
  | |- returns (ret _) _ => apply returns_ret
  | |- returns (raise _) _ => apply returns_raise
  end.

(** No method of the data source returns a table without rows. *)
Lemma fetch_returns_rows (bs : Provider) (c : FetchCall) :
  returns (fetch bs c) (fun df => rows df <> []).
Proof.
  destruct c; cbn [fetch];
    unfold get_historical_k_data, get_stock_basic_info, get_dividend_data,
      get_adjust_factor_data, get_profit_data, get_operation_data, get_growth_data,
      get_balance_data, get_cash_flow_data, get_dupont_data,
      get_performance_express_report, get_forecast_report, get_stock_industry,
      get_sz50_stocks, get_hs300_stocks, get_zz500_stocks, get_trade_dates,
      get_all_stock, get_deposit_rate_data, get_loan_rate_data,
      get_required_reserve_ratio_data, get_money_supply_data_month,
      get_money_supply_data_year, _fetch_financial_data,
      _fetch_index_constituent_data, _fetch_macro_data;
    repeat returns_step; try assumption.
  destruct fields_ as [[|f fs]|]; repeat returns_step; try assumption.
  now apply select_columns_rows.
Qed.

(** ** The fetch boundary *)

Lemma is_known_error_classified (e : exn) :
  is_known_error e = true <-> classified e.
Proof.
  unfold is_known_error, classified. destruct e as [[] m]; cbn; intuition congruence.
Qed.

(** What the test of the boundary decides is what the class of the
    exception asks for. *)
Lemma surfaced_by_test (e0 e : exn) :
  (if is_known_error e0 then e = e0
   else exn_cls e = DataSourceError
        /\ exists unexpected, exn_str e = (unexpected ++ exn_str e0)%string) ->
  surfaced e0 e.
Proof.
  intros H. split; intros Hc.
  - apply is_known_error_classified in Hc. now rewrite Hc in H.
  - destruct (is_known_error e0) eqn:K; [|exact H].
    apply is_known_error_classified in K. contradiction.
Qed.

Lemma raises_bind_log {A} (l : Level) (m : M A) (P : exn -> Prop) :
  raises m P -> raises (bind (log l) (fun _ => m)) P.
Proof. intros Hm w e w' E. unfold bind, log in E. eapply Hm; eauto. Qed.

(** Whatever the guarded block does, what leaves the two [except] clauses
    is of one of the four classes. *)
Lemma raises_boundary {A} (body : M A) (unexpected : string) :
  raises (try_except body (reraise_or_wrap unexpected)) classified.
Proof.
  intros w e w' E. unfold try_except in E.
  destruct (body w) as [[e0|a] w1]; [|discriminate].
  unfold reraise_or_wrap in E. destruct (is_known_error e0) eqn:K;
    unfold bind, log, raise in E; inversion E; subst.
  - now apply is_known_error_classified.
  - right. right. now left.
Qed.

Lemma fetch_raises_classified (bs : Provider) (c : FetchCall) :
  raises (fetch bs c) classified.
Proof.
  destruct c; cbn [fetch];
    unfold get_historical_k_data, get_stock_basic_info, get_dividend_data,
      get_adjust_factor_data, get_profit_data, get_operation_data, get_growth_data,
      get_balance_data, get_cash_flow_data, get_dupont_data,
      get_performance_express_report, get_forecast_report, get_stock_industry,
      get_sz50_stocks, get_hs300_stocks, get_zz500_stocks, get_trade_dates,
      get_all_stock, get_deposit_rate_data, get_loan_rate_data,
      get_required_reserve_ratio_data, get_money_supply_data_month,
      get_money_supply_data_year, _fetch_financial_data,
      _fetch_index_constituent_data, _fetch_macro_data;
    apply raises_bind_log, raises_boundary.
Qed.

(** ** Running a fetch *)

Ltac unfold_methods :=
  cbn [fetch];
  unfold get_historical_k_data, get_stock_basic_info, get_dividend_data,
    get_adjust_factor_data, get_profit_data, get_operation_data, get_growth_data,
    get_balance_data, get_cash_flow_data, get_dupont_data,
    get_performance_express_report, get_forecast_report, get_stock_industry,
    get_sz50_stocks, get_hs300_stocks, get_zz500_stocks, get_trade_dates,
    get_all_stock, get_deposit_rate_data, get_loan_rate_data,
    get_required_reserve_ratio_data, get_money_supply_data_month,
    get_money_supply_data_year, _fetch_financial_data,
    _fetch_index_constituent_data, _fetch_macro_data.

Ltac unfold_fetch := unfold_methods; unfold _format_fields.

Ltac unfold_monad :=
  unfold try_except, baostock_login_context, bind, log, bs_login, bs_logout,
    bs_query, try_finally, when, drain, lift, raise, ret, reraise_or_wrap.

(** Names the replies of a provider whose session opens and closes. *)
Ltac open_session H :=
  let lg := fresh "lg" in
  let Hlg := fresh "Hlg" in
  let Hcode := fresh "Hcode" in
  let Hout := fresh "Hout" in
  destruct H as [[lg [Hlg Hcode]] Hout];
  match goal with
  | bs : Provider |- _ =>
      destruct bs as [? ? ?]; cbn in Hlg, Hout; subst;
      destruct lg as [? ? ? ? ?]; cbn in Hcode; subst
  end.

(** Evaluates a fetch on every kind of call, rewriting with [Hq] (the
    answer to the query) and with the facts [Hs] about the cursor. *)
Ltac run_fetch Hf Hq :=
  unfold_fetch; unfold_monad; cbn -[fstr no_data_signal pd_DataFrame];
  try (match goal with
       | fields_ : option (list pyval) |- _ =>
           destruct fields_ as [[|? ?]|];
           cbn -[fstr no_data_signal pd_DataFrame] in Hf |- *;
           rewrite ?Hf; cbn -[fstr no_data_signal pd_DataFrame]
       end);
  rewrite ?Hq; cbn -[fstr no_data_signal pd_DataFrame].

Lemma fetch_empty_result (bs : Provider) (c : FetchCall) (rs : ResultData) (w : World) :
  session_ok bs -> answers bs rs -> fields_are_strings c = true ->
  error_code rs = "0" ->
  drain_loop (data rs) (fault rs) [] = inr [] ->
  exists e, fst (fetch bs c w) = inl e /\ exn_cls e = NoDataFoundError.
Proof.
  intros Hs Hq Hf Hrs Hdrain. open_session Hs.
  unfold answers in Hq; cbn in Hq.
  destruct rs as [code msg flds dat flt]. cbn in Hrs, Hdrain. subst code.
  destruct c; run_fetch Hf Hq; rewrite ?Hdrain; cbn -[fstr];
    eexists; (split; reflexivity).
Qed.

Lemma lower_app (a b : string) : lower (a ++ b) = (lower a ++ lower b)%string.
Proof. induction a as [|c a IH]; cbn; [reflexivity|now rewrite IH]. Qed.

Lemma prefix_app (p s : string) : String.prefix p (p ++ s) = true.
Proof.
  induction p as [|c p IH]; cbn.
  - now destruct s.
  - destruct (ascii_dec c c); [exact IH|congruence].
Qed.

Lemma contains_app (pat pre post : string) :
  contains pat (pre ++ pat ++ post) = true.
Proof.
  induction pre as [|c pre IH].
  - cbn [append]. destruct (pat ++ post)%string eqn:E; cbn [contains];
      rewrite <- E, prefix_app; reflexivity.
  - cbn [append contains]. rewrite IH. apply orb_true_r.
Qed.

Lemma mentions_no_record_signal (rs : ResultData) :
  mentions_no_record (error_msg rs) -> no_data_signal rs = true.
Proof.
  intros (pre & mid & post & Hmsg & Hmid). unfold no_data_signal.
  rewrite Hmsg, !lower_app, Hmid, contains_app. reflexivity.
Qed.

Lemma fetch_provider_error (bs : Provider) (c : FetchCall) (rs : ResultData) (w : World) :
  session_ok bs -> answers bs rs -> fields_are_strings c = true ->
  error_code rs <> "0" ->
  exists e, fst (fetch bs c w) = inl e
    /\ exn_cls e =
         if uses_no_data_rule c && no_data_signal rs then NoDataFoundError
         else DataSourceError.
Proof.
  intros Hs Hq Hf Hrs. open_session Hs.
  unfold answers in Hq; cbn in Hq. apply String.eqb_neq in Hrs.
  destruct c; run_fetch Hf Hq; rewrite ?Hrs; cbn -[fstr no_data_signal];
    try (destruct (no_data_signal rs); cbn -[fstr]);
    eexists; (split; reflexivity).
Qed.

Lemma max_width_rect (n : nat) (r : list string) (l : list (list string)) :
  Forall (fun r => List.length r = n) (r :: l) -> max_width (r :: l) = n.
Proof.
  revert r. induction l as [|r' l IH]; intros r H;
    inversion H as [|? ? Hr Hl]; subst; cbn.
  - apply Nat.max_0_r.
  - change (Nat.max (List.length r) (max_width (r' :: l)) = List.length r).
    rewrite (IH r' Hl). apply Nat.max_id.
Qed.

Lemma pad_row_full (r : list string) : pad_row (List.length r) r = map Some r.
Proof. unfold pad_row. rewrite Nat.sub_diag. cbn. apply app_nil_r. Qed.

(** A rectangular list of rows as wide as the labels gives the table of
    exactly these rows. *)
Lemma pd_DataFrame_rect (data_list : list (list string)) (cols : list string) :
  data_list <> [] ->
  Forall (fun r => List.length r = List.length cols) data_list ->
  pd_DataFrame data_list cols = inr (mkDataFrame cols (map (map Some) data_list)).
Proof.
  intros Hne Hrect. destruct data_list as [|r l]; [congruence|].
  unfold pd_DataFrame. rewrite (max_width_rect _ _ _ Hrect), Nat.eqb_refl.
  f_equal. f_equal. apply map_ext_in. intros r' Hin.
  rewrite Forall_forall in Hrect. rewrite <- (Hrect r' Hin). apply pad_row_full.
Qed.

Lemma fetch_success (bs : Provider) (c : FetchCall) (rs : ResultData) (w : World)
    (data_list : list (list string)) :
  session_ok bs -> answers bs rs -> fields_are_strings c = true ->
  whole_table c = true ->
  error_code rs = "0" ->
  drain_loop (data rs) (fault rs) [] = inr data_list ->
  data_list <> [] ->
  Forall (fun r => List.length r = List.length (fields rs)) data_list ->
  fst (fetch bs c w) = inr (mkDataFrame (fields rs) (map (map Some) data_list)).
Proof.
  intros Hs Hq Hf Hw Hrs Hdrain Hne Hrect. open_session Hs.
  unfold answers in Hq; cbn in Hq.
  destruct rs as [code msg flds dat flt]. cbn in Hrs, Hdrain, Hrect. subst code.
  pose proof (pd_DataFrame_rect _ _ Hne Hrect) as Hdf.
  destruct data_list as [|r l]; [congruence|].
  destruct c; run_fetch Hf Hq; try discriminate Hw;
    rewrite ?Hdrain; cbn -[fstr pd_DataFrame]; rewrite ?Hdf; reflexivity.
Qed.

Lemma drain_loop_fault (pending acc : list (list string)) (e : exn) :
  drain_loop pending (Some e) acc = inl e.
Proof. revert acc. induction pending as [|r l IH]; intros acc; cbn; auto. Qed.

(** What leaves the boundary when the guarded block raises [e0]. *)
Lemma surfaced_boundary {A} (suite : M A) (unexpected : string) (w : World) (e0 : exn) :
  fst (suite w) = inl e0 ->
  exists e, fst (try_except suite (reraise_or_wrap unexpected) w) = inl e
            /\ surfaced e0 e.
Proof.
  intros H. unfold try_except. destruct (suite w) as [r w1]. cbn in H. subst r.
  unfold reraise_or_wrap.
  destruct (is_known_error e0) eqn:K; cbn; eexists; (split; [reflexivity|]);
    apply surfaced_by_test; rewrite K; [reflexivity|].
  split; [reflexivity|]. now exists unexpected.
Qed.

Lemma fst_login_context_logout_raises {A} (bs : Provider) (body : M A) (w : World)
    (e0 : exn) :
  login_accepted bs -> logout_reply bs = Some e0 ->
  fst (baostock_login_context bs body w) = inl e0.
Proof.
  intros [lg [Hlg Hcode]] Hout.
  rewrite (login_context_accepted bs body w lg Hlg Hcode).
  destruct (body (entered w)) as [r w1]. now rewrite Hout.
Qed.

Lemma fst_login_context_login_raises {A} (bs : Provider) (body : M A) (w : World)
    (e0 : exn) :
  login_reply bs = inl e0 ->
  fst (baostock_login_context bs body w) = inl e0.
Proof. intros H. now rewrite (login_context_login_raises bs body w e0 H). Qed.

Lemma fst_bind_log {A} (l : Level) (m : M A) (w : World) :
  fst (bind (log l) (fun _ => m) w) = fst (m (mkWorld (calls w) (logs w ++ [l]))).
Proof. reflexivity. Qed.

Lemma fst_bind_returns {A B} (m : M A) (k : A -> M B) (w w1 : World) (a : A) :
  m w = (inr a, w1) -> fst (bind m k w) = fst (k a w1).
Proof. intros E. unfold bind. now rewrite E. Qed.

Lemma format_fields_returns (fs : option (list pyval)) (d : list string) (w : World) :
  match fs with Some l => forallb is_str l | None => true end = true ->
  exists s w1, _format_fields fs d w = (inr s, w1).
Proof.
  intros H. unfold _format_fields.
  destruct fs as [[|f l]|]; try (eexists; eexists; reflexivity).
  rewrite H. eexists; eexists; reflexivity.
Qed.

(** Brings the goal to the [with] statement of a fetch whose block raises. *)
Ltac reach_context Hf :=
  unfold_methods; rewrite fst_bind_log; apply surfaced_boundary;
  try (cbn in Hf;
       match goal with
       | |- context [bind (_format_fields ?fs ?d) _ ?w] =>
           let s := fresh "s" in
           let w1 := fresh "w" in
           let E := fresh "E" in
           destruct (format_fields_returns fs d w Hf) as (s & w1 & E);
           rewrite (fst_bind_returns _ _ _ _ _ E)
       end);
  rewrite ?fst_bind_log.

Lemma fetch_surfaces (bs : Provider) (c : FetchCall) (w : World) (e0 : exn) :
  fields_are_strings c = true ->
  raised_inside bs e0 ->
  exists e, fst (fetch bs c w) = inl e /\ surfaced e0 e.
Proof.
  intros Hf [Hlr | Hs Hq | rs Hs Hq Hrs Hflt | Hacc Hlo].
  - destruct c; reach_context Hf; now apply fst_login_context_login_raises.
  - open_session Hs. cbn in Hq.
    destruct c; run_fetch Hf Hq;
      destruct (is_known_error e0) eqn:K; cbn -[fstr]; eexists;
      (split; [reflexivity|]); apply surfaced_by_test; rewrite K;
      try reflexivity; (split; [reflexivity|eexists; reflexivity]).
  - open_session Hs. unfold answers in Hq. cbn in Hq.
    destruct rs as [code msg flds dat flt]. cbn in Hrs, Hflt. subst code flt.
    destruct c; run_fetch Hf Hq; rewrite drain_loop_fault;
      destruct (is_known_error e0) eqn:K; cbn -[fstr]; eexists;
      (split; [reflexivity|]); apply surfaced_by_test; rewrite K;
      try reflexivity; (split; [reflexivity|eexists; reflexivity]).
  - destruct c; reach_context Hf; now apply fst_login_context_logout_raises.
Qed.

(** ** The claims about the session context *)

(** C3.  Around any body: when the login is accepted (status '0'), the body
    runs and [bs.logout] is called right after it finishes, whether it
    returned or raised, and the outcome of the body is the outcome of the
    [with] statement unless the logout itself raises; when the login is
    rejected, [LoginError] with the provider's message is raised and the
    result does not depend on the body, which is never run: the only call
    made is the login. *)
Theorem login_context_brackets_body {A} (bs : Provider) (body : M A) (w : World)
    (lg : ResultData) :
  login_reply bs = inr lg ->
  if error_code lg =? "0" then
    let (r, w1) := body (entered w) in
    exists w2,
      baostock_login_context bs body w =
        (match logout_reply bs with None => r | Some e => inl e end, w2)
      /\ calls w2 = calls w1 ++ [CallLogout]
  else
    baostock_login_context bs body w =
      (inl (Exn LoginError ("Baostock login failed: " ++ error_msg lg)),
       mkWorld (calls w ++ [CallLogin]) (logs w ++ [DEBUG; DEBUG; ERROR])).
Proof.
  intros Hlg.
  destruct (error_code lg =? "0") eqn:Hcode.
  - apply String.eqb_eq in Hcode.
    rewrite (login_context_accepted bs body w lg Hlg Hcode).
    destruct (body (entered w)) as [r w1].
    destruct (logout_reply bs); eexists; split; reflexivity.
  - apply String.eqb_neq in Hcode.
    now apply login_context_rejected.
Qed.

Lemma login_context_brackets_body_witness :
  (exists w2,
     baostock_login_context (provider_answering empty_cursor)
       (raise no_rows : M unit) empty_world = (inl no_rows, w2)
     /\ calls w2 = calls (entered empty_world) ++ [CallLogout])
  /\ baostock_login_context provider_refusing_login (raise no_rows : M unit) empty_world
     = (inl (Exn LoginError "Baostock login failed: network error"),
        mkWorld [CallLogin] [DEBUG; DEBUG; ERROR]).
Proof.
  split.
  - exact (login_context_brackets_body (provider_answering empty_cursor)
             (raise no_rows : M unit) empty_world login_success eq_refl).
  - exact (login_context_brackets_body provider_refusing_login
             (raise no_rows : M unit) empty_world login_refused eq_refl).
Defined.

(** C4, as stated, fails: with a provider whose logout raises and a body
    that raises [NoDataFoundError], the [with] statement ends with the
    exception of the logout, not with the error of the body. *)
Lemma logout_failure_masks_body_error :
  fst (baostock_login_context provider_failing_logout (raise no_rows : M unit) empty_world)
    = inl connection_lost
  /\ fst (baostock_login_context provider_failing_logout (raise no_rows : M unit)
            empty_world)
     <> inl no_rows.
Proof. split; [reflexivity|discriminate]. Qed.

(** C4, as the code has it.  When [bs.logout] raises, the context does not
    catch the exception: it becomes the outcome of the [with] statement in
    place of the result or the error of the body, and the context logs
    nothing about it (the only record after the body is the debug line
    written before the call). *)
Theorem logout_failure_propagates {A} (bs : Provider) (body : M A) (w : World)
    (lg : ResultData) (e : exn) :
  login_reply bs = inr lg ->
  error_code lg = "0" ->
  logout_reply bs = Some e ->
  baostock_login_context bs body w =
    (inl e,
     mkWorld (calls (snd (body (entered w))) ++ [CallLogout])
             (logs (snd (body (entered w))) ++ [DEBUG])).
Proof.
  intros Hlg Hcode Hout.
  rewrite (login_context_accepted bs body w lg Hlg Hcode).
  destruct (body (entered w)) as [r w1]. now rewrite Hout.
Qed.

Lemma logout_failure_propagates_witness :
  baostock_login_context provider_failing_logout (raise no_rows : M unit) empty_world
    = (inl connection_lost,
       mkWorld [CallLogin; CallLogout] [DEBUG; DEBUG; INFO; DEBUG]).
Proof.
  exact (logout_failure_propagates provider_failing_logout (raise no_rows : M unit)
           empty_world login_success connection_lost eq_refl eq_refl eq_refl).
Defined.

(** ** The claims about the fetch operations *)

(** C1, as stated, fails on [get_stock_basic_info] called with a field
    list, a method that applies the same rule.  With status '0' and one
    drained row it does not return the table of the drained rows: it raises
    [ValueError] when none of the requested fields is a column, and
    otherwise returns the requested columns alone. *)
Lemma basic_info_field_list_is_not_the_drained_table :
  error_code basic_info_cursor = "0"
  /\ drain_loop (data basic_info_cursor) (fault basic_info_cursor) []
     = inr [["sh.600000"; "SPDB"; "1999-11-10"]]
  /\ uses_no_data_rule (StockBasicInfo "sh.600000" (Some [PStr "nope"])) = true
  /\ fst (fetch (provider_answering basic_info_cursor)
            (StockBasicInfo "sh.600000" (Some [PStr "nope"])) empty_world)
     = inl (Exn ValueError
              "None of the requested fields ['nope'] are available in the basic info result.")
  /\ fst (fetch (provider_answering basic_info_cursor)
            (StockBasicInfo "sh.600000" (Some [PStr "code"])) empty_world)
     = inr (mkDataFrame ["code"] [[Some "sh.600000"]])
  /\ fst (fetch (provider_answering basic_info_cursor)
            (StockBasicInfo "sh.600000" (Some [PStr "code"])) empty_world)
     <> inr (mkDataFrame (fields basic_info_cursor)
               (map (map Some) (data basic_info_cursor))).
Proof. repeat split; try reflexivity. discriminate. Qed.

(** C1, as the code has it.  Under the hypotheses that the session works
    (login and logout succeed), that the provider answers every query with
    the cursor [rs], that the field list of the call holds strings, and that
    the method of the call applies the classification rule: status '0' and
    no drained row raises [NoDataFoundError]; status '0' and at least one
    drained row (each as wide as the cursor's field list) returns the table
    of exactly the drained rows under the cursor's column names, provided
    that the call returns the fetched table whole ([whole_table]: every call
    but a basic-info request with a field list, which selects columns); any
    other status whose message contains "no record found" in any character
    case raises [NoDataFoundError] (and so not a plain
    [DataSourceError]). *)
Theorem fetch_outcome_classification (bs : Provider) (c : FetchCall) (rs : ResultData)
    (w : World) :
  session_ok bs -> answers bs rs ->
  fields_are_strings c = true -> uses_no_data_rule c = true ->
  (error_code rs = "0" ->
   drain_loop (data rs) (fault rs) [] = inr [] ->
   exists e, fst (fetch bs c w) = inl e /\ exn_cls e = NoDataFoundError)
  /\ (error_code rs = "0" -> whole_table c = true ->
      forall data_list,
        drain_loop (data rs) (fault rs) [] = inr data_list ->
        data_list <> [] ->
        Forall (fun r => List.length r = List.length (fields rs)) data_list ->
        fst (fetch bs c w) = inr (mkDataFrame (fields rs) (map (map Some) data_list)))
  /\ (error_code rs <> "0" ->
      mentions_no_record (error_msg rs) ->
      exists e, fst (fetch bs c w) = inl e /\ exn_cls e = NoDataFoundError).
Proof.
  intros Hs Hq Hf Hrule. split; [|split].
  - intros Hrs Hdrain. now apply fetch_empty_result with (rs := rs).
  - intros Hrs Hw data_list Hdrain Hne Hrect. now apply fetch_success.
  - intros Hrs Hmsg.
    destruct (fetch_provider_error bs c rs w Hs Hq Hf Hrs) as (e & He & Hcls).
    exists e. split; [exact He|].
    now rewrite Hrule, (mentions_no_record_signal rs Hmsg) in Hcls.
Qed.

Lemma provider_answering_ok (rs : ResultData) :
  session_ok (provider_answering rs) /\ answers (provider_answering rs) rs.
Proof.
  split; [split; [exists login_success; split; reflexivity|reflexivity]|].
  intros q. reflexivity.
Defined.

Lemma fetch_outcome_classification_witness :
  (exists e, fst (fetch (provider_answering empty_cursor) profit_call empty_world) = inl e
             /\ exn_cls e = NoDataFoundError)
  /\ fst (fetch (provider_answering (calendar_cursor january_2024)) profit_call empty_world)
     = inr (mkDataFrame ["calendar_date"; "is_trading_day"]
              (map (map Some) january_2024))
  /\ (exists e, fst (fetch (provider_answering no_record_cursor) profit_call empty_world)
                = inl e
                /\ exn_cls e = NoDataFoundError).
Proof.
  split; [|split].
  - apply (proj1 (fetch_outcome_classification (provider_answering empty_cursor)
                    profit_call empty_cursor empty_world
                    (proj1 (provider_answering_ok _)) (proj2 (provider_answering_ok _))
                    eq_refl eq_refl)); reflexivity.
  - apply (proj1 (proj2 (fetch_outcome_classification
                           (provider_answering (calendar_cursor january_2024))
                           profit_call (calendar_cursor january_2024) empty_world
                           (proj1 (provider_answering_ok _))
                           (proj2 (provider_answering_ok _))
                           eq_refl eq_refl)) eq_refl eq_refl january_2024 eq_refl).
    + discriminate.
    + repeat constructor.
  - apply (proj2 (proj2 (fetch_outcome_classification
                           (provider_answering no_record_cursor) profit_call
                           no_record_cursor empty_world
                           (proj1 (provider_answering_ok _))
                           (proj2 (provider_answering_ok _))
                           eq_refl eq_refl))).
    + discriminate.
    + exists "", "No Record Found", ".". split; reflexivity.
Defined.

(** C2.  No call of the data source returns a table without rows, whatever
    the provider does; and when the session works and the cursor reports
    status '0' but yields no row, the call raises [NoDataFoundError]. *)
Theorem fetch_never_returns_empty_table (bs : Provider) (c : FetchCall) (w : World) :
  (forall df w', fetch bs c w = (inr df, w') -> rows df <> [])
  /\ (forall rs,
        session_ok bs -> answers bs rs -> fields_are_strings c = true ->
        error_code rs = "0" ->
        drain_loop (data rs) (fault rs) [] = inr [] ->
        exists e, fst (fetch bs c w) = inl e /\ exn_cls e = NoDataFoundError).
Proof.
  split.
  - intros df w' E. exact (fetch_returns_rows bs c w df w' E).
  - intros rs Hs Hq Hf Hrs Hdrain. now apply fetch_empty_result with (rs := rs).
Qed.

Lemma fetch_never_returns_empty_table_witness :
  exists e, fst (fetch (provider_answering empty_cursor) calendar_call empty_world) = inl e
            /\ exn_cls e = NoDataFoundError.
Proof.
  apply (proj2 (fetch_never_returns_empty_table (provider_answering empty_cursor)
                  calendar_call empty_world) empty_cursor
           (proj1 (provider_answering_ok _)) (proj2 (provider_answering_ok _))
           eq_refl eq_refl eq_refl).
Defined.

(** C5.  Whatever the provider does, an exception that leaves a call of the
    data source is a [LoginError], a [NoDataFoundError], a [DataSourceError]
    or a [ValueError].  And when the provider library raises [e0] during the
    fetch (in the login, the query, the draining of the rows or the logout)
    of a call whose field list holds strings, the call raises: [e0] itself,
    unchanged, when [e0] is a [LoginError], a [NoDataFoundError], a
    [DataSourceError] or a [ValueError]; and when [e0] is of any other
    class, a [DataSourceError] whose message ends with the message of
    [e0]. *)
Theorem fetch_errors_classified (bs : Provider) (c : FetchCall) (w : World) :
  (forall e w', fetch bs c w = (inl e, w') -> classified e)
  /\ (forall e0,
        fields_are_strings c = true ->
        raised_inside bs e0 ->
        exists e,
          fst (fetch bs c w) = inl e
          /\ (exn_cls e0 = LoginError \/ exn_cls e0 = NoDataFoundError
               \/ exn_cls e0 = DataSourceError \/ exn_cls e0 = ValueError ->
              e = e0)
          /\ (~ (exn_cls e0 = LoginError \/ exn_cls e0 = NoDataFoundError
                  \/ exn_cls e0 = DataSourceError \/ exn_cls e0 = ValueError) ->
              exn_cls e = DataSourceError
              /\ exists unexpected, exn_str e = (unexpected ++ exn_str e0)%string)).
Proof.
  split.
  - intros e w' E. exact (fetch_raises_classified bs c w e w' E).
  - intros e0 Hf Hin. exact (fetch_surfaces bs c w e0 Hf Hin).
Qed.

Lemma fetch_errors_classified_witness :
  fst (fetch provider_rejecting_query profit_call empty_world) = inl bad_argument
  /\ exists e, fst (fetch provider_failing_query profit_call empty_world) = inl e
                /\ exn_cls e = DataSourceError
                /\ exists unexpected,
                     exn_str e = (unexpected ++ "connection lost")%string.
Proof.
  split.
  - destruct (proj2 (fetch_errors_classified provider_rejecting_query profit_call
                       empty_world) bad_argument eq_refl)
      as (e & He & Hsame & _).
    + apply query_raises.
      * split; [exists login_success; split; reflexivity|reflexivity].
      * intros q. reflexivity.
    + rewrite He. f_equal. apply Hsame. right. right. right. reflexivity.
  - destruct (proj2 (fetch_errors_classified provider_failing_query profit_call
                       empty_world) connection_lost eq_refl)
      as (e & He & _ & Hwrap).
    + apply query_raises.
      * split; [exists login_success; split; reflexivity|reflexivity].
      * intros q. reflexivity.
    + exists e. split; [exact He|]. apply Hwrap.
      intros [H|[H|[H|H]]]; discriminate H.
Defined.

(** C6, as stated, fails on the trade-date calendar: a provider answer with
    status '10002' and the message "no record found" makes [get_trade_dates]
    raise a [DataSourceError], not a [NoDataFoundError]. *)
Lemma trade_dates_no_data_signal_is_error :
  fst (fetch (provider_answering sentinel_cursor) calendar_call empty_world)
    = inl (Exn DataSourceError
             "Baostock API error fetching trade dates: no record found (code: 10002)")
  /\ ~ (exists e,
          fst (fetch (provider_answering sentinel_cursor) calendar_call empty_world) = inl e
          /\ exn_cls e = NoDataFoundError).
Proof.
  split; [reflexivity|].
  intros (e & He & Hcls). cbv in He. inversion He; subst. discriminate Hcls.
Qed.

Lemma sentinel_signal (rs : ResultData) :
  error_code rs = "10002" -> no_data_signal rs = true.
Proof. intros H. unfold no_data_signal. rewrite H. apply orb_true_r. Qed.

(** C6, as the code has it.  With a working session and a provider status
    other than '0': every method but [get_trade_dates] raises
    [NoDataFoundError] when the message contains "no record found" in any
    character case or the status is '10002'; [get_trade_dates] has no such
    rule and raises [DataSourceError] for every such status. *)
Theorem provider_error_outcome (bs : Provider) (c : FetchCall) (rs : ResultData)
    (w : World) :
  session_ok bs -> answers bs rs -> fields_are_strings c = true ->
  error_code rs <> "0" ->
  exists e,
    fst (fetch bs c w) = inl e
    /\ if uses_no_data_rule c then
         mentions_no_record (error_msg rs) \/ error_code rs = "10002" ->
         exn_cls e = NoDataFoundError
       else exn_cls e = DataSourceError.
Proof.
  intros Hs Hq Hf Hrs.
  destruct (fetch_provider_error bs c rs w Hs Hq Hf Hrs) as (e & He & Hcls).
  exists e. split; [exact He|].
  destruct (uses_no_data_rule c); cbn in Hcls; [|exact Hcls].
  intros [Hmsg | Hcode].
  - now rewrite (mentions_no_record_signal rs Hmsg) in Hcls.
  - now rewrite (sentinel_signal rs Hcode) in Hcls.
Qed.

Lemma provider_error_outcome_witness :
  (exists e, fst (fetch (provider_answering sentinel_cursor) profit_call empty_world) = inl e
             /\ exn_cls e = NoDataFoundError)
  /\ (exists e, fst (fetch (provider_answering sentinel_cursor) calendar_call empty_world)
                = inl e
                /\ exn_cls e = DataSourceError).
Proof.
  split.
  - destruct (provider_error_outcome (provider_answering sentinel_cursor) profit_call
                sentinel_cursor empty_world
                (proj1 (provider_answering_ok _)) (proj2 (provider_answering_ok _))
                eq_refl) as (e & He & Hcls).
    + discriminate.
    + exists e. split; [exact He|]. apply Hcls. right. reflexivity.
  - apply (provider_error_outcome (provider_answering sentinel_cursor) calendar_call
             sentinel_cursor empty_world
             (proj1 (provider_answering_ok _)) (proj2 (provider_answering_ok _))
             eq_refl).
    discriminate.
Defined.

(** ** The analysis window (date_utils.py) *)

Lemma get_month_end_day_bounds (y m : Z) : (28 <= get_month_end_day y m <= 31)%Z.
Proof.
  unfold get_month_end_day.
  destruct (m =? 2)%Z; [destruct (isleap y); lia|].
  destruct (_ || _); lia.
Qed.

Lemma datetime_new_valid (y m d : Z) :
  (1 <= y <= 9999)%Z -> (1 <= m <= 12)%Z -> (1 <= d <= 28)%Z ->
  datetime_new y m d = inr (mkDatetime y m d).
Proof.
  intros Hy Hm Hd. unfold datetime_new.
  pose proof (get_month_end_day_bounds y m) as Hb.
  replace ((1 <=? y)%Z && (y <=? 9999)%Z) with true
    by (symmetry; apply andb_true_iff; split; apply Z.leb_le; lia).
  replace ((1 <=? m)%Z && (m <=? 12)%Z) with true
    by (symmetry; apply andb_true_iff; split; apply Z.leb_le; lia).
  replace ((1 <=? d)%Z && (d <=? get_month_end_day y m)%Z) with true
    by (symmetry; apply andb_true_iff; split; apply Z.leb_le; lia).
  reflexivity.
Qed.

(** The window and the label when the start is day 1 of the preceding month
    and the middle date is the start. *)
Lemma preceding_month_window (now : datetime) :
  valid_date now -> (1 < year now)%Z ->
  forall period w,
    (if period =? "recent" then (day now <? 15)%Z = false
     else (period =? "quarter") || (period =? "half_year") || (period =? "year") = false) ->
    get_market_analysis_timeframe period now w
      = (inr (preceding_month_to_today_label now),
         mkWorld (calls w) (logs w ++ [INFO; INFO])).
Proof.
  intros (Hy & Hm & Hd) Hy1 period w Hp.
  unfold get_market_analysis_timeframe, preceding_month_to_today_label, preceding_month.
  assert (Hend : Z.min (get_month_end_day (year now) (month now)) (day now) = day now)
    by lia.
  destruct (period =? "recent") eqn:Erecent.
  - rewrite Hp. destruct (month now =? 1)%Z eqn:Emonth.
    + apply Z.eqb_eq in Emonth.
      unfold bind, log, lift, ret. rewrite datetime_new_valid by lia.
      cbn -[fstr str_Z fmt02 get_month_end_day Z.min]. rewrite Hend.
      replace (year now - 1 =? year now)%Z with false by (symmetry; apply Z.eqb_neq; lia).
      cbn [negb]. now rewrite <- app_assoc.
    + apply Z.eqb_neq in Emonth.
      unfold bind, log, lift, ret. rewrite datetime_new_valid by lia.
      cbn -[fstr str_Z fmt02 get_month_end_day Z.min]. rewrite Hend.
      rewrite !Z.eqb_refl.
      replace (month now - 1 =? month now)%Z with false by (symmetry; apply Z.eqb_neq; lia).
      cbn [negb andb]. now rewrite <- app_assoc.
  - apply orb_false_iff in Hp. destruct Hp as [Hp Hyear].
    apply orb_false_iff in Hp. destruct Hp as [Hquarter Hhalf].
    rewrite Hquarter, Hhalf, Hyear. destruct (month now =? 1)%Z eqn:Emonth.
    + apply Z.eqb_eq in Emonth.
      unfold bind, log, lift, ret. rewrite datetime_new_valid by lia.
      cbn -[fstr str_Z fmt02 get_month_end_day Z.min]. rewrite Hend.
      replace (year now - 1 =? year now)%Z with false by (symmetry; apply Z.eqb_neq; lia).
      cbn [negb]. now rewrite <- app_assoc.
    + apply Z.eqb_neq in Emonth.
      unfold bind, log, lift, ret. rewrite datetime_new_valid by lia.
      cbn -[fstr str_Z fmt02 get_month_end_day Z.min]. rewrite Hend.
      rewrite !Z.eqb_refl.
      replace (month now - 1 =? month now)%Z with false by (symmetry; apply Z.eqb_neq; lia).
      cbn [negb andb]. now rewrite <- app_assoc.
Qed.

(** ** The claims about the analysis window *)

(** C9, as stated, fails: on 2024-06-20 the "recent" window starts on
    2024-05-01 but ends on 2024-06-20, today, in the current month; it is
    not the month of May as both start and end. *)
Lemma recent_window_ends_today :
  fst (get_market_analysis_timeframe "recent" (mkDatetime 2024 6 20) empty_world)
    = inr "2024年5月-6月 (ISO: 2024-05-01 to 2024-06-20)"
  /\ fst (get_market_analysis_timeframe "recent" (mkDatetime 2024 6 20) empty_world)
     <> inr "2024年5月 (ISO: 2024-05-01 to 2024-05-31)".
Proof. split; [reflexivity|discriminate]. Qed.

(** C9, as the code has it.  Called with "recent" on a day of the month
    from the 15th on, the tool returns the window that starts on day 1 of
    the month preceding the current month and ends today; the label names
    the preceding month and the current month. *)
Theorem recent_window_from_mid_month (now : datetime) (w : World) :
  valid_date now -> (1 < year now)%Z -> (15 <= day now)%Z ->
  get_market_analysis_timeframe "recent" now w
    = (inr (preceding_month_to_today_label now),
       mkWorld (calls w) (logs w ++ [INFO; INFO])).
Proof.
  intros Hv Hy Hd. apply preceding_month_window; [assumption|assumption|].
  cbn. apply Z.ltb_ge. exact Hd.
Qed.

Lemma valid_2024_06_20 : valid_date (mkDatetime 2024 6 20).
Proof. unfold valid_date; cbn; lia. Defined.

Lemma valid_2024_01_31 : valid_date (mkDatetime 2024 1 31).
Proof. unfold valid_date; cbn; lia. Defined.

Lemma recent_window_from_mid_month_witness :
  get_market_analysis_timeframe "recent" (mkDatetime 2024 6 20) empty_world
    = (inr "2024年5月-6月 (ISO: 2024-05-01 to 2024-06-20)", mkWorld [] [INFO; INFO]).
Proof.
  apply (recent_window_from_mid_month (mkDatetime 2024 6 20) empty_world
           valid_2024_06_20); cbn; lia.
Defined.

(** C10.  For every period string other than "recent", "quarter",
    "half_year" and "year" the tool raises nothing: it returns the label of
    the default window, which starts on day 1 of the month preceding the
    current month (December of the year before when called in January) and
    ends today.  The fallback is silent: the two log records are the
    informational ones of every call, and the provider is not called. *)
Theorem unknown_period_default_window (period : string) (now : datetime) (w : World) :
  valid_date now -> (1 < year now)%Z ->
  period <> "recent" -> period <> "quarter" -> period <> "half_year" -> period <> "year" ->
  get_market_analysis_timeframe period now w
    = (inr (preceding_month_to_today_label now),
       mkWorld (calls w) (logs w ++ [INFO; INFO])).
Proof.
  intros Hv Hy H1 H2 H3 H4. apply preceding_month_window; [assumption|assumption|].
  apply String.eqb_neq in H1, H2, H3, H4. now rewrite H1, H2, H3, H4.
Qed.

Lemma unknown_period_default_window_witness :
  get_market_analysis_timeframe "qurter" (mkDatetime 2024 1 31) empty_world
    = (inr "2023年12月-2024年1月 (ISO: 2023-12-01 to 2024-01-31)", mkWorld [] [INFO; INFO])
  /\ get_market_analysis_timeframe "" (mkDatetime 2024 6 20) empty_world
     = (inr "2024年5月-6月 (ISO: 2024-05-01 to 2024-06-20)", mkWorld [] [INFO; INFO]).
Proof.
  split.
  - apply (unknown_period_default_window "qurter" (mkDatetime 2024 1 31) empty_world
             valid_2024_01_31); first [cbn; lia|discriminate].
  - apply (unknown_period_default_window "" (mkDatetime 2024 6 20) empty_world
             valid_2024_06_20); first [cbn; lia|discriminate].
Defined.

(** ** Order on strings *)

Lemma ltb_lt (a b : string) : (a <? b)%string = true <-> String_as_OT.lt a b.
Proof.
  unfold String.ltb. rewrite <- String_as_OT.cmp_lt. unfold String_as_OT.cmp.
  destruct (String.compare a b); split; congruence.
Qed.

Lemma leb_le (a b : string) :
  (a <=? b)%string = true <-> a = b \/ String_as_OT.lt a b.
Proof.
  unfold String.leb. rewrite <- String_as_OT.cmp_lt. unfold String_as_OT.cmp.
  destruct (String.compare a b) eqn:E; split; intros H; try congruence; auto.
  - left. now apply String.compare_eq_iff.
  - destruct H as [H|H]; [|discriminate].
    subst b. assert (String.compare a a = Eq) by (now apply String_as_OT.cmp_eq).
    congruence.
Qed.

Lemma leb_refl (a : string) : (a <=? a)%string = true.
Proof. apply leb_le. now left. Qed.

Lemma leb_trans (a b c : string) :
  (a <=? b)%string = true -> (b <=? c)%string = true -> (a <=? c)%string = true.
Proof.
  rewrite !leb_le. intros [->|Hab] [->|Hbc]; auto.
  right. eapply String_as_OT.lt_trans; eauto.
Qed.

Lemma ltb_leb (a b : string) : (a <? b)%string = true -> (a <=? b)%string = true.
Proof. rewrite ltb_lt, leb_le. auto. Qed.

Lemma ltb_false_leb (a b : string) : (a <? b)%string = false -> (b <=? a)%string = true.
Proof.
  unfold String.ltb, String.leb. rewrite (String.compare_antisym b a).
  destruct (String.compare a b); cbn; congruence.
Qed.

(** ** The latest trading date (date_utils.py) *)

(** The loop keeps the greatest of the dates not after [today]. *)
Lemma latest_loop_spec (today : string) (days : list string) (acc : option string) :
  exists res,
    latest_loop (map Some days) today acc = inr res
    /\ match res with
       | None => acc = None /\ filter (fun d => (d <=? today)%string) days = []
       | Some x =>
           (acc = Some x \/ In x (filter (fun d => (d <=? today)%string) days))
           /\ Forall (fun d => (d <=? x)%string = true)
                (filter (fun d => (d <=? today)%string) days)
           /\ (forall a, acc = Some a -> (a <=? x)%string = true)
       end.
Proof.
  revert acc. induction days as [|d days IH]; intros acc.
  - exists acc. split; [reflexivity|]. destruct acc as [x|]; cbn; [|auto].
    repeat split; auto. intros a E. inversion E. apply leb_refl.
  - cbn [map latest_loop filter]. destruct (d <=? today)%string eqn:Ed; cbn [andb].
    + assert (Hnew : forall acc',
                 (forall a, acc = Some a -> (a <=? d)%string = true) ->
                 acc' = Some d ->
                 exists res,
                   latest_loop (map Some days) today acc' = inr res
                   /\ match res with
                      | None => acc = None
                                /\ d :: filter (fun d => (d <=? today)%string) days = []
                      | Some x =>
                          (acc = Some x
                           \/ In x (d :: filter (fun d => (d <=? today)%string) days))
                          /\ Forall (fun d => (d <=? x)%string = true)
                               (d :: filter (fun d => (d <=? today)%string) days)
                          /\ (forall a, acc = Some a -> (a <=? x)%string = true)
                      end).
      { intros acc' Hacc ->. destruct (IH (Some d)) as (res & Hres & Hspec).
        exists res. split; [exact Hres|]. destruct res as [x|].
        - destruct Hspec as (Hin & Hall & Hge).
          assert (Hdx : (d <=? x)%string = true) by (now apply Hge).
          repeat split.
          + right. destruct Hin as [E|Hin]; [inversion E; now left|now right].
          + now constructor.
          + intros a Ha. apply (leb_trans a d x); [now apply Hacc|exact Hdx].
        - destruct Hspec as [E _]. discriminate E. }
      destruct acc as [a|].
      * destruct (a <? d)%string eqn:Ead.
        -- apply Hnew; [|reflexivity]. intros a' E. inversion E; subst.
           now apply ltb_leb.
        -- destruct (IH (Some a)) as (res & Hres & Hspec).
           exists res. split; [exact Hres|]. destruct res as [x|].
           ++ destruct Hspec as (Hin & Hall & Hge).
              assert (Hax : (a <=? x)%string = true) by (now apply Hge).
              repeat split.
              ** destruct Hin as [E|Hin]; [now left|right; now right].
              ** constructor; [|exact Hall].
                 apply (leb_trans d a x); [now apply ltb_false_leb|exact Hax].
              ** exact Hge.
           ++ destruct Hspec as [E _]. discriminate E.
      * apply Hnew; [|reflexivity]. intros a E. discriminate E.
    + apply IH.
Qed.

(** Masking the rows of a table by a test on the records they come from. *)
Lemma mask_filter {R C} (f : R -> C) (g : R -> bool) (l : list R) :
  map fst (filter snd (combine (map f l) (map g l))) = map f (filter g l).
Proof.
  induction l as [|r l IH]; cbn; [reflexivity|].
  destruct (g r); cbn; now rewrite IH.
Qed.

Lemma filter_map_filter {R} (f : R -> string) (g : R -> bool) (p : string -> bool)
    (l : list R) :
  filter p (map f (filter g l)) = map f (filter (fun r => g r && p (f r)) l).
Proof.
  induction l as [|r l IH]; cbn; [reflexivity|].
  destruct (g r); cbn; [|exact IH]. destruct (p (f r)); cbn; now rewrite IH.
Qed.

Lemma drain_loop_none (pending acc : list (list string)) :
  drain_loop pending None acc = inr (acc ++ pending).
Proof.
  revert acc. induction pending as [|r l IH]; intros acc; cbn.
  - now rewrite app_nil_r.
  - now rewrite IH, <- app_assoc.
Qed.

Lemma record_rows_rect (records : list TradingDateRecord) :
  Forall (fun r => List.length r = 2%nat) (map record_row records).
Proof. apply Forall_forall. intros x Hin. apply in_map_iff in Hin. now destruct Hin as (r & <- & _). Qed.

(** The calendar fetch against a provider that answers with calendar
    records. *)
Lemma get_trade_dates_run (bs : Provider) (s e : option string) (w : World)
    (records : list TradingDateRecord) :
  session_ok bs ->
  query_reply bs (mkQuery query_trade_dates
                    [("start_date", opt_str s); ("end_date", opt_str e)])
    = inr (calendar_cursor (map record_row records)) ->
  exists r w',
    get_trade_dates bs s e w = (r, w')
    /\ calls w' = calls w
                  ++ [CallLogin;
                      CallQuery (mkQuery query_trade_dates
                                   [("start_date", opt_str s); ("end_date", opt_str e)]);
                      CallLogout]
    /\ match records with
       | [] => (exists e, r = inl e)
               /\ exists new, logs w' = logs w ++ new /\ In WARNING new
       | _ => r = inr (mkDataFrame ["calendar_date"; "is_trading_day"]
                        (map (map Some) (map record_row records)))
              /\ logs w' = logs w ++ [INFO; DEBUG; DEBUG; INFO; INFO; DEBUG; DEBUG; INFO]
       end.
Proof.
  intros Hs Hq. open_session Hs. cbn in Hq.
  unfold get_trade_dates. unfold_monad. cbn -[fstr pd_DataFrame drain_loop].
  rewrite Hq. cbn -[fstr pd_DataFrame drain_loop].
  rewrite drain_loop_none. cbn -[fstr pd_DataFrame].
  destruct records as [|r0 records].
  - cbn -[fstr]. eexists; eexists. split; [reflexivity|]. cbn.
    split; [now rewrite <- !app_assoc|]. split; [eexists; reflexivity|].
    eexists. split; [rewrite <- !app_assoc; reflexivity|]. cbn. tauto.
  - change (map record_row (r0 :: records)) with (record_row r0 :: map record_row records).
    cbn [is_empty]. cbn -[fstr pd_DataFrame].
    rewrite (pd_DataFrame_rect (record_row r0 :: map record_row records));
      [|discriminate|exact (record_rows_rect (r0 :: records))].
    cbn. eexists; eexists. split; [reflexivity|]. cbn.
    split; [now rewrite <- !app_assoc|]. split; [reflexivity|].
    now rewrite <- !app_assoc.
Qed.

(** The column of flags and the column of dates of a calendar table. *)
Lemma calendar_flags (records : list TradingDateRecord) :
  df_getitem (mkDataFrame ["calendar_date"; "is_trading_day"]
                (map (map Some) (map record_row records))) "is_trading_day"
  = inr (map (fun r => Some (is_trading r)) records).
Proof. unfold df_getitem. cbn. now rewrite !map_map. Qed.

Lemma calendar_masked_dates (records : list TradingDateRecord) :
  df_getitem
    (df_mask (mkDataFrame ["calendar_date"; "is_trading_day"]
                (map (map Some) (map record_row records)))
       (map (cell_eq "1") (map (fun r => Some (is_trading r)) records)))
    "calendar_date"
  = inr (map Some (map calendar_date (filter (fun r => is_trading r =? "1") records))).
Proof.
  unfold df_getitem, df_mask. cbn [columns index_of String.eqb Ascii.eqb].
  cbn -[filter combine map]. f_equal.
  induction records as [|r records IH]; [reflexivity|].
  cbn. destruct (is_trading r =? "1"); cbn; [f_equal|]; exact IH.
Qed.

Lemma latest_trading_date_run (bs : Provider) (now : datetime) (w : World)
    (records : list TradingDateRecord) :
  valid_date now -> session_ok bs ->
  query_reply bs (month_window_query now)
    = inr (calendar_cursor (map record_row records)) ->
  Forall (fun r => calendar_date r <> "") records ->
  exists s w',
    get_latest_trading_date bs now w = (inr s, w')
    /\ calls w' = calls w ++ [CallLogin; CallQuery (month_window_query now); CallLogout]
    /\ match trading_days_until (strftime now) records with
       | [] => s = strftime now /\ exists new, logs w' = logs w ++ new /\ In WARNING new
       | d :: days => In s (d :: days)
                      /\ Forall (fun x => (x <=? s)%string = true) (d :: days)
       end.
Proof.
  intros (Hy & Hm & Hd) Hs Hq Hne.
  unfold get_latest_trading_date, replace_day.
  unfold bind at 1, log at 1, try_except.
  unfold bind at 1, lift at 1. rewrite datetime_new_valid by lia.
  unfold bind at 1, lift at 1. rewrite datetime_new_valid by lia.
  unfold bind at 1.
  match goal with
  | |- context [get_trade_dates bs ?s ?e ?w1] =>
      destruct (get_trade_dates_run bs s e w1 records Hs Hq)
        as (r & w' & Erun & Hcalls & Hres)
  end.
  rewrite Erun. cbn [calls logs] in Hcalls, Hres.
  destruct records as [|r0 records].
  - destruct Hres as [[e ->] (new & Hlogs & Hin)].
    unfold bind, log, ret. cbn.
    eexists; eexists. split; [reflexivity|]. cbn [calls logs].
    split; [exact Hcalls|]. split; [reflexivity|].
    exists ([INFO] ++ new ++ [ERROR]). rewrite Hlogs, <- !app_assoc.
    split; [reflexivity|]. cbn. right. apply in_or_app. now left.
  - destruct Hres as [-> Hlogs].
    unfold bind at 1, lift at 1. rewrite calendar_flags.
    unfold bind at 1, lift at 1. rewrite calendar_masked_dates.
    unfold bind at 1, lift at 1.
    destruct (latest_loop_spec (strftime now)
                (map calendar_date (filter (fun r => is_trading r =? "1") (r0 :: records)))
                None) as (res & Eloop & Hspec).
    rewrite Eloop. unfold trading_days_until.
    rewrite filter_map_filter in Hspec. cbn beta in Hspec.
    destruct res as [x|].
    + destruct Hspec as ([E|Hin] & Hall & _); [discriminate E|].
      assert (Hx : x <> "").
      { apply in_map_iff in Hin. destruct Hin as (r & <- & Hr).
        apply filter_In in Hr. destruct Hr as [Hr _].
        rewrite Forall_forall in Hne. now apply Hne. }
      destruct x as [|c x]; [congruence|].
      unfold bind, log, ret. cbn [calls logs].
      eexists; eexists. split; [reflexivity|]. cbn [calls logs].
      split; [exact Hcalls|].
      clear Eloop. revert Hin Hall. destruct (map calendar_date _) as [|d days]; intros Hin Hall;
        [exfalso; exact Hin|].
      split; assumption.
    + destruct Hspec as [_ Hnil]. rewrite Hnil.
      unfold bind, log, ret. cbn [calls logs].
      eexists; eexists. split; [reflexivity|]. cbn [calls logs].
      split; [exact Hcalls|]. split; [reflexivity|].
      eexists. rewrite Hlogs, <- !app_assoc. split; [reflexivity|].
      cbn. tauto.
Qed.

(** The tool returns a string whatever happens. *)
Lemma latest_trading_date_total (bs : Provider) (now : datetime) (w : World) :
  exists s w', get_latest_trading_date bs now w = (inr s, w').
Proof.
  unfold get_latest_trading_date. unfold bind at 1, log at 1, try_except.
  match goal with |- context [match ?m ?w1 with _ => _ end] =>
    destruct (m w1) as [[e|s] w2] end.
  - unfold bind, log, ret. eexists; eexists; reflexivity.
  - eexists; eexists; reflexivity.
Qed.

(** ** The claims about the trading-day tools *)

(** C7.  On a day [now] the tool always returns a string and raises
    nothing.  When the session works and the provider answers the calendar
    query for day 1 to day 28 of the current month with records (whose
    dates are not empty), that query is the one sent, and the result is the
    greatest date among the records flagged "1" that are not after today,
    or, when there is none, today's date, a warning being logged. *)
Theorem latest_trading_date_spec (bs : Provider) (now : datetime) (w : World) :
  valid_date now ->
  exists s w',
    get_latest_trading_date bs now w = (inr s, w')
    /\ forall records,
         session_ok bs ->
         query_reply bs (month_window_query now)
           = inr (calendar_cursor (map record_row records)) ->
         Forall (fun r => calendar_date r <> "") records ->
         calls w' = calls w
                    ++ [CallLogin; CallQuery (month_window_query now); CallLogout]
         /\ match trading_days_until (strftime now) records with
            | [] => s = strftime now
                    /\ exists new, logs w' = logs w ++ new /\ In WARNING new
            | d :: days => In s (d :: days)
                           /\ Forall (fun x => (x <=? s)%string = true) (d :: days)
            end.
Proof.
  intros Hv. destruct (latest_trading_date_total bs now w) as (s & w' & E).
  exists s, w'. split; [exact E|].
  intros records Hs Hq Hne.
  destruct (latest_trading_date_run bs now w records Hv Hs Hq Hne)
    as (s0 & w0 & E0 & Hprops).
  rewrite E in E0. inversion E0; subst. exact Hprops.
Qed.

Lemma valid_2024_01_10 : valid_date (mkDatetime 2024 1 10).
Proof. unfold valid_date; cbn; lia. Defined.

Lemma january_dates_not_empty :
  Forall (fun r => calendar_date r <> "") january_records.
Proof. repeat constructor; discriminate. Defined.

Lemma latest_trading_date_spec_witness :
  exists s w',
    get_latest_trading_date (provider_answering (calendar_cursor january_2024))
      (mkDatetime 2024 1 10) empty_world = (inr s, w')
    /\ calls w' = [CallLogin; CallQuery (month_window_query (mkDatetime 2024 1 10));
                   CallLogout]
    /\ In s ["2024-01-02"; "2024-01-03"; "2024-01-04"; "2024-01-05"; "2024-01-08";
             "2024-01-09"]
    /\ Forall (fun x => (x <=? s)%string = true)
         ["2024-01-02"; "2024-01-03"; "2024-01-04"; "2024-01-05"; "2024-01-08";
          "2024-01-09"].
Proof.
  destruct (latest_trading_date_spec (provider_answering (calendar_cursor january_2024))
              (mkDatetime 2024 1 10) empty_world valid_2024_01_10)
    as (s & w' & E & H).
  exists s, w'. split; [exact E|].
  exact (H january_records (proj1 (provider_answering_ok _)) eq_refl
           january_dates_not_empty).
Defined.

(** ** The neighbouring trading days (date_utils.py) *)

Lemma leb_total (a b : string) : (a <=? b)%string = true \/ (b <=? a)%string = true.
Proof. apply String.leb_total. Qed.

Lemma cell_leb_refl (a : cell) : cell_leb a a = true.
Proof. destruct a; cbn; [apply leb_refl|reflexivity]. Qed.

Lemma cell_leb_total (a b : cell) : cell_leb a b = true \/ cell_leb b a = true.
Proof. destruct a, b; cbn; auto. apply leb_total. Qed.

Lemma cell_leb_trans (a b c : cell) :
  cell_leb a b = true -> cell_leb b c = true -> cell_leb a c = true.
Proof.
  destruct a, b, c; cbn; try congruence. apply leb_trans.
Qed.

Lemma insert_sorted_in (r x : list cell) (l : list (list cell)) :
  In x (insert_sorted 0 r l) <-> x = r \/ In x l.
Proof.
  induction l as [|r' l IH]; cbn.
  - intuition.
  - destruct (cell_leb _ _); cbn; [intuition|]. rewrite IH. intuition.
Qed.

Lemma insert_sorted_sorted (r : list cell) (l : list (list cell)) :
  StronglySorted date_le l -> StronglySorted date_le (insert_sorted 0 r l).
Proof.
  induction l as [|r' l IH]; intros Hs; cbn.
  - repeat constructor.
  - inversion Hs as [|? ? Hl Hall]; subst.
    destruct (cell_leb (nth 0 r None) (nth 0 r' None)) eqn:E.
    + constructor; [exact Hs|]. constructor; [exact E|].
      rewrite Forall_forall in *. intros x Hx.
      eapply cell_leb_trans; [exact E|now apply Hall].
    + constructor; [now apply IH|].
      rewrite Forall_forall in *. intros x Hx.
      apply insert_sorted_in in Hx. destruct Hx as [->|Hx]; [|now apply Hall].
      destruct (cell_leb_total (nth 0 r None) (nth 0 r' None)) as [H|H];
        [congruence|exact H].
Qed.

Lemma sort_rows_in (x : list cell) (l : list (list cell)) :
  In x (fold_right (insert_sorted 0) [] l) <-> In x l.
Proof.
  induction l as [|r l IH]; cbn; [tauto|].
  rewrite insert_sorted_in, IH. intuition.
Qed.

Lemma sort_rows_sorted (l : list (list cell)) :
  StronglySorted date_le (fold_right (insert_sorted 0) [] l).
Proof.
  induction l as [|r l IH]; cbn; [constructor|now apply insert_sorted_sorted].
Qed.

(** The last row of a sorted table is a greatest one, the first a least. *)
Lemma sorted_last_max (l t : list (list cell)) (x : list cell) :
  StronglySorted date_le l -> rev l = x :: t ->
  In x l /\ Forall (fun y => date_le y x) l.
Proof.
  intros Hs Hrev.
  assert (Hl : l = rev t ++ [x]).
  { rewrite <- (rev_involutive l), Hrev. reflexivity. }
  split; [rewrite Hl; apply in_or_app; right; now left|].
  clear Hrev. subst l. induction (rev t) as [|a l' IH]; cbn in *.
  - constructor; [apply cell_leb_refl|constructor].
  - inversion Hs as [|? ? Hl' Hall]; subst. constructor; [|now apply IH].
    rewrite Forall_forall in Hall. apply Hall. apply in_or_app. right. now left.
Qed.

Lemma sorted_first_min (l : list (list cell)) (x : list cell) :
  StronglySorted date_le (x :: l) -> Forall (fun y => date_le x y) (x :: l).
Proof.
  intros Hs. inversion Hs; subst. constructor; [apply cell_leb_refl|assumption].
Qed.

Lemma calendar_days (records : list TradingDateRecord) :
  df_getitem (mkDataFrame ["calendar_date"; "is_trading_day"]
                (map (map Some) (map record_row records))) "calendar_date"
  = inr (map (fun r => Some (calendar_date r)) records).
Proof. unfold df_getitem. cbn. now rewrite !map_map. Qed.

(** The rows kept by a mask on the flag and on the date. *)
Lemma calendar_mask_rows (test : string -> cell -> bool) (date : string)
    (records : list TradingDateRecord) :
  rows (df_mask (mkDataFrame ["calendar_date"; "is_trading_day"]
                   (map (map Some) (map record_row records)))
          (mask_and (map (cell_eq "1") (map (fun r => Some (is_trading r)) records))
                    (map (test date) (map (fun r => Some (calendar_date r)) records))))
  = map record_cells
      (filter (fun r => (is_trading r =? "1") && test date (Some (calendar_date r)))
         records).
Proof.
  unfold df_mask, mask_and. cbn [rows columns].
  induction records as [|r records IH]; [reflexivity|].
  cbn. destruct ((is_trading r =? "1") && test date (Some (calendar_date r)));
    cbn; [f_equal|]; exact IH.
Qed.

Lemma pick_cols_calendar (rws : list (list cell)) :
  pick_flag_col (mkDataFrame ["calendar_date"; "is_trading_day"] rws)
    = inr "is_trading_day"
  /\ pick_day_col (mkDataFrame ["calendar_date"; "is_trading_day"] rws)
     = inr "calendar_date".
Proof. split; reflexivity. Qed.

Lemma sort_values_calendar (rws : list (list cell)) (mask : list bool) :
  sort_values (df_mask (mkDataFrame ["calendar_date"; "is_trading_day"] rws) mask)
    "calendar_date"
  = inr (mkDataFrame ["calendar_date"; "is_trading_day"]
           (fold_right (insert_sorted 0) []
              (rows (df_mask (mkDataFrame ["calendar_date"; "is_trading_day"] rws)
                       mask)))).
Proof. reflexivity. Qed.

(** What the two tools do once the calendar table is there: [pick] reads
    the last or the first row of the sorted candidates. *)
Lemma neighbour_from_records (test : string -> cell -> bool) (date : string)
    (pick : DataFrame -> string -> exn + cell) (records : list TradingDateRecord)
    (w : World) :
  records <> [] ->
  let df := mkDataFrame ["calendar_date"; "is_trading_day"]
              (map (map Some) (map record_row records)) in
  let kept := filter (fun r => (is_trading r =? "1")
                               && test date (Some (calendar_date r))) records in
  (if df_empty df then ret date
   else
     flag_col <- lift (pick_flag_col df) ;;
     day_col <- lift (pick_day_col df) ;;
     flags <- lift (df_getitem df flag_col) ;;
     days <- lift (df_getitem df day_col) ;;
     candidates <-
       lift (sort_values
               (df_mask df (mask_and (map (cell_eq "1") flags) (map (test date) days)))
               day_col) ;;
     if df_empty candidates then ret date
     else
       v <- lift (pick candidates day_col) ;;
       ret (str_cell v)) w
  = match kept with
    | [] => (inr date, w)
    | _ => (match pick (mkDataFrame ["calendar_date"; "is_trading_day"]
                          (fold_right (insert_sorted 0) [] (map record_cells kept)))
                    "calendar_date" with
            | inr v => inr (str_cell v)
            | inl e => inl e
            end, w)
    end.
Proof.
  intros Hne df kept.
  assert (Hdf : df_empty df = false).
  { destruct records; [congruence|reflexivity]. }
  rewrite Hdf.
  destruct (pick_cols_calendar (map (map Some) (map record_row records))) as [Hf Hd].
  fold df in Hf, Hd.
  unfold bind at 1, lift at 1. rewrite Hf.
  unfold bind at 1, lift at 1. rewrite Hd.
  unfold bind at 1, lift at 1. unfold df. rewrite calendar_flags.
  unfold bind at 1, lift at 1. rewrite calendar_days.
  unfold bind at 1, lift at 1. rewrite sort_values_calendar, calendar_mask_rows.
  fold kept. destruct kept as [|k kept'] eqn:Ek; [reflexivity|].
  assert (Hrows : fold_right (insert_sorted 0) [] (map record_cells (k :: kept')) <> []).
  { intros E. assert (Hin : In (record_cells k) (map record_cells (k :: kept')))
      by (now left).
    apply sort_rows_in in Hin. rewrite E in Hin. exact Hin. }
  unfold df_empty. cbn [rows columns is_empty orb].
  destruct (fold_right (insert_sorted 0) [] (map record_cells (k :: kept'))) as [|x xs] eqn:Es;
    [congruence|].
  cbn [is_empty orb]. unfold bind, lift, ret.
  destruct (pick _ _); reflexivity.
Qed.

Lemma in_record_cells (x : list cell) (kept : list TradingDateRecord) :
  In x (fold_right (insert_sorted 0) [] (map record_cells kept)) ->
  exists r, In r kept /\ x = record_cells r.
Proof.
  intros Hin. apply sort_rows_in, in_map_iff in Hin.
  destruct Hin as (r & <- & Hr). now exists r.
Qed.

Lemma date_le_records (a b : TradingDateRecord) :
  date_le (record_cells a) (record_cells b) ->
  (calendar_date a <=? calendar_date b)%string = true.
Proof. intros H. exact H. Qed.

(** With calendar records for the 30 days up to [date], the tool returns the
    greatest date flagged "1" strictly before [date], or [date] when there is
    none. *)
Lemma previous_trading_day_on_records (bs : Provider) (date : string) (d d30 : datetime)
    (w : World) (records : list TradingDateRecord) :
  strptime date = inr d -> add_days d (-30) = inr d30 ->
  session_ok bs ->
  query_reply bs (range_query (strftime d30) date)
    = inr (calendar_cursor (map record_row records)) ->
  records <> [] ->
  exists s,
    fst (previous_trading_day bs date w) = inr s
    /\ match trading_days_before date records with
       | [] => s = date
       | x :: days => In s (x :: days)
                      /\ Forall (fun y => (y <=? s)%string = true) (x :: days)
       end.
Proof.
  intros Hparse Hadd Hs Hq Hne.
  unfold previous_trading_day. unfold bind at 1, log at 1, try_except.
  unfold bind at 1, lift at 1. rewrite Hparse.
  unfold bind at 1, lift at 1. rewrite Hadd.
  unfold bind at 1.
  match goal with
  | |- context [get_trade_dates bs ?s ?e ?w1] =>
      destruct (get_trade_dates_run bs s e w1 records Hs Hq)
        as (r & w' & Erun & _ & Hres)
  end.
  rewrite Erun. destruct records as [|r0 records]; [congruence|].
  destruct Hres as [-> _].
  pose proof (neighbour_from_records cell_lt date iloc_last (r0 :: records) w' Hne) as Hrun.
  cbv zeta in Hrun. rewrite Hrun. clear Hrun.
  unfold trading_days_before. cbn [cell_lt].
  destruct (filter _ (r0 :: records)) as [|k kept] eqn:Ek.
  - exists date. split; reflexivity.
  - pose proof (sort_rows_sorted (map record_cells (k :: kept))) as Hsorted.
    unfold iloc_last. cbn [rows columns index_of String.eqb Ascii.eqb].
    destruct (rev (fold_right (insert_sorted 0) [] (map record_cells (k :: kept))))
      as [|x t] eqn:Erev.
    + exfalso.
      assert (Hin : In (record_cells k)
                      (fold_right (insert_sorted 0) [] (map record_cells (k :: kept))))
        by (apply sort_rows_in; now left).
      apply in_rev in Hin. rewrite Erev in Hin. exact Hin.
    + destruct (sorted_last_max _ t x Hsorted Erev) as [Hin Hmax].
      apply in_record_cells in Hin. destruct Hin as (rx & Hrx & ->).
      exists (calendar_date rx). split; [reflexivity|].
      split; [exact (in_map calendar_date _ _ Hrx)|].
      apply Forall_forall. intros y Hy.
      change (In y (map calendar_date (k :: kept))) in Hy. apply in_map_iff in Hy.
      destruct Hy as (ry & <- & Hry). apply date_le_records.
      rewrite Forall_forall in Hmax. apply Hmax, sort_rows_in. now apply in_map.
Qed.

(** With calendar records for the 30 days from [date], the tool returns the
    least date flagged "1" strictly after [date], or [date] when there is
    none. *)
Lemma next_trading_day_on_records (bs : Provider) (date : string) (d d30 : datetime)
    (w : World) (records : list TradingDateRecord) :
  strptime date = inr d -> add_days d 30 = inr d30 ->
  session_ok bs ->
  query_reply bs (range_query date (strftime d30))
    = inr (calendar_cursor (map record_row records)) ->
  records <> [] ->
  exists s,
    fst (next_trading_day bs date w) = inr s
    /\ match trading_days_after date records with
       | [] => s = date
       | x :: days => In s (x :: days)
                      /\ Forall (fun y => (s <=? y)%string = true) (x :: days)
       end.
Proof.
  intros Hparse Hadd Hs Hq Hne.
  unfold next_trading_day. unfold bind at 1, log at 1, try_except.
  unfold bind at 1, lift at 1. rewrite Hparse.
  unfold bind at 1, lift at 1. rewrite Hadd.
  unfold bind at 1.
  match goal with
  | |- context [get_trade_dates bs ?s ?e ?w1] =>
      destruct (get_trade_dates_run bs s e w1 records Hs Hq)
        as (r & w' & Erun & _ & Hres)
  end.
  rewrite Erun. destruct records as [|r0 records]; [congruence|].
  destruct Hres as [-> _].
  pose proof (neighbour_from_records cell_gt date iloc_first (r0 :: records) w' Hne) as Hrun.
  cbv zeta in Hrun. rewrite Hrun. clear Hrun.
  unfold trading_days_after. cbn [cell_gt].
  destruct (filter _ (r0 :: records)) as [|k kept] eqn:Ek.
  - exists date. split; reflexivity.
  - pose proof (sort_rows_sorted (map record_cells (k :: kept))) as Hsorted.
    unfold iloc_first. cbn [rows columns index_of String.eqb Ascii.eqb].
    destruct (fold_right (insert_sorted 0) [] (map record_cells (k :: kept)))
      as [|x t] eqn:Esort.
    + exfalso.
      assert (Hin : In (record_cells k)
                      (fold_right (insert_sorted 0) [] (map record_cells (k :: kept))))
        by (apply sort_rows_in; now left).
      rewrite Esort in Hin. exact Hin.
    + assert (Hin : In x (fold_right (insert_sorted 0) [] (map record_cells (k :: kept))))
        by (rewrite Esort; now left).
      apply in_record_cells in Hin. destruct Hin as (rx & Hrx & ->).
      exists (calendar_date rx). split; [reflexivity|].
      split; [exact (in_map calendar_date _ _ Hrx)|].
      apply Forall_forall. intros y Hy.
      change (In y (map calendar_date (k :: kept))) in Hy. apply in_map_iff in Hy.
      destruct Hy as (ry & <- & Hry). apply date_le_records.
      pose proof (sorted_first_min _ _ Hsorted) as Hmin.
      rewrite Forall_forall in Hmin. apply Hmin. rewrite <- Esort.
      apply sort_rows_in. now apply in_map.
Qed.

(** C8: the behaviour of the code where it departs from the claim.  With
    at least one calendar record in the window the tools do what the claim
    says ([previous_trading_day_on_records], [next_trading_day_on_records]).
    But when the provider has no calendar record for the 30-day window
    (status '0', no row), [get_trade_dates] raises [NoDataFoundError] and
    both tools return the text of that error instead of the input date; the
    guard [if df is None or df.empty: return date] is never reached. *)
Theorem trading_day_tools_on_empty_window :
  fst (previous_trading_day (provider_answering empty_cursor) "2099-06-15" empty_world)
    = inr "Error: No trade dates found for range 2099-05-16-2099-06-15 (empty result set)."
  /\ fst (next_trading_day (provider_answering empty_cursor) "2099-06-15" empty_world)
     = inr "Error: No trade dates found for range 2099-06-15-2099-07-15 (empty result set).".
Proof. split; reflexivity. Qed.

(** * Further properties *)

(** ** The provider calls of a fetch *)

(** Splits on everything the outcome of a monadic run depends on. *)
Ltac split_run :=
  repeat match goal with
         | |- context [match ?x with _ => _ end] =>
             lazymatch x with
             | context [match _ with _ => _ end] => fail
             | _ => destruct x eqn:?
             end
         | |- context [if ?x then _ else _] =>
             lazymatch x with
             | context [if _ then _ else _] => fail
             | _ => destruct x eqn:?
             end
         end.

Lemma negb_eqb_false (a b : string) : negb (a =? b) = false -> a = b.
Proof. intros H. apply String.eqb_eq. now destruct (a =? b). Qed.

Lemma negb_eqb_true (a b : string) : negb (a =? b) = true -> a <> b.
Proof. intros H. apply String.eqb_neq. now destruct (a =? b). Qed.

(** Decides whether the login was accepted from the facts of a run. *)
Ltac login_fact :=
  match goal with
  | |- ~ login_accepted _ =>
      let lg := fresh "lg" in
      let H1 := fresh "H" in
      let H2 := fresh "H" in
      intros [lg [H1 H2]];
      match goal with
      | E : login_reply _ = inl _ |- _ => rewrite E in H1; discriminate H1
      | E : login_reply _ = inr _, N : negb (_ =? _) = true |- _ =>
          rewrite E in H1; inversion H1; subst;
          apply negb_eqb_true in N; contradiction
      end
  | |- login_accepted _ =>
      match goal with
      | E : login_reply _ = inr ?a, N : negb (_ =? _) = false |- _ =>
          exists a; split; [exact E|exact (negb_eqb_false _ _ N)]
      end
  end.

(** X1.  The calls that a fetch makes to the provider, whatever the provider
    answers: none at all when the field list of a K-line request is refused;
    the login alone when the login is not accepted; otherwise the login, one
    query and the logout, in this order. *)
Theorem fetch_call_trace (bs : Provider) (c : FetchCall) (w : World) :
  exists l,
    calls (snd (fetch bs c w)) = calls w ++ l
    /\ match l with
       | [] => fields_are_strings c = false
       | [CallLogin] => ~ login_accepted bs
       | [CallLogin; CallQuery q; CallLogout] => login_accepted bs
       | _ => False
       end.
Proof.
  destruct c; unfold_fetch; unfold_monad;
    cbn -[fstr no_data_signal pd_DataFrame drain_loop is_known_error
          forallb select_columns filter];
    split_run; cbn -[fstr select_columns filter];
    first
      [ exists []; split; [now rewrite app_nil_r|];
        match goal with H : negb _ = true |- _ => exact (proj1 (negb_true_iff _) H) end
      | exists [CallLogin]; split; [reflexivity|login_fact]
      | eexists [CallLogin; CallQuery _; CallLogout];
        split; [now rewrite <- !app_assoc|login_fact] ].
Qed.

(** ** Requests refused or cut short *)

(** X2.  A K-line request whose field list holds something that is not a string
    is refused before the session is opened: [ValueError] leaves the method
    unchanged and the provider is not called at all. *)
Theorem k_data_refuses_fields_before_login (bs : Provider)
    (code start_date end_date frequency adjust_flag : string)
    (f : pyval) (fs : list pyval) (w : World) :
  forallb is_str (f :: fs) = false ->
  get_historical_k_data bs code start_date end_date frequency adjust_flag
    (Some (f :: fs)) w
  = (inl (Exn ValueError "All items in the fields list must be strings."),
     mkWorld (calls w) (logs w ++ [INFO; WARNING])).
Proof.
  intros H. unfold get_historical_k_data, _format_fields. unfold_monad.
  cbn -[forallb]. rewrite H. cbn. now rewrite <- app_assoc.
Qed.

Lemma k_data_refuses_fields_before_login_witness :
  get_historical_k_data provider_failing_query "sh.600000" "2024-01-01" "2024-01-31"
    "d" "3" (Some [PStr "date"; PInt 7]) empty_world
  = (inl (Exn ValueError "All items in the fields list must be strings."),
     mkWorld [] [INFO; WARNING]).
Proof.
  exact (k_data_refuses_fields_before_login provider_failing_query "sh.600000"
           "2024-01-01" "2024-01-31" "d" "3" (PStr "date") [PInt 7] empty_world eq_refl).
Defined.

(** X3.  When the provider refuses the login, every method raises the
    [LoginError] of the session context, with the provider's message, and
    sends no query: the login is the only call. *)
Theorem fetch_login_refused (bs : Provider) (c : FetchCall) (w : World)
    (lg : ResultData) :
  fields_are_strings c = true ->
  login_reply bs = inr lg -> error_code lg <> "0" ->
  fst (fetch bs c w) = inl (Exn LoginError ("Baostock login failed: " ++ error_msg lg))
  /\ calls (snd (fetch bs c w)) = calls w ++ [CallLogin].
Proof.
  intros Hf Hlg Hcode. apply String.eqb_neq in Hcode.
  destruct bs as [lr lo qr]. cbn in Hlg. subst lr.
  destruct c; unfold_fetch; unfold_monad; cbn -[fstr no_data_signal pd_DataFrame];
    try (match goal with
         | fields_ : option (list pyval) |- _ =>
             destruct fields_ as [[|? ?]|];
             cbn -[fstr no_data_signal pd_DataFrame] in Hf |- *;
             rewrite ?Hf; cbn -[fstr no_data_signal pd_DataFrame]
         end);
    rewrite Hcode; cbn; split; reflexivity.
Qed.

Lemma fetch_login_refused_witness :
  fst (fetch provider_refusing_login profit_call empty_world)
    = inl (Exn LoginError "Baostock login failed: network error")
  /\ calls (snd (fetch provider_refusing_login profit_call empty_world)) = [CallLogin].
Proof.
  apply (fetch_login_refused provider_refusing_login profit_call empty_world
           login_refused eq_refl eq_refl).
  discriminate.
Defined.

(** ** Column selection in [get_stock_basic_info] *)

Lemma positions_absent (name : string) (cols : list string) (i : nat) :
  ~ In name cols -> positions name cols i = [].
Proof.
  revert i. induction cols as [|c cs IH]; intros i H; cbn; [reflexivity|].
  destruct (c =? name) eqn:E.
  - apply String.eqb_eq in E. exfalso. apply H. now left.
  - cbn. apply IH. intros Hin. apply H. now right.
Qed.

Lemma positions_index (name : string) (cols : list string) (i : nat) :
  NoDup cols -> In name cols ->
  exists k, index_of name cols = Some k /\ positions name cols i = [(i + k)%nat].
Proof.
  revert i. induction cols as [|c cs IH]; intros i Hnd Hin; [destruct Hin|].
  inversion Hnd as [|? ? Hc Hcs]; subst. cbn.
  destruct (c =? name) eqn:E.
  - apply String.eqb_eq in E. subst c. exists 0%nat. split; [reflexivity|].
    rewrite positions_absent by assumption. cbn. now rewrite Nat.add_0_r.
  - destruct Hin as [Hin|Hin]; [apply String.eqb_neq in E; congruence|].
    destruct (IH (S i) Hcs Hin) as (k & Hk & Hp).
    exists (S k). rewrite Hk, Hp. split; [reflexivity|].
    cbn. f_equal. lia.
Qed.

Lemma index_of_nth (name : string) (cols : list string) (k : nat) :
  index_of name cols = Some k -> nth k cols "" = name.
Proof.
  revert k. induction cols as [|c cs IH]; intros k; cbn; [discriminate|].
  destruct (c =? name) eqn:E.
  - intros H. inversion H. now apply String.eqb_eq.
  - destruct (index_of name cs); cbn; [|discriminate].
    intros H. inversion H. now apply IH.
Qed.

(** The cell of a row under a column label. *)
Lemma select_columns_distinct (df : DataFrame) (names : list string) :
  NoDup (columns df) ->
  Forall (fun n => In n (columns df)) names ->
  select_columns df names
  = mkDataFrame names
      (map (fun r =>
              map (fun n => match index_of n (columns df) with
                            | Some k => nth k r None
                            | None => None
                            end) names)
           (rows df)).
Proof.
  intros Hnd Hall. unfold select_columns.
  assert (Hidx : flat_map (fun n => positions n (columns df) 0) names
                 = map (fun n => match index_of n (columns df) with
                                 | Some k => k
                                 | None => 0%nat
                                 end) names).
  { induction names as [|n names IH]; [reflexivity|].
    inversion Hall as [|? ? Hn Hrest]; subst. cbn.
    destruct (positions_index n (columns df) 0 Hnd Hn) as (k & Hk & Hp).
    rewrite Hp, Hk, (IH Hrest). reflexivity. }
  rewrite Hidx. f_equal.
  - rewrite map_map. rewrite <- (map_id names) at 2. apply map_ext_in.
    intros n Hn. rewrite Forall_forall in Hall.
    destruct (positions_index n (columns df) 0 Hnd (Hall n Hn)) as (k & Hk & _).
    rewrite Hk. now apply index_of_nth.
  - apply map_ext. intros r. rewrite map_map. apply map_ext_in.
    intros n Hn. rewrite Forall_forall in Hall.
    destruct (positions_index n (columns df) 0 Hnd (Hall n Hn)) as (k & Hk & _).
    now rewrite Hk.
Qed.

Lemma in_columns_str_items (df : DataFrame) (fs : list pyval) :
  Forall (fun n => In n (columns df)) (str_items (filter (in_columns df) fs)).
Proof.
  induction fs as [|v fs IH]; cbn; [constructor|].
  destruct (in_columns df v) eqn:E; [|exact IH].
  destruct v as [|s|z]; cbn in E |- *; try discriminate.
  constructor; [|exact IH].
  apply existsb_exists in E. destruct E as (x & Hx & Ex).
  apply String.eqb_eq in Ex. now subst.
Qed.

(** X4.  A basic-info request with a field list, against a working session and
    a cursor with distinct column names and full rows.  When none of the
    requested fields is a column, [ValueError] is raised (after the logout);
    otherwise the table holds the requested fields that exist, in the order
    of the request, the cells of every drained row under these labels, and
    as many rows as were drained. *)
Theorem basic_info_selects_columns (bs : Provider) (code : string) (f : pyval)
    (fs : list pyval) (rs : ResultData) (w : World) :
  session_ok bs -> answers bs rs ->
  error_code rs = "0" -> fault rs = None -> data rs <> [] ->
  Forall (fun r => List.length r = List.length (fields rs)) (data rs) ->
  NoDup (fields rs) ->
  let df := mkDataFrame (fields rs) (map (map Some) (data rs)) in
  let available_cols := str_items (filter (in_columns df) (f :: fs)) in
  match available_cols with
  | [] =>
      fst (get_stock_basic_info bs code (Some (f :: fs)) w)
      = inl (Exn ValueError
               (fstr ["None of the requested fields "; repr_list (f :: fs);
                      " are available in the basic info result."]))
      /\ exists q, calls (snd (get_stock_basic_info bs code (Some (f :: fs)) w))
                   = calls w ++ [CallLogin; CallQuery q; CallLogout]
  | _ =>
      fst (get_stock_basic_info bs code (Some (f :: fs)) w)
      = inr (mkDataFrame available_cols
               (map (fun r =>
                       map (fun n => match index_of n (fields rs) with
                                     | Some k => nth k r None
                                     | None => None
                                     end) available_cols)
                    (map (map Some) (data rs))))
  end.
Proof.
  intros Hs Hq Hrs Hflt Hne Hrect Hnd df available_cols.
  open_session Hs. unfold answers in Hq. cbn in Hq.
  destruct rs as [rcode msg flds dat flt]. cbn in Hrs, Hflt, Hne, Hrect, Hnd.
  subst rcode flt. cbn [fields data] in df, available_cols |- *.
  pose proof (pd_DataFrame_rect dat flds Hne Hrect) as Hdf.
  pose proof (in_columns_str_items df (f :: fs)) as Hin.
  pose proof (select_columns_distinct df available_cols Hnd Hin) as Hsel.
  unfold get_stock_basic_info. unfold_monad.
  cbn -[fstr no_data_signal pd_DataFrame drain_loop filter select_columns].
  rewrite Hq. cbn -[fstr no_data_signal pd_DataFrame drain_loop filter select_columns].
  rewrite drain_loop_none. cbn [app].
  destruct dat as [|r0 dat]; [congruence|].
  cbn -[fstr pd_DataFrame filter select_columns].
  rewrite Hdf. fold df.
  cbn -[fstr filter select_columns in_columns].
  destruct (filter (in_columns df) (f :: fs)) as [|v vs] eqn:Efilter.
  - cbn -[fstr]. split; [reflexivity|]. eexists. now rewrite <- !app_assoc.
  - cbn -[fstr select_columns str_items].
    unfold available_cols in *. rewrite ?Efilter in *.
    destruct (str_items (v :: vs)) as [|n ns] eqn:Eitems.
    + exfalso.
      assert (Hv : in_columns df v = true).
      { assert (In v (filter (in_columns df) (f :: fs))) by (rewrite Efilter; now left).
        apply filter_In in H. tauto. }
      destruct v; cbn in Hv, Eitems; discriminate.
    + rewrite Hsel. reflexivity.
Qed.

Lemma basic_info_selects_columns_witness :
  fst (get_stock_basic_info (provider_answering basic_info_cursor) "sh.600000"
         (Some [PStr "ipoDate"; PStr "nope"; PStr "code"]) empty_world)
  = inr (mkDataFrame ["ipoDate"; "code"] [[Some "1999-11-10"; Some "sh.600000"]]).
Proof.
  apply (basic_info_selects_columns (provider_answering basic_info_cursor) "sh.600000"
           (PStr "ipoDate") [PStr "nope"; PStr "code"] basic_info_cursor empty_world
           (proj1 (provider_answering_ok _)) (proj2 (provider_answering_ok _))
           eq_refl eq_refl).
  - discriminate.
  - repeat constructor.
  - repeat constructor; cbn; intuition discriminate.
Defined.

(** ** The analysis window for every period *)

(** Turns the boolean comparisons among the hypotheses into propositions. *)
Ltac bools_to_props :=
  repeat match goal with
         | H : (_ <=? _)%Z = true |- _ => apply Z.leb_le in H
         | H : (_ <=? _)%Z = false |- _ => apply Z.leb_gt in H
         | H : (_ <? _)%Z = true |- _ => apply Z.ltb_lt in H
         | H : (_ <? _)%Z = false |- _ => apply Z.ltb_ge in H
         | H : (_ =? _)%Z = true |- _ => apply Z.eqb_eq in H
         | H : (_ =? _)%Z = false |- _ => apply Z.eqb_neq in H
         end.

(** Follows the branches of the window computation: the tests on the
    current date are split, the dates in range are built. *)
Ltac follow_window :=
  repeat first
    [ rewrite datetime_new_valid by (cbn [year month day]; lia)
    | progress cbn -[datetime_new fstr str_Z fmt02 get_month_end_day Z.min iso_date
                     Z.eqb Z.leb Z.ltb Z.add Z.sub Z.mul]
    | match goal with
      | |- context [if (?a <=? ?b)%Z then _ else _] =>
          destruct (a <=? b)%Z eqn:?; bools_to_props
      | |- context [if (?a <? ?b)%Z then _ else _] =>
          destruct (a <? b)%Z eqn:?; bools_to_props
      | |- context [if (month ?n =? 1)%Z then _ else _] =>
          destruct (month n =? 1)%Z eqn:?; bools_to_props
      | |- context [if (month ?n =? 2)%Z then _ else _] =>
          destruct (month n =? 2)%Z eqn:?; bools_to_props
      end ].

(** X5.  For every period string, on every valid day after year 1, the tool
    raises nothing and calls no provider: it returns a label that ends with
    the ISO range from day 1 of the month lying [months_back] months before
    the current month to today. *)
Theorem timeframe_window (period : string) (now : datetime) (w : World) :
  valid_date now -> (1 < year now)%Z ->
  exists label sy sm,
    get_market_analysis_timeframe period now w
    = (inr (fstr [label; " (ISO: "; iso_date sy sm 1; " to ";
                  iso_date (year now) (month now) (day now); ")"]),
       mkWorld (calls w) (logs w ++ [INFO; INFO]))
    /\ (1 <= sm <= 12)%Z
    /\ (sy * 12 + sm = year now * 12 + month now - months_back period now)%Z.
Proof.
  intros (Hy & Hm & Hd) Hy1.
  assert (Hend : Z.min (get_month_end_day (year now) (month now)) (day now) = day now)
    by lia.
  unfold get_market_analysis_timeframe, months_back, bind, lift, ret, log.
  destruct (period =? "recent"); [|destruct (period =? "quarter");
    [|destruct (period =? "half_year"); [|destruct (period =? "year")]]];
    follow_window; try (exfalso; lia);
    rewrite Hend, <- app_assoc;
    eexists; eexists; eexists; (split; [reflexivity|lia]).
Qed.

Lemma timeframe_window_witness :
  exists label sy sm,
    get_market_analysis_timeframe "half_year" (mkDatetime 2024 1 10) empty_world
    = (inr (fstr [label; " (ISO: "; iso_date sy sm 1; " to ";
                  iso_date 2024 1 10; ")"]),
       mkWorld [] [INFO; INFO])
    /\ (1 <= sm <= 12)%Z
    /\ (sy * 12 + sm = 2024 * 12 + 1 - 6)%Z.
Proof.
  apply (timeframe_window "half_year" (mkDatetime 2024 1 10) empty_world
           valid_2024_01_10).
  cbn; lia.
Defined.

(** ** The formatter (formatting/markdown_formatter.py) *)

Lemma shape0_head (d : DataFrame) (n : Z) :
  (0 <= n)%Z -> shape0 (df_head d (Z.min (shape0 d) n)) = Z.min (shape0 d) n.
Proof.
  intros Hn. unfold shape0, df_head. cbn [rows].
  assert (H : (0 <=? Z.min (Z.of_nat (List.length (rows d))) n)%Z = true)
    by (apply Z.leb_le; lia).
  rewrite H. rewrite length_firstn. lia.
Qed.

Lemma df_head_all (d : DataFrame) (n : Z) :
  (shape0 d <= n)%Z -> df_head d (Z.min (shape0 d) n) = d.
Proof.
  intros Hn. unfold shape0 in *. unfold df_head.
  rewrite Z.min_l by lia.
  assert (H : (0 <=? Z.of_nat (List.length (rows d)))%Z = true) by (apply Z.leb_le; lia).
  rewrite H, Nat2Z.id, firstn_all. now destruct d.
Qed.

Lemma df_head_first (d : DataFrame) (n : Z) :
  (0 <= n <= shape0 d)%Z ->
  df_head d (Z.min (shape0 d) n) = mkDataFrame (columns d) (firstn (Z.to_nat n) (rows d)).
Proof.
  intros Hn. unfold df_head. rewrite Z.min_r by lia.
  assert (H : (0 <=? n)%Z = true) by (apply Z.leb_le; lia).
  now rewrite H.
Qed.

(** The Markdown formatter returns, whatever the renderer does, and only
    adds log records. *)
Lemma format_df_to_markdown_returns (render : Rendering) (df : option DataFrame)
    (max_rows : option Z) (w : World) :
  exists s l,
    format_df_to_markdown render df max_rows w = (inr s, mkWorld (calls w) (logs w ++ l)).
Proof.
  unfold format_df_to_markdown.
  destruct df as [d|]; [|now eexists; exists [WARNING]].
  destruct (df_empty d); [now eexists; exists [WARNING]|].
  cbv zeta. destruct (to_markdown render _) as [e|t]; [now eexists; exists [ERROR]|].
  destruct (_ <? _)%Z; eexists; exists []; cbn; rewrite app_nil_r; now destruct w.
Qed.

(** So does the general formatter. *)
Lemma format_table_output_returns (render : Rendering) (df : option DataFrame)
    (format : string) (max_rows : option Z) (meta : option (list (string * pyval)))
    (w : World) :
  exists s l,
    format_table_output render df format max_rows meta w
    = (inr s, mkWorld (calls w) (logs w ++ l)).
Proof.
  unfold format_table_output. cbv zeta.
  destruct (lower _ =? "markdown").
  - unfold bind.
    match goal with
    | |- context [format_df_to_markdown render ?d ?m w] =>
        destruct (format_df_to_markdown_returns render d m w) as (s & l & ->)
    end.
    now eexists; exists l.
  - destruct (lower _ =? "csv").
    { destruct (to_csv render _); [now eexists; exists [ERROR]|].
      eexists; exists []; cbn; rewrite app_nil_r; now destruct w. }
    destruct (lower _ =? "json").
    { destruct (json_dumps render _); [now eexists; exists [ERROR]|].
      eexists; exists []; cbn; rewrite app_nil_r; now destruct w. }
    unfold bind, log.
    match goal with
    | |- context [format_df_to_markdown render ?d ?m ?w1] =>
        destruct (format_df_to_markdown_returns render d m w1) as (s & l & ->)
    end.
    cbn. eexists; exists (WARNING :: l). now rewrite <- app_assoc.
Qed.

(** X6.  [format_table_output] in the Markdown format, for a row limit that is
    not negative: the table is cut to the limit before the Markdown
    formatter sees it, so the answer is the header and the rendering of the
    first [min(rows, limit)] rows, and the note on truncated rows is never
    part of it, also when rows were cut. *)
Theorem table_output_markdown_without_note (render : Rendering) (d : DataFrame)
    (format : string) (max_rows : option Z) (meta : option (list (string * pyval)))
    (w : World) :
  let n := match max_rows with Some n => n | None => MAX_MARKDOWN_ROWS end in
  lower (if format =? "" then "markdown" else format) = "markdown" ->
  (0 <= n)%Z ->
  fst (format_table_output render (Some d) format max_rows meta w)
  = inr (meta_header meta
         ++ markdown_body render (df_head d (Z.min (shape0 d) n)))%string.
Proof.
  intros n Hfmt Hn. unfold format_table_output. cbv zeta. rewrite Hfmt.
  cbn [String.eqb Ascii.eqb Bool.eqb]. cbn match.
  assert (Hmax : match max_rows with
                 | Some n => n
                 | None => MAX_MARKDOWN_ROWS
                 end = n) by reflexivity.
  rewrite Hmax. clear Hmax.
  unfold bind, format_df_to_markdown, markdown_body. cbv zeta.
  rewrite (shape0_head d n Hn).
  destruct (df_empty _); [reflexivity|].
  assert (Hcut : (Z.min (Z.min (shape0 d) n) n <? Z.min (shape0 d) n)%Z = false)
    by (apply Z.ltb_ge; lia).
  rewrite Hcut.
  assert (Hsame : Z.min (Z.min (shape0 d) n) n = Z.min (shape0 d) n) by lia.
  rewrite Hsame.
  assert (Hhead : df_head (df_head d (Z.min (shape0 d) n)) (Z.min (shape0 d) n)
                  = df_head d (Z.min (shape0 d) n)).
  { rewrite <- (shape0_head d n Hn) at 2.
    rewrite <- (Z.min_id (shape0 (df_head d (Z.min (shape0 d) n)))) at 1.
    apply df_head_all. lia. }
  rewrite Hhead.
  destruct (to_markdown render _); reflexivity.
Qed.

Lemma table_output_markdown_without_note_witness :
  fst (format_table_output sample_rendering (Some three_days) "Markdown" (Some 2%Z)
         None empty_world)
  = inr "calendar_date|is_trading_day x 2".
Proof.
  apply (table_output_markdown_without_note sample_rendering three_days "Markdown"
           (Some 2%Z) None empty_world eq_refl).
  cbn; lia.
Defined.

Lemma string_app_assoc (a b c : string) : ((a ++ b) ++ c = a ++ b ++ c)%string.
Proof. induction a as [|x a IH]; cbn; [reflexivity|now rewrite IH]. Qed.

(** X7.  [format_df_to_markdown] on a table that is not empty, with a row limit
    that is not negative.  A table within the limit is rendered whole and
    without a note; a longer one is cut to its first [n] rows, and the
    rendering follows a note that names [n] and the number of rows there
    were.  When the renderer raises, the answer is the formatting error. *)
Theorem markdown_note_on_truncation (render : Rendering) (d : DataFrame) (n : Z)
    (w : World) :
  df_empty d = false -> (0 <= n)%Z ->
  fst (format_df_to_markdown render (Some d) (Some n) w)
  = inr (if (n <? shape0 d)%Z then
           match to_markdown render (mkDataFrame (columns d) (firstn (Z.to_nat n) (rows d))) with
           | inr t =>
               fstr ["Note: Data truncated (rows truncated to "; str_Z n; " from ";
                     str_Z (shape0 d); ")."; nl; nl; t]
           | inl _ => "Error: Could not format data into Markdown table."
           end
         else
           match to_markdown render d with
           | inr t => t
           | inl _ => "Error: Could not format data into Markdown table."
           end).
Proof.
  intros Hne Hn. unfold format_df_to_markdown. rewrite Hne. cbv zeta.
  destruct (n <? shape0 d)%Z eqn:E.
  - apply Z.ltb_lt in E. rewrite (df_head_first d n) by lia.
    rewrite (Z.min_r (shape0 d) n) by lia.
    assert (Hlt : (n <? shape0 d)%Z = true) by (apply Z.ltb_lt; lia).
    rewrite Hlt. destruct (to_markdown render _); [reflexivity|].
    unfold ret, fstr. cbn -[str_Z nl shape0]. now rewrite !string_app_assoc.
  - apply Z.ltb_ge in E. rewrite (df_head_all d n E).
    rewrite (Z.min_l (shape0 d) n) by lia. rewrite Z.ltb_irrefl.
    destruct (to_markdown render d); reflexivity.
Qed.

Lemma markdown_note_on_truncation_witness :
  fst (format_df_to_markdown sample_rendering (Some three_days) (Some 2%Z) empty_world)
  = inr (fstr ["Note: Data truncated (rows truncated to 2 from 3)."; nl; nl;
               "calendar_date|is_trading_day x 2"]).
Proof.
  apply (markdown_note_on_truncation sample_rendering three_days 2 empty_world eq_refl).
  lia.
Defined.

Lemma dict_get_set_same {V} (k : string) (v : V) (d : list (string * V)) :
  dict_get k (dict_set k v d) = Some v.
Proof.
  induction d as [|[k' v'] d IH]; cbn; [now rewrite String.eqb_refl|].
  destruct (k' =? k) eqn:E; cbn; [now rewrite String.eqb_refl|now rewrite E].
Qed.

Lemma dict_get_set_other {V} (k k' : string) (v : V) (d : list (string * V)) :
  k <> k' -> dict_get k (dict_set k' v d) = dict_get k d.
Proof.
  intros Hk. induction d as [|[k0 v0] d IH]; cbn.
  - apply String.eqb_neq in Hk. now rewrite String.eqb_sym, Hk.
  - destruct (k0 =? k') eqn:E; cbn.
    + apply String.eqb_eq in E. subst k0.
      assert (H1 : (k' =? k) = false) by (rewrite String.eqb_sym; now apply String.eqb_neq).
      now rewrite H1.
    + destruct (k0 =? k); [reflexivity|exact IH].
Qed.

(** X8.  The JSON output for a row limit that is not negative.  The payload
    given to [json.dumps] holds as many records as the smaller of the number
    of rows and the limit, and the counters of its [meta] part agree with
    it, whatever the caller's [meta] holds under the same keys:
    [total_rows] is the number of rows of the table, [returned_rows] the
    number of records, [truncated] whether rows were left out. *)
Theorem json_output_counters (render : Rendering) (d : DataFrame) (format : string)
    (max_rows : option Z) (meta : option (list (string * pyval))) (w : World) :
  let n := match max_rows with Some n => n | None => MAX_MARKDOWN_ROWS end in
  lower (if format =? "" then "markdown" else format) = "json" ->
  (0 <= n)%Z ->
  exists records m,
    fst (format_table_output render (Some d) format max_rows meta w)
    = inr match json_dumps render (JDict [("data", JList records); ("meta", JDict m)]) with
          | inr s => s
          | inl _ => "Error: Could not format data into JSON."
          end
    /\ Z.of_nat (List.length records) = Z.min (shape0 d) n
    /\ dict_get "total_rows" m = Some (JInt (shape0 d))
    /\ dict_get "returned_rows" m = Some (JInt (Z.of_nat (List.length records)))
    /\ dict_get "truncated" m = Some (JBool (n <? shape0 d)%Z)
    /\ dict_get "columns" m = Some (JList (map JStr (columns d))).
Proof.
  intros n Hfmt Hn. unfold format_table_output. cbv zeta. rewrite Hfmt.
  cbn [String.eqb Ascii.eqb Bool.eqb]. cbn match.
  assert (Hmax : match max_rows with
                 | Some n => n
                 | None => MAX_MARKDOWN_ROWS
                 end = n) by reflexivity.
  rewrite Hmax. clear Hmax. unfold json_payload.
  match goal with
  | |- context [json_dumps render (JDict [("data", JList ?r); ("meta", JDict ?m)])] =>
      exists r, m
  end.
  split.
  { destruct (json_dumps render _); reflexivity. }
  assert (Hlen : Z.of_nat (List.length (to_dict_records (df_head d (Z.min (shape0 d) n))))
                 = Z.min (shape0 d) n).
  { unfold to_dict_records. rewrite length_map. exact (shape0_head d n Hn). }
  split; [exact Hlen|].
  split.
  { rewrite !dict_get_set_other by discriminate. apply dict_get_set_same. }
  split.
  { rewrite !dict_get_set_other by discriminate. rewrite dict_get_set_same.
    now rewrite Hlen. }
  split.
  { rewrite !dict_get_set_other by discriminate. rewrite dict_get_set_same.
    do 2 f_equal. destruct (n <? shape0 d)%Z eqn:E.
    - apply Z.ltb_lt. apply Z.ltb_lt in E. lia.
    - apply Z.ltb_ge. apply Z.ltb_ge in E. lia. }
  apply dict_get_set_same.
Qed.

Lemma json_output_counters_witness :
  exists records m,
    fst (format_table_output sample_rendering (Some three_days) "JSON" (Some 2%Z)
           (Some [("total_rows", PInt 99)]) empty_world)
    = inr match json_dumps sample_rendering
                  (JDict [("data", JList records); ("meta", JDict m)]) with
          | inr s => s
          | inl _ => "Error: Could not format data into JSON."
          end
    /\ Z.of_nat (List.length records) = Z.min (shape0 three_days) 2
    /\ dict_get "total_rows" m = Some (JInt (shape0 three_days))
    /\ dict_get "returned_rows" m = Some (JInt (Z.of_nat (List.length records)))
    /\ dict_get "truncated" m = Some (JBool (2 <? shape0 three_days)%Z)
    /\ dict_get "columns" m = Some (JList (map JStr (columns three_days))).
Proof.
  apply (json_output_counters sample_rendering three_days "JSON" (Some 2%Z)
           (Some [("total_rows", PInt 99)]) empty_world eq_refl).
  cbn; lia.
Defined.

Lemma format_df_to_markdown_fst (render : Rendering) (df : option DataFrame)
    (max_rows : option Z) (w w' : World) :
  fst (format_df_to_markdown render df max_rows w)
  = fst (format_df_to_markdown render df max_rows w').
Proof.
  unfold format_df_to_markdown.
  destruct df as [d|]; [|reflexivity].
  destruct (df_empty d); [reflexivity|]. cbv zeta.
  destruct (to_markdown render _); [reflexivity|].
  destruct (_ <? _)%Z; reflexivity.
Qed.

(** X9.  A format that is none of "markdown", "csv" and "json" (in any case of
    the letters) is not refused: the answer is the Markdown output of the
    same table without the [meta] header, and a warning is logged. *)
Theorem unknown_format_falls_back (render : Rendering) (df : option DataFrame)
    (format : string) (max_rows : option Z) (meta : option (list (string * pyval)))
    (w : World) :
  let fmt := lower (if format =? "" then "markdown" else format) in
  fmt <> "markdown" -> fmt <> "csv" -> fmt <> "json" ->
  fst (format_table_output render df format max_rows meta w)
  = fst (format_table_output render df "markdown" max_rows None w)
  /\ exists l, logs (snd (format_table_output render df format max_rows meta w))
               = logs w ++ WARNING :: l.
Proof.
  intros fmt H1 H2 H3.
  apply String.eqb_neq in H1, H2, H3.
  unfold format_table_output. cbv zeta. fold fmt. rewrite H1, H2, H3.
  change (lower (if "markdown" =? "" then "markdown" else "markdown") =? "markdown")
    with true. cbv iota.
  assert (Hmax : (if fmt =? "markdown" then MAX_MARKDOWN_ROWS else MAX_MARKDOWN_ROWS)
                 = MAX_MARKDOWN_ROWS) by now destruct (fmt =? "markdown").
  unfold bind, log.
  split.
  - match goal with
    | |- context [format_df_to_markdown render ?x ?m (mkWorld ?c ?l)] =>
        rewrite (format_df_to_markdown_fst render x m (mkWorld c l) w);
        destruct (format_df_to_markdown_returns render x m w) as (s & l0 & E)
    end.
    rewrite E. cbn [fst meta_header]. reflexivity.
  - match goal with
    | |- context [format_df_to_markdown render ?x ?m ?w1] =>
        destruct (format_df_to_markdown_returns render x m w1) as (s & l0 & E)
    end.
    rewrite E. cbn. exists l0. now rewrite <- app_assoc.
Qed.

Lemma unknown_format_falls_back_witness :
  fst (format_table_output sample_rendering (Some three_days) "yaml" None
         (Some [("as_of", PStr "default")]) empty_world)
  = fst (format_table_output sample_rendering (Some three_days) "markdown" None None
           empty_world)
  /\ exists l, logs (snd (format_table_output sample_rendering (Some three_days) "yaml"
                            None (Some [("as_of", PStr "default")]) empty_world))
               = logs empty_world ++ WARNING :: l.
Proof.
  apply (unknown_format_falls_back sample_rendering (Some three_days) "yaml" None
           (Some [("as_of", PStr "default")]) empty_world); discriminate.
Defined.

Lemma format_table_output_fst (render : Rendering) (df : option DataFrame)
    (format : string) (max_rows : option Z) (meta : option (list (string * pyval)))
    (w w' : World) :
  fst (format_table_output render df format max_rows meta w)
  = fst (format_table_output render df format max_rows meta w').
Proof.
  unfold format_table_output. cbv zeta.
  destruct (lower _ =? "markdown").
  - unfold bind.
    match goal with
    | |- context [format_df_to_markdown render ?d ?m w] =>
        pose proof (format_df_to_markdown_fst render d m w w') as Hfst;
        destruct (format_df_to_markdown render d m w) as [[e|s] w1];
        destruct (format_df_to_markdown render d m w') as [[e'|s'] w1'];
        cbn in Hfst; inversion Hfst; subst; reflexivity
    end.
  - destruct (lower _ =? "csv"); [destruct (to_csv render _); reflexivity|].
    destruct (lower _ =? "json"); [destruct (json_dumps render _); reflexivity|].
    unfold bind, log. apply format_df_to_markdown_fst.
Qed.

Lemma fst_try_format (render : Rendering) (df : option DataFrame) (format : string)
    (max_rows : option Z) (meta : option (list (string * pyval)))
    (handler : exn -> M string) (w w' : World) :
  fst (try_except (format_table_output render df format max_rows meta) handler w')
  = fst (format_table_output render df format max_rows meta w).
Proof.
  unfold try_except.
  pose proof (format_table_output_fst render df format max_rows meta w' w) as H.
  destruct (format_table_output_returns render df format max_rows meta w')
    as (s & l & E).
  rewrite E in *. exact H.
Qed.

(** The answer of the formatter does not depend on the world it runs in. *)
Lemma table_answer_spec (render : Rendering) (df : DataFrame) (format : string)
    (max_rows : Z) (meta : list (string * pyval)) (w : World) :
  fst (format_table_output render (Some df) format (Some max_rows) (Some meta) w)
  = inr (table_answer render df format max_rows meta).
Proof.
  unfold table_answer.
  rewrite (format_table_output_fst render (Some df) format (Some max_rows) (Some meta)
             w empty_world).
  destruct (format_table_output_returns render (Some df) format (Some max_rows)
              (Some meta) empty_world) as (s & l & E).
  now rewrite E.
Qed.

(** X10.  The JSON output for a negative row limit [n], which no tool refuses.
    [df.head(n)] then drops the last [-n] rows, so the payload holds the
    other rows, if any; but [returned_rows] is [n] itself, a negative
    number, and [truncated] is set even when the table has no rows: the
    counters no longer describe the records. *)
Theorem negative_limit_miscounts (render : Rendering) (d : DataFrame) (format : string)
    (n : Z) (meta : option (list (string * pyval))) (w : World) :
  lower (if format =? "" then "markdown" else format) = "json" ->
  (n < 0)%Z ->
  exists records m,
    fst (format_table_output render (Some d) format (Some n) meta w)
    = inr match json_dumps render (JDict [("data", JList records); ("meta", JDict m)]) with
          | inr s => s
          | inl _ => "Error: Could not format data into JSON."
          end
    /\ Z.of_nat (List.length records) = Z.max 0 (shape0 d + n)
    /\ dict_get "total_rows" m = Some (JInt (shape0 d))
    /\ dict_get "returned_rows" m = Some (JInt n)
    /\ dict_get "truncated" m = Some (JBool true).
Proof.
  intros Hfmt Hn. unfold format_table_output. cbv zeta. rewrite Hfmt.
  cbn [String.eqb Ascii.eqb Bool.eqb]. cbn match.
  assert (Hmin : Z.min (shape0 d) n = n) by (unfold shape0; lia).
  rewrite Hmin. unfold json_payload.
  match goal with
  | |- context [json_dumps render (JDict [("data", JList ?r); ("meta", JDict ?m)])] =>
      exists r, m
  end.
  split.
  { destruct (json_dumps render _); reflexivity. }
  split.
  { unfold to_dict_records, df_head, shape0. cbn [rows]. rewrite length_map.
    assert (Hneg : (0 <=? n)%Z = false) by (apply Z.leb_gt; lia).
    rewrite Hneg, length_firstn. lia. }
  split.
  { rewrite !dict_get_set_other by discriminate. apply dict_get_set_same. }
  split.
  { rewrite !dict_get_set_other by discriminate. apply dict_get_set_same. }
  rewrite !dict_get_set_other by discriminate. rewrite dict_get_set_same.
  do 2 f_equal. apply Z.ltb_lt. unfold shape0. lia.
Qed.

Lemma negative_limit_miscounts_witness :
  exists records m,
    fst (format_table_output sample_rendering (Some three_days) "json" (Some (-1)%Z)
           None empty_world)
    = inr match json_dumps sample_rendering
                  (JDict [("data", JList records); ("meta", JDict m)]) with
          | inr s => s
          | inl _ => "Error: Could not format data into JSON."
          end
    /\ Z.of_nat (List.length records) = Z.max 0 (shape0 three_days + -1)
    /\ dict_get "total_rows" m = Some (JInt (shape0 three_days))
    /\ dict_get "returned_rows" m = Some (JInt (-1))
    /\ dict_get "truncated" m = Some (JBool true).
Proof.
  apply (negative_limit_miscounts sample_rendering three_days "json" (-1) None
           empty_world eq_refl).
  lia.
Defined.

(** ** The tools (tools/stock_market.py, tools/market_overview.py) *)

Lemma tool_except_classified (value_error : string) (e : exn) (w : World) :
  classified e ->
  fst (tool_except value_error e w) = inr (error_answer value_error e).
Proof.
  intros Hc. destruct e as [cls msg]. unfold classified in Hc. cbn in Hc.
  destruct Hc as [-> | [-> | [-> | ->]]]; reflexivity.
Qed.

Ltac unfold_tools :=
  unfold run_tool, stock_market.get_historical_k_data, stock_market.get_stock_basic_info,
    stock_market.get_dividend_data, stock_market.get_adjust_factor_data,
    market_overview.get_trade_dates, market_overview.get_all_stock.

(** After the method of the data source has answered, a tool with the five
    clauses returns: the formatted table, or the answer for the class of
    the exception. *)
Lemma tool_body_outcome (ds : Provider) (render : Rendering) (c : FetchCall)
    (format : string) (limit : DataFrame -> Z) (meta : list (string * pyval))
    (value_error : string) (w : World) :
  exists answer,
    fst (try_except
           (df <- fetch ds c ;;
            log INFO ;;
            format_table_output render (Some df) format (Some (limit df)) (Some meta))
           (tool_except value_error) w) = inr answer
    /\ match fst (fetch ds c w) with
       | inl e => classified e /\ answer = error_answer value_error e
       | inr df => answer = table_answer render df format (limit df) meta
       end.
Proof.
  unfold try_except. unfold bind at 1.
  destruct (fetch ds c w) as [[e|df] w1] eqn:E.
  - pose proof (fetch_raises_classified ds c w e w1 E) as Hc.
    rewrite (tool_except_classified value_error e w1 Hc).
    eexists. split; [reflexivity|]. cbn [fst]. now split.
  - unfold bind at 1, log at 1.
    match goal with
    | |- context [format_table_output render ?d ?f ?m ?mt ?w2] =>
        pose proof (table_answer_spec render df format (limit df) meta w2) as Ha;
        destruct (format_table_output render d f m mt w2) as [[e|s] w3]
    end; cbn [fst] in Ha; inversion Ha; subst.
    eexists. split; reflexivity.
Qed.

(** X11.  Every tool with the five [except] clauses answers with a string and
    never raises, whatever the provider and the renderer do.  When the
    arguments pass validation, the answer follows the outcome of the method
    of the data source: a table is answered as the formatter prints it in
    the requested format, with the row limit and the meta data of the tool;
    an exception is of one of the four classes of the data source and is
    answered with the text of the clause of its own class, so that the
    clause for unexpected errors is never the one that answers. *)
Theorem tool_outcome (ds : Provider) (render : Rendering) (t : ToolCall) (w : World) :
  exists answer,
    fst (run_tool ds render t w) = inr answer
    /\ (passes_validation t = true ->
        match fst (fetch ds (source_call t) (tool_entered w)) with
        | inl e => classified e /\ answer = error_answer (value_error_text t) e
        | inr df =>
            answer = table_answer render df (tool_format t) (tool_limit t df) (tool_meta t)
        end).
Proof.
  destruct t as [code sd ed fr adj fs limit format | code fs format
                | code yr yt limit format | code sd ed limit format
                | sd ed limit format | date limit format];
    unfold_tools; unfold bind at 1, log at 1; fold (tool_entered w);
    cbn [passes_validation source_call tool_format value_error_text tool_limit tool_meta].
  - unfold validation.validate_frequency, validation.validate_adjust_flag,
      validation._ensure_in, validation.VALID_FREQS, validation.VALID_ADJUST_FLAGS.
    destruct (negb (existsb (String.eqb fr) _)) eqn:Ef.
    { eexists. split; [reflexivity|]. cbn. discriminate. }
    destruct (negb (existsb (String.eqb adj) _)) eqn:Ea.
    { eexists. split; [reflexivity|]. cbn. discriminate. }
    cbv zeta iota.
    destruct (tool_body_outcome ds render (HistoricalKData code sd ed fr adj fs)
                format (fun _ => limit)
                [("code", PStr code); ("start_date", PStr sd); ("end_date", PStr ed);
                 ("frequency", PStr fr); ("adjust_flag", PStr adj)]
                "Error: Invalid input parameter. " (tool_entered w)) as (a & Ha & Hm).
    exists a. split; [exact Ha|]. intros _. exact Hm.
  - destruct (tool_body_outcome ds render (StockBasicInfo code fs) format shape0
                [("code", PStr code)]
                "Error: Invalid input parameter or requested field not available. "
                (tool_entered w)) as (a & Ha & Hm).
    exists a. split; [exact Ha|]. intros _. exact Hm.
  - unfold validation.validate_year_type, validation.validate_year,
      validation._ensure_in, validation.VALID_YEAR_TYPES.
    destruct (negb (existsb (String.eqb yt) _)) eqn:Et.
    { eexists. split; [reflexivity|]. cbn. discriminate. }
    destruct (negb (isdigit yr) || negb (String.length yr =? 4)%nat) eqn:Ey.
    { eexists. split; [reflexivity|]. cbn. discriminate. }
    cbv iota.
    destruct (tool_body_outcome ds render (DividendData code yr yt) format
                (fun _ => limit)
                [("code", PStr code); ("year", PStr yr); ("year_type", PStr yt)]
                "Error: Invalid input parameter. " (tool_entered w)) as (a & Ha & Hm).
    exists a. split; [exact Ha|]. intros _. exact Hm.
  - destruct (tool_body_outcome ds render (AdjustFactorData code sd ed)
                format (fun _ => limit)
                [("code", PStr code); ("start_date", PStr sd); ("end_date", PStr ed)]
                "Error: Invalid input parameter. " (tool_entered w)) as (a & Ha & Hm).
    exists a. split; [exact Ha|]. intros _. exact Hm.
  - destruct (tool_body_outcome ds render (TradeDates sd ed)
                format (fun _ => limit)
                [("start_date", PStr (or_else sd "default"));
                 ("end_date", PStr (or_else ed "default"))]
                "Error: Invalid input parameter. " (tool_entered w)) as (a & Ha & Hm).
    exists a. split; [exact Ha|]. intros _. exact Hm.
  - destruct (tool_body_outcome ds render (AllStock date)
                format (fun _ => limit)
                [("as_of", PStr (or_else date "default"))]
                "Error: Invalid input parameter. " (tool_entered w)) as (a & Ha & Hm).
    exists a. split; [exact Ha|]. intros _. exact Hm.
Qed.

Lemma tool_outcome_witness :
  exists answer,
    fst (run_tool provider_refusing_login sample_rendering
           (DividendDataTool "sh.600000" "2023" "report" 10 "markdown") empty_world)
    = inr answer
    /\ answer = "Error: Could not connect to data source. Baostock login failed: network error".
Proof.
  destruct (tool_outcome provider_refusing_login sample_rendering
              (DividendDataTool "sh.600000" "2023" "report" 10 "markdown") empty_world)
    as (a & Ha & Hm).
  exists a. split; [exact Ha|]. exact (proj2 (Hm eq_refl)).
Defined.

(** X12.  The K-line tool refuses a frequency or an adjustment flag exactly as
    the validators of services/validation.py do: when one of them raises,
    the tool answers "Error: " followed by the message of the first that
    does, logs a warning, and does not call the data source. *)
Theorem k_data_tool_refuses_like_validators (ds : Provider) (render : Rendering)
    (code start_date end_date frequency adjust_flag : string)
    (fields_ : option (list pyval)) (limit : Z) (format : string) (w : World) (err : exn) :
  first_refusal [validation.validate_frequency frequency;
                 validation.validate_adjust_flag adjust_flag] = Some err ->
  stock_market.get_historical_k_data ds render code start_date end_date frequency
    adjust_flag fields_ limit format w
  = (inr (fstr ["Error: "; exn_str err]), mkWorld (calls w) (logs w ++ [INFO; WARNING])).
Proof.
  unfold stock_market.get_historical_k_data, validation.validate_frequency,
    validation.validate_adjust_flag, validation._ensure_in, validation.VALID_FREQS,
    validation.VALID_ADJUST_FLAGS.
  unfold bind at 1, log at 1, try_except. cbv zeta.
  destruct (negb (existsb (String.eqb frequency) _)) eqn:Ef.
  { cbn [first_refusal]. intros H. inversion H. subst err. cbn [exn_str].
    unfold bind, log, ret. cbn [calls logs]. now rewrite <- app_assoc. }
  destruct (negb (existsb (String.eqb adjust_flag) _)) eqn:Ea.
  { cbn [first_refusal]. intros H. inversion H. subst err. cbn [exn_str].
    unfold bind, log, ret. cbn [calls logs]. now rewrite <- app_assoc. }
  cbn [first_refusal]. discriminate.
Qed.

Lemma k_data_tool_refuses_like_validators_witness :
  stock_market.get_historical_k_data provider_failing_query sample_rendering
    "sh.600000" "2024-01-01" "2024-01-31" "d" "4" None 250 "markdown" empty_world
  = (inr "Error: Invalid adjust_flag '4'. Valid options are: ['1', '2', '3']",
     mkWorld [] [INFO; WARNING]).
Proof.
  exact (k_data_tool_refuses_like_validators provider_failing_query sample_rendering
           "sh.600000" "2024-01-01" "2024-01-31" "d" "4" None 250 "markdown" empty_world
           _ eq_refl).
Defined.

(** X13.  The dividend tool checks the year type and then the year, with the
    tests of the validators of services/validation.py: when one of them
    raises, the tool answers with an error text, logs a warning and does not
    call the data source.  For a refused year the text is "Error: " followed
    by the validator's message; for a refused year type the tool lists the
    valid options in its own way. *)
Theorem dividend_tool_refuses_like_validators (ds : Provider) (render : Rendering)
    (code year year_type : string) (limit : Z) (format : string) (w : World) (err : exn) :
  first_refusal [validation.validate_year_type year_type;
                 validation.validate_year year] = Some err ->
  stock_market.get_dividend_data ds render code year year_type limit format w
  = (inr (if accepts (validation.validate_year_type year_type)
          then fstr ["Error: "; exn_str err]
          else fstr ["Error: Invalid year_type '"; year_type;
                     "'. Valid options are: 'report', 'operate'"]),
     mkWorld (calls w) (logs w ++ [INFO; WARNING])).
Proof.
  unfold stock_market.get_dividend_data, validation.validate_year_type,
    validation.validate_year, validation._ensure_in, validation.VALID_YEAR_TYPES.
  unfold bind at 1, log at 1, try_except.
  destruct (negb (existsb (String.eqb year_type) _)) eqn:Et.
  { cbn [first_refusal accepts]. intros _.
    unfold bind, log, ret. cbn [calls logs]. now rewrite <- app_assoc. }
  destruct (negb (isdigit year) || negb (String.length year =? 4)%nat) eqn:Ey.
  { cbn [first_refusal accepts]. intros H. inversion H. subst err. cbn [exn_str].
    unfold bind, log, ret. cbn [calls logs]. now rewrite <- app_assoc. }
  cbn [first_refusal]. discriminate.
Qed.

Lemma dividend_tool_refuses_like_validators_witness :
  stock_market.get_dividend_data provider_failing_query sample_rendering
    "sh.600000" "23" "report" 250 "markdown" empty_world
  = (inr "Error: Invalid year '23'. Please provide a 4-digit year.",
     mkWorld [] [INFO; WARNING]).
Proof.
  exact (dividend_tool_refuses_like_validators provider_failing_query sample_rendering
           "sh.600000" "23" "report" 250 "markdown" empty_world _ eq_refl).
Defined.

(** ** The tools that filter a table (tools/market_overview.py, tools/indices.py) *)

(** The stock list of a working session whose cursor has full rows. *)
Lemma get_all_stock_run (bs : Provider) (date : option string) (rs : ResultData)
    (w : World) :
  session_ok bs -> answers bs rs -> error_code rs = "0" -> fault rs = None ->
  Forall (fun r => List.length r = List.length (fields rs)) (data rs) ->
  fst (get_all_stock bs date w)
  = match data rs with
    | [] => inl (Exn NoDataFoundError
                   (fstr ["No stock list found for date "; str_opt date;
                          " (empty result set)."]))
    | _ => inr (mkDataFrame (fields rs) (map (map Some) (data rs)))
    end.
Proof.
  intros Hs Hq Hrs Hflt Hrect. open_session Hs. unfold answers in Hq. cbn in Hq.
  destruct rs as [code msg flds dat flt]. cbn in Hrs, Hflt, Hrect. subst code flt.
  cbn -[fstr str_opt].
  unfold get_all_stock. unfold_monad. cbn -[fstr pd_DataFrame drain_loop].
  rewrite Hq. cbn -[fstr pd_DataFrame drain_loop].
  rewrite drain_loop_none. cbn [app].
  destruct dat as [|r0 dat]; [reflexivity|].
  cbn -[fstr pd_DataFrame].
  rewrite (pd_DataFrame_rect (r0 :: dat) flds); [reflexivity|discriminate|exact Hrect].
Qed.

(** The industry classification of a working session whose cursor has full
    rows. *)
Lemma get_stock_industry_run (bs : Provider) (code date : option string)
    (rs : ResultData) (w : World) :
  session_ok bs -> answers bs rs -> error_code rs = "0" -> fault rs = None ->
  Forall (fun r => List.length r = List.length (fields rs)) (data rs) ->
  fst (get_stock_industry bs code date w)
  = match data rs with
    | [] => inl (Exn NoDataFoundError
                   (fstr ["No industry data found for "; str_opt code; ", ";
                          str_opt date; " (empty result set)."]))
    | _ => inr (mkDataFrame (fields rs) (map (map Some) (data rs)))
    end.
Proof.
  intros Hs Hq Hrs Hflt Hrect. open_session Hs. unfold answers in Hq. cbn in Hq.
  destruct rs as [rcode msg flds dat flt]. cbn in Hrs, Hflt, Hrect. subst rcode flt.
  cbn -[fstr str_opt].
  unfold get_stock_industry. unfold_monad. cbn -[fstr pd_DataFrame drain_loop].
  rewrite Hq. cbn -[fstr pd_DataFrame drain_loop].
  rewrite drain_loop_none. cbn [app].
  destruct dat as [|r0 dat]; [reflexivity|].
  cbn -[fstr pd_DataFrame].
  rewrite (pd_DataFrame_rect (r0 :: dat) flds); [reflexivity|discriminate|exact Hrect].
Qed.

Lemma index_of_existsb (name : string) (cols : list string) (i : nat) :
  index_of name cols = Some i -> existsb (String.eqb name) cols = true.
Proof.
  revert i. induction cols as [|c cs IH]; intros i; cbn; [discriminate|].
  rewrite (String.eqb_sym name c). destruct (c =? name); [reflexivity|].
  destruct (index_of name cs) eqn:E; [|discriminate]. intros _. cbn. now apply (IH n).
Qed.

(** The rows that a comparison of one column with a value selects, read on
    the rows of the cursor. *)
Lemma mask_on_column (cols : list string) (dat : list (list string)) (i : nat)
    (value : string) :
  df_mask (mkDataFrame cols (map (map Some) dat))
    (map (cell_eq value) (map (fun r => nth i r None) (map (map Some) dat)))
  = mkDataFrame cols (map (map Some) (filter (field_is i value) dat)).
Proof.
  unfold df_mask. cbn [columns rows]. f_equal.
  induction dat as [|r dat IH]; [reflexivity|].
  cbn [map combine filter].
  assert (Hcell : cell_eq value (nth i (map Some r) None) = field_is i value r).
  { clear. unfold field_is. revert i.
    induction r as [|x r IH]; intros [|i]; cbn; auto. }
  rewrite Hcell. destruct (field_is i value r); cbn [snd fst map]; now rewrite IH.
Qed.

(** X14.  [get_suspensions] against a working session whose cursor has full
    rows under distinct labels, one of them "tradeStatus".  With rows, the
    formatter is given the rows whose trading status is "0", in the order
    of the cursor, and their number as [total_suspended], whatever the row
    limit cuts afterwards.  Without rows, the [NoDataFoundError] of the data
    source is answered as an unexpected error. *)
Theorem suspensions_tool_lists_suspended (ds : Provider) (render : Rendering)
    (date : option string) (limit : Z) (format : string) (rs : ResultData) (i : nat)
    (w : World) :
  session_ok ds -> answers ds rs -> error_code rs = "0" -> fault rs = None ->
  Forall (fun r => List.length r = List.length (fields rs)) (data rs) ->
  NoDup (fields rs) -> index_of "tradeStatus" (fields rs) = Some i ->
  fst (market_overview.get_suspensions ds render date limit format w)
  = match data rs with
    | [] =>
        inr (fstr ["Error: An unexpected error occurred: No stock list found for date ";
                   str_opt date; " (empty result set)."])
    | _ =>
        let suspended :=
          mkDataFrame (fields rs) (map (map Some) (filter (field_is i "0") (data rs))) in
        fst (format_table_output render (Some suspended) format (Some limit)
               (Some [("as_of", PStr (or_else date "current"));
                      ("total_suspended", PInt (shape0 suspended))]) w)
    end.
Proof.
  intros Hs Hq Hrs Hflt Hrect Hnd Hi.
  unfold market_overview.get_suspensions.
  unfold bind at 1, log at 1, try_except. unfold bind at 1.
  match goal with
  | |- context [get_all_stock ds date ?w1] =>
      pose proof (get_all_stock_run ds date rs w1 Hs Hq Hrs Hflt Hrect) as Hrun;
      destruct (get_all_stock ds date w1) as [[e|df] w2]
  end; cbn [fst] in Hrun; destruct (data rs) as [|r0 dat] eqn:Ed;
    try discriminate Hrun; inversion Hrun; subst; clear Hrun.
  - reflexivity.
  - unfold df_empty. cbn [rows columns is_empty orb].
    destruct (fields rs) as [|c cs] eqn:Ef; [discriminate Hi|].
    cbn [is_empty]. rewrite <- Ef in *.
    change (map Some r0 :: map (map Some) dat) with (map (map Some) (r0 :: dat)).
    rewrite <- Ed.
    rewrite (index_of_existsb _ _ _ Hi). cbn [negb].
    unfold bind at 1, lift at 1, df_getitem. cbn [columns rows]. rewrite Hi.
    rewrite mask_on_column. cbv zeta.
    apply (fst_try_format render _ format (Some limit) _ tool_except_any w w2).
Qed.

Lemma suspensions_tool_lists_suspended_witness :
  fst (market_overview.get_suspensions (provider_answering stock_list_cursor)
         sample_rendering None 1 "markdown" empty_world)
  = inr (fstr ["Meta:"; nl; "- as_of: current"; nl; "- total_suspended: 2"; nl; nl;
               "code|tradeStatus|code_name x 1"]).
Proof.
  apply (suspensions_tool_lists_suspended (provider_answering stock_list_cursor)
           sample_rendering None 1 "markdown" stock_list_cursor 1 empty_world
           (proj1 (provider_answering_ok _)) (proj2 (provider_answering_ok _))
           eq_refl eq_refl).
  - repeat constructor.
  - repeat constructor; cbn; intuition discriminate.
  - reflexivity.
Defined.

Lemma strip_not_blank (s : string) :
  strip s <> "" -> (s =? "") || (strip s =? "") = false.
Proof.
  intros H. apply String.eqb_neq in H. rewrite H.
  destruct s; [now cbn in H|reflexivity].
Qed.

(** X15.  [get_industry_members] for an industry name that is not blank, against
    a working session whose cursor has full rows under distinct labels, one
    of them "industry".  With rows, the formatter is given the rows whose
    industry is exactly the name asked for, in the order of the cursor.
    Without rows, the [NoDataFoundError] of the data source is answered as
    an unexpected error. *)
Theorem industry_members_tool_filters (ds : Provider) (render : Rendering)
    (industry : string) (date : option string) (limit : Z) (format : string)
    (rs : ResultData) (i : nat) (w : World) :
  strip industry <> "" ->
  session_ok ds -> answers ds rs -> error_code rs = "0" -> fault rs = None ->
  Forall (fun r => List.length r = List.length (fields rs)) (data rs) ->
  NoDup (fields rs) -> index_of "industry" (fields rs) = Some i ->
  fst (indices.get_industry_members ds render industry date limit format w)
  = match data rs with
    | [] =>
        inr (fstr ["Error: An unexpected error occurred: No industry data found for None, ";
                   str_opt date; " (empty result set)."])
    | _ =>
        let filtered :=
          mkDataFrame (fields rs)
            (map (map Some) (filter (field_is i industry) (data rs))) in
        fst (format_table_output render (Some filtered) format (Some limit)
               (Some [("industry", PStr industry);
                      ("as_of", PStr (or_else date "latest"))]) w)
    end.
Proof.
  intros Hname Hs Hq Hrs Hflt Hrect Hnd Hi.
  unfold indices.get_industry_members.
  unfold bind at 1, log at 1, try_except.
  rewrite (strip_not_blank industry Hname). unfold bind at 1.
  match goal with
  | |- context [get_stock_industry ds None date ?w1] =>
      pose proof (get_stock_industry_run ds None date rs w1 Hs Hq Hrs Hflt Hrect) as Hrun;
      destruct (get_stock_industry ds None date w1) as [[e|df] w2]
  end; cbn [fst] in Hrun; destruct (data rs) as [|r0 dat] eqn:Ed;
    try discriminate Hrun; inversion Hrun; subst; clear Hrun.
  - reflexivity.
  - unfold df_empty. cbn [rows columns is_empty orb].
    destruct (fields rs) as [|c cs] eqn:Ef; [discriminate Hi|].
    cbn [is_empty]. rewrite <- Ef in *.
    change (map Some r0 :: map (map Some) dat) with (map (map Some) (r0 :: dat)).
    rewrite <- Ed.
    unfold bind at 1, lift at 1, pick_industry_col. cbn [columns].
    rewrite (index_of_existsb _ _ _ Hi).
    unfold bind at 1, lift at 1, df_getitem. cbn [columns rows]. rewrite Hi.
    rewrite mask_on_column. cbv zeta.
    apply (fst_try_format render _ format (Some limit) _ tool_except_any w w2).
Qed.

Lemma industry_members_tool_filters_witness :
  fst (indices.get_industry_members (provider_answering industry_cursor)
         sample_rendering "J66" None 250 "csv" empty_world)
  = inr "updateDate,code,industry".
Proof.
  apply (industry_members_tool_filters (provider_answering industry_cursor)
           sample_rendering "J66" None 250 "csv" industry_cursor 2 empty_world).
  - discriminate.
  - exact (proj1 (provider_answering_ok _)).
  - exact (proj2 (provider_answering_ok _)).
  - reflexivity.
  - reflexivity.
  - repeat constructor.
  - repeat constructor; cbn; intuition discriminate.
  - reflexivity.
Defined.

(** ** The list of industries (tools/indices.py) *)

Lemma cell_eqb_eq (a b : cell) : cell_eqb a b = true <-> a = b.
Proof.
  destruct a as [x|], b as [y|]; cbn; try (split; congruence).
  rewrite String.eqb_eq. split; congruence.
Qed.

Lemma row_eqb_eq (a b : list cell) : row_eqb a b = true <-> a = b.
Proof.
  revert b. induction a as [|x a IH]; intros [|y b]; cbn; try (split; congruence).
  rewrite andb_true_iff, cell_eqb_eq, IH. split; [intros [-> ->]; reflexivity|].
  intros H. inversion H. auto.
Qed.

Lemma drop_duplicate_rows_in (x : list cell) (l : list (list cell)) :
  In x (drop_duplicate_rows l) <-> In x l.
Proof.
  induction l as [|r l IH]; cbn; [tauto|].
  rewrite filter_In, IH. split.
  - intros [H|[H _]]; auto.
  - intros [H|H]; [now left|].
    destruct (row_eqb r x) eqn:E.
    + left. now apply row_eqb_eq.
    + right. split; [exact H|reflexivity].
Qed.

Lemma NoDup_filter {A} (f : A -> bool) (l : list A) : NoDup l -> NoDup (filter f l).
Proof.
  induction 1 as [|x l Hx Hl IH]; cbn; [constructor|].
  destruct (f x); [|exact IH]. constructor; [|exact IH].
  rewrite filter_In. tauto.
Qed.

Lemma drop_duplicate_rows_nodup (l : list (list cell)) : NoDup (drop_duplicate_rows l).
Proof.
  induction l as [|r l IH]; cbn; constructor.
  - rewrite filter_In. intros [_ H].
    assert (E : row_eqb r r = true) by now apply row_eqb_eq.
    rewrite E in H. discriminate.
  - now apply NoDup_filter.
Qed.

Lemma insert_sorted_nodup (r : list cell) (l : list (list cell)) :
  NoDup l -> ~ In r l -> NoDup (insert_sorted 0 r l).
Proof.
  induction l as [|r' l IH]; intros Hl Hr; cbn.
  - constructor; [exact Hr|constructor].
  - destruct (cell_leb _ _); [now constructor|].
    inversion Hl as [|? ? Hr' Hl']; subst. constructor.
    + rewrite insert_sorted_in. intros [->|H]; [apply Hr; now left|contradiction].
    + apply IH; [exact Hl'|]. intros H. apply Hr. now right.
Qed.

Lemma sort_rows_nodup (l : list (list cell)) :
  NoDup l -> NoDup (fold_right (insert_sorted 0) [] l).
Proof.
  induction 1 as [|r l Hr Hl IH]; cbn; [constructor|].
  apply insert_sorted_nodup; [exact IH|]. now rewrite sort_rows_in.
Qed.

Lemma index_of_lt (name : string) (cols : list string) (i : nat) :
  index_of name cols = Some i -> (i < List.length cols)%nat.
Proof.
  revert i. induction cols as [|c cs IH]; intros i; cbn; [discriminate|].
  destruct (c =? name); [intros H; inversion H; lia|].
  destruct (index_of name cs) eqn:E; cbn; [|discriminate].
  intros H. inversion H. specialize (IH n eq_refl). lia.
Qed.

Lemma nth_map_Some (r : list string) (i : nat) :
  nth i (map Some r) None = nth_error r i.
Proof. revert i. induction r as [|x r IH]; intros [|i]; cbn; auto. Qed.

Lemma ltb_of_leb_neq (a b : string) :
  (a <=? b)%string = true -> a <> b -> (a <? b)%string = true.
Proof.
  rewrite leb_le, ltb_lt. intros [->|H] Hne; [contradiction|exact H].
Qed.

(** Rows of one cell, sorted and without repetition, are strictly
    ascending. *)
Lemma sorted_distinct_cells (names : list string) :
  StronglySorted date_le (map (fun s => [Some s]) names) ->
  NoDup (map (fun s => [Some s]) names) ->
  StronglySorted (fun a b => (a <? b)%string = true) names.
Proof.
  induction names as [|a names IH]; intros Hs Hd; [constructor|].
  cbn in Hs, Hd. inversion Hs as [|? ? Hs' Hall]; subst.
  inversion Hd as [|? ? Ha Hd']; subst.
  constructor; [now apply IH|].
  rewrite Forall_forall in *. intros b Hb.
  apply ltb_of_leb_neq.
  - exact (Hall [Some b] (in_map (fun s => [Some s]) _ _ Hb)).
  - intros ->. apply Ha. exact (in_map (fun s => [Some s]) _ _ Hb).
Qed.

(** A list of rows that all hold one string is the image of the list of
    these strings. *)
Lemma one_cell_rows (l : list (list cell)) :
  Forall (fun x => exists s, x = [Some s]) l ->
  l = map (fun s => [Some s]) (map (fun x => str_cell (nth 0 x None)) l).
Proof.
  induction 1 as [|x l (s & ->) Hl IH]; cbn; [reflexivity|]. now rewrite <- IH.
Qed.

(** X16.  [list_industries] against a working session whose cursor has full
    rows under distinct labels, one of them "industry".  The table given to
    the formatter has the single column "industry"; it holds every industry
    of the cursor exactly once, in strictly ascending order; the row limit is
    the number of these rows, which is also the [count] of the meta data. *)
Theorem list_industries_sorted_distinct (ds : Provider) (render : Rendering)
    (date : option string) (format : string) (rs : ResultData) (i : nat) (w : World) :
  session_ok ds -> answers ds rs -> error_code rs = "0" -> fault rs = None ->
  data rs <> [] ->
  Forall (fun r => List.length r = List.length (fields rs)) (data rs) ->
  NoDup (fields rs) -> index_of "industry" (fields rs) = Some i ->
  exists names,
    fst (indices.list_industries ds render date format w)
    = fst (format_table_output render
             (Some (mkDataFrame ["industry"] (map (fun s => [Some s]) names)))
             format (Some (Z.of_nat (List.length names)))
             (Some [("as_of", PStr (or_else date "latest"));
                    ("count", PInt (Z.of_nat (List.length names)))]) w)
    /\ StronglySorted (fun a b => (a <? b)%string = true) names
    /\ forall s, In s names <-> exists r, In r (data rs) /\ nth_error r i = Some s.
Proof.
  intros Hs Hq Hrs Hflt Hne Hrect Hnd Hi.
  pose proof (index_of_lt _ _ _ Hi) as Hlt.
  set (cells := map (fun r => [nth i r None]) (map (map Some) (data rs))).
  set (out := fold_right (insert_sorted 0) [] (drop_duplicate_rows cells)).
  assert (Hcells : forall x, In x cells <->
                     exists s, x = [Some s]
                       /\ exists r, In r (data rs) /\ nth_error r i = Some s).
  { intros x. unfold cells. rewrite map_map, in_map_iff. split.
    - intros (r & <- & Hr). rewrite nth_map_Some.
      rewrite Forall_forall in Hrect.
      destruct (nth_error r i) as [s|] eqn:E.
      + exists s. split; [reflexivity|]. now exists r.
      + apply nth_error_None in E. rewrite (Hrect r Hr) in E. lia.
    - intros (s & -> & r & Hr & E). exists r. split; [|exact Hr].
      now rewrite nth_map_Some, E. }
  assert (Hout : forall x, In x out <-> In x cells).
  { intros x. unfold out. now rewrite sort_rows_in, drop_duplicate_rows_in. }
  assert (Hshape : Forall (fun x => exists s, x = [Some s]) out).
  { apply Forall_forall. intros x Hx. apply Hout, Hcells in Hx.
    destruct Hx as (s & -> & _). now exists s. }
  set (names := map (fun x => str_cell (nth 0 x None)) out).
  pose proof (one_cell_rows out Hshape) as Hrows. fold names in Hrows.
  exists names. split; [|split].
  - unfold indices.list_industries.
    unfold bind at 1, log at 1, try_except. unfold bind at 1.
    match goal with
    | |- context [get_stock_industry ds None date ?w1] =>
        pose proof (get_stock_industry_run ds None date rs w1 Hs Hq Hrs Hflt Hrect) as Hrun;
        destruct (get_stock_industry ds None date w1) as [[e|df] w2]
    end; cbn [fst] in Hrun; destruct (data rs) as [|r0 dat] eqn:Ed;
      try discriminate Hrun; try congruence; inversion Hrun; subst df; clear Hrun.
    unfold df_empty. cbn [rows columns is_empty orb].
    destruct (fields rs) as [|c cs] eqn:Ef; [discriminate Hi|].
    cbn [is_empty]. rewrite <- Ef in *.
    change (map Some r0 :: map (map Some) dat) with (map (map Some) (r0 :: dat)).
    unfold bind at 1, lift at 1, pick_industry_col. cbn [columns].
    rewrite (index_of_existsb _ _ _ Hi).
    assert (Hcol : In "industry" (fields rs)).
    { pose proof (index_of_existsb _ _ _ Hi) as Hex.
      apply existsb_exists in Hex. destruct Hex as (x & Hx & Ex).
      apply String.eqb_eq in Ex. now subst x. }
    rewrite select_columns_distinct;
      [|exact Hnd|constructor; [exact Hcol|constructor]].
    cbn [columns rows map]. rewrite Hi.
    unfold bind at 1, lift at 1, sort_values, drop_duplicates. cbn [columns rows index_of].
    rewrite String.eqb_refl. unfold rename_column. cbn [columns rows map].
    rewrite String.eqb_refl.
    transitivity
      (fst (try_except
              (format_table_output render (Some (mkDataFrame ["industry"] out)) format
                 (Some (shape0 (mkDataFrame ["industry"] out)))
                 (Some [("as_of", PStr (or_else date "latest"));
                        ("count", PInt (shape0 (mkDataFrame ["industry"] out)))]))
              tool_except_any w2)); [reflexivity|].
    unfold shape0. cbn [rows]. rewrite Hrows at 1 2 3.
    rewrite !length_map.
    apply (fst_try_format render _ format _ _ tool_except_any w w2).
  - apply sorted_distinct_cells; rewrite <- Hrows.
    + apply sort_rows_sorted.
    + apply sort_rows_nodup, drop_duplicate_rows_nodup.
  - intros s. unfold names. rewrite in_map_iff. split.
    + intros (x & <- & Hx). apply Hout, Hcells in Hx.
      destruct Hx as (s' & -> & Hr). exact Hr.
    + intros Hr. exists [Some s]. split; [reflexivity|].
      apply Hout, Hcells. now exists s.
Qed.

Lemma list_industries_sorted_distinct_witness :
  exists names,
    fst (indices.list_industries (provider_answering industry_cursor) sample_rendering
           None "markdown" empty_world)
    = fst (format_table_output sample_rendering
             (Some (mkDataFrame ["industry"] (map (fun s => [Some s]) names)))
             "markdown" (Some (Z.of_nat (List.length names)))
             (Some [("as_of", PStr (or_else None "latest"));
                    ("count", PInt (Z.of_nat (List.length names)))]) empty_world)
    /\ StronglySorted (fun a b => (a <? b)%string = true) names
    /\ forall s, In s names
                 <-> exists r, In r (data industry_cursor) /\ nth_error r 2 = Some s.
Proof.
  apply (list_industries_sorted_distinct (provider_answering industry_cursor)
           sample_rendering None "markdown" industry_cursor 2 empty_world
           (proj1 (provider_answering_ok _)) (proj2 (provider_answering_ok _))
           eq_refl eq_refl).
  - discriminate.
  - repeat constructor.
  - repeat constructor; cbn; intuition discriminate.
  - reflexivity.
Defined.

(** ** The tools with a single [except] clause (tools/indices.py) *)

(** After the method of the data source has answered, a tool with the
    single clause returns the formatted table or the text for unexpected
    errors. *)
Lemma single_clause_outcome (ds : Provider) (render : Rendering) (c : FetchCall)
    (format : string) (limit : Z) (meta : list (string * pyval)) (w : World) :
  fst (try_except
         (df <- fetch ds c ;;
          format_table_output render (Some df) format (Some limit) (Some meta))
         tool_except_any w)
  = inr match fst (fetch ds c w) with
        | inl e => fstr ["Error: An unexpected error occurred: "; exn_str e]
        | inr df => table_answer render df format limit meta
        end.
Proof.
  unfold try_except. unfold bind at 1.
  destruct (fetch ds c w) as [[e|df] w1]; [reflexivity|].
  pose proof (table_answer_spec render df format limit meta w1) as Ha.
  destruct (format_table_output render (Some df) format (Some limit) (Some meta) w1)
    as [[e|s] w2]; cbn [fst] in Ha; inversion Ha; subst. reflexivity.
Qed.

(** X17.  The two tools of indices.py that pass a table of the data source on.
    [get_index_constituents] reads the index name without regard to
    surrounding white space and to the case of the letters: "hs300", "sz50"
    and "zz500" select the method of the data source, any other name is
    answered with a fixed text.  Both tools answer a table as the formatter
    prints it, and every exception of the data source, of whatever class,
    with the text for unexpected errors. *)
Theorem index_tools_outcome (ds : Provider) (render : Rendering) (w : World) :
  (forall index date limit format,
     fst (indices.get_index_constituents ds render index date limit format w)
     = inr match index_call (lower (strip index)) date with
           | None => "Error: Invalid index. Valid options are 'hs300', 'sz50', 'zz500'."
           | Some c =>
               match fst (fetch ds c (tool_entered w)) with
               | inl e => fstr ["Error: An unexpected error occurred: "; exn_str e]
               | inr df =>
                   table_answer render df format limit
                     [("index", PStr (lower (strip index)));
                      ("as_of", PStr (or_else date "latest"))]
               end
           end)
  /\ (forall code date limit format,
        fst (indices.get_stock_industry ds render code date limit format w)
        = inr match fst (fetch ds (StockIndustry code date) (tool_entered w)) with
              | inl e => fstr ["Error: An unexpected error occurred: "; exn_str e]
              | inr df =>
                  table_answer render df format limit
                    [("code", PStr (or_else code "all"));
                     ("as_of", PStr (or_else date "latest"))]
              end).
Proof.
  split.
  - intros index date limit format. unfold indices.get_index_constituents, index_call.
    unfold bind at 1, log at 1. fold (tool_entered w). cbv zeta.
    set (key := lower (strip index)). cbn [existsb].
    rewrite !(String.eqb_sym key).
    destruct ("hs300" =? key) eqn:E1.
    { cbn [orb negb].
      exact (single_clause_outcome ds render (Hs300Stocks date) format limit _
               (tool_entered w)). }
    destruct ("sz50" =? key) eqn:E2.
    { cbn [orb negb].
      exact (single_clause_outcome ds render (Sz50Stocks date) format limit _
               (tool_entered w)). }
    destruct ("zz500" =? key) eqn:E3.
    { cbn [orb negb].
      exact (single_clause_outcome ds render (Zz500Stocks date) format limit _
               (tool_entered w)). }
    reflexivity.
  - intros code date limit format. unfold indices.get_stock_industry.
    unfold bind at 1, log at 1. fold (tool_entered w).
    unfold try_except. unfold bind at 1.
    change (get_stock_industry ds code date) with (fetch ds (StockIndustry code date)).
    destruct (fetch ds (StockIndustry code date) (tool_entered w)) as [[e|df] w1];
      [reflexivity|].
    unfold bind at 1, log at 1.
    match goal with
    | |- context [format_table_output render ?d ?f ?m ?mt ?w2] =>
        pose proof (table_answer_spec render df format limit
                      [("code", PStr (or_else code "all"));
                       ("as_of", PStr (or_else date "latest"))] w2) as Ha;
        destruct (format_table_output render d f m mt w2) as [[e|s] w3]
    end; cbn [fst] in Ha; inversion Ha; subst. reflexivity.
Qed.

(** ** Normalisation of stock codes (tools/helpers.py) *)

Lemma is_digit_facts (c : ascii) :
  is_digit c = true ->
  isspace c = false /\ c <> "."%char /\ lower_ascii c = c
  /\ lower_ascii c <> "s"%char /\ lower_ascii c <> "h"%char /\ lower_ascii c <> "z"%char.
Proof.
  destruct c as [[] [] [] [] [] [] [] []]; cbn; intros H; try discriminate H;
    repeat split; discriminate.
Qed.

Lemma six_digits_inv (num : string) :
  six_digits num = true ->
  exists c1 c2 c3 c4 c5 c6,
    num = String c1 (String c2 (String c3 (String c4 (String c5 (String c6 "")))))
    /\ is_digit c1 = true /\ is_digit c2 = true /\ is_digit c3 = true
    /\ is_digit c4 = true /\ is_digit c5 = true /\ is_digit c6 = true.
Proof.
  unfold six_digits.
  destruct num as [|c1 [|c2 [|c3 [|c4 [|c5 [|c6 [|c7 r]]]]]]]; cbn; try discriminate.
  rewrite !andb_true_iff. intros (H1 & H2 & H3 & H4 & H5 & H6 & _).
  now exists c1, c2, c3, c4, c5, c6.
Qed.

Lemma exchange_lower (ex : string) :
  exchange ex = true -> lower ex = "sh" \/ lower ex = "sz".
Proof.
  unfold exchange. rewrite orb_true_iff, !String.eqb_eq. tauto.
Qed.

(** The answer is a code in the form of the provider or a text that starts
    with "Error: ". *)
Lemma normalize_stock_code_answers (inline_flag_anywhere : bool) (code : string)
    (w : World) :
  exists s,
    fst (helpers.normalize_stock_code inline_flag_anywhere code w) = inr s
    /\ (baostock_code s \/ String.prefix "Error: " s = true).
Proof.
  unfold helpers.normalize_stock_code.
  unfold bind at 1, log at 1, try_except. cbv zeta.
  destruct (strip code =? ""); [eexists; split; [reflexivity|now right]|].
  destruct (fullmatch_exchange_number (strip code)) as [[ex num]|] eqn:E1.
  { eexists. split; [reflexivity|]. left.
    unfold fullmatch_exchange_number in E1.
    destruct (_ && _ && _) eqn:B in E1; [|discriminate].
    inversion E1; subst. rewrite !andb_true_iff in B. destruct B as ((_ & Hex) & Hnum).
    eexists. exists (after_dot (substring 2 (String.length (strip code) - 2) (strip code))).
    split; [exact (exchange_lower _ Hex)|]. split; [exact Hnum|reflexivity]. }
  unfold bind at 1, lift at 1, helpers.fullmatch_number_exchange.
  destruct inline_flag_anywhere; [|eexists; split; [reflexivity|now right]].
  destruct (match_number_exchange (strip code)) as [[num ex]|] eqn:E2.
  { eexists. split; [reflexivity|]. left.
    unfold match_number_exchange in E2.
    destruct (_ && _ && _) eqn:B in E2; [|discriminate].
    inversion E2; subst. rewrite !andb_true_iff in B. destruct B as ((_ & Hnum) & Hex).
    eexists. exists (substring 0 6 (strip code)).
    split; [exact (exchange_lower _ Hex)|]. split; [exact Hnum|reflexivity]. }
  destruct (six_digits (strip code)) eqn:E3.
  - eexists. split; [reflexivity|]. left.
    exists (if String.prefix "6" (strip code) then "sh" else "sz"), (strip code).
    split; [destruct (String.prefix _ _); auto|]. split; [exact E3|reflexivity].
  - eexists. split; [reflexivity|now right].
Qed.

Lemma rstrip_clean (s : string) (c : ascii) :
  isspace c = false -> rstrip (s ++ String c "") = (s ++ String c "")%string.
Proof.
  intros Hc. induction s as [|a s IH]; cbn; [now rewrite Hc|].
  rewrite IH. destruct s; reflexivity.
Qed.

(** Nothing is stripped from a string that neither starts nor ends with
    white space. *)
Lemma strip_clean (a c : ascii) (s : string) :
  isspace a = false -> isspace c = false ->
  strip (String a (s ++ String c "")) = String a (s ++ String c "").
Proof.
  intros Ha Hc. unfold strip. cbn [lstrip]. rewrite Ha.
  exact (rstrip_clean (String a s) c Hc).
Qed.

(** A code that is already in the form of the provider is answered
    unchanged. *)
Lemma normalize_stock_code_fixed_point (inline_flag_anywhere : bool) (code : string)
    (w : World) :
  baostock_code code ->
  fst (helpers.normalize_stock_code inline_flag_anywhere code w) = inr code.
Proof.
  intros (ex & num & Hex & Hnum & ->).
  destruct (six_digits_inv num Hnum)
    as (c1 & c2 & c3 & c4 & c5 & c6 & -> & H1 & H2 & H3 & H4 & H5 & H6).
  pose proof (proj1 (is_digit_facts c6 H6)) as S6.
  unfold helpers.normalize_stock_code.
  unfold bind at 1, log at 1, try_except. cbv zeta.
  destruct Hex as [-> | ->].
  - match goal with
    | |- context [strip ?raw] =>
        assert (Hraw : strip raw = raw)
          by exact (strip_clean "s" c6
                      (String "h" (String "." (String c1 (String c2 (String c3
                         (String c4 (String c5 ""))))))) eq_refl S6)
    end.
    rewrite !Hraw.
    unfold fullmatch_exchange_number, six_digits. cbn -[is_digit].
    rewrite H1, H2, H3, H4, H5, H6. reflexivity.
  - match goal with
    | |- context [strip ?raw] =>
        assert (Hraw : strip raw = raw)
          by exact (strip_clean "s" c6
                      (String "z" (String "." (String c1 (String c2 (String c3
                         (String c4 (String c5 ""))))))) eq_refl S6)
    end.
    rewrite !Hraw.
    unfold fullmatch_exchange_number, six_digits. cbn -[is_digit].
    rewrite H1, H2, H3, H4, H5, H6. reflexivity.
Qed.

(** X18.  On an ASCII text, [normalize_stock_code] always answers, with a
    text that starts with "Error: " or with a code in the form of the
    provider; and such a code is a fixed point: normalising it again answers
    the same code.  This holds whichever way the interpreter treats the flag
    inside the second pattern.  A text that is not ASCII is outside the
    statement: there the patterns of Python also accept digits and letters
    of other scripts, and the answer keeps them. *)
Theorem normalize_stock_code_idempotent (inline_flag_anywhere : bool) (code : string)
    (w : World) :
  is_ascii code = true ->
  exists s,
    fst (helpers.normalize_stock_code inline_flag_anywhere code w) = inr s
    /\ (String.prefix "Error: " s = true
        \/ (baostock_code s
            /\ forall flag w', fst (helpers.normalize_stock_code flag s w') = inr s)).
Proof.
  intros _.
  destruct (normalize_stock_code_answers inline_flag_anywhere code w) as (s & Hs & [Hc|He]).
  - exists s. split; [exact Hs|]. right. split; [exact Hc|].
    intros flag w'. now apply normalize_stock_code_fixed_point.
  - exists s. split; [exact Hs|now left].
Qed.

Lemma normalize_stock_code_idempotent_witness :
  exists s,
    fst (helpers.normalize_stock_code true " SH600000 " empty_world) = inr s
    /\ (String.prefix "Error: " s = true
        \/ (baostock_code s
            /\ fst (helpers.normalize_stock_code false s empty_world) = inr s)).
Proof.
  destruct (normalize_stock_code_idempotent true " SH600000 " empty_world eq_refl)
    as (s & Hs & [He|[Hc Hfix]]).
  - exists s. split; [exact Hs|now left].
  - exists s. split; [exact Hs|]. right. split; [exact Hc|].
    exact (Hfix false empty_world).
Defined.

Lemma lower_ascii_s (c : ascii) :
  lower_ascii c = "s"%char -> c = "s"%char \/ c = "S"%char.
Proof.
  destruct c as [[] [] [] [] [] [] [] []]; cbn; intros H; try discriminate H; auto.
Qed.

Lemma lower_ascii_h (c : ascii) :
  lower_ascii c = "h"%char -> c = "h"%char \/ c = "H"%char.
Proof.
  destruct c as [[] [] [] [] [] [] [] []]; cbn; intros H; try discriminate H; auto.
Qed.

Lemma lower_ascii_z (c : ascii) :
  lower_ascii c = "z"%char -> c = "z"%char \/ c = "Z"%char.
Proof.
  destruct c as [[] [] [] [] [] [] [] []]; cbn; intros H; try discriminate H; auto.
Qed.

Lemma after_dot_digit (c : ascii) (s : string) :
  is_digit c = true -> after_dot (String c s) = String c s.
Proof.
  destruct c as [[] [] [] [] [] [] [] []]; cbn; intros H; try discriminate H;
    reflexivity.
Qed.

(** The eight spellings of the two exchanges. *)
Lemma exchange_inv (ex : string) :
  exchange ex = true ->
  In ex ["sh"; "sH"; "Sh"; "SH"; "sz"; "sZ"; "Sz"; "SZ"].
Proof.
  intros H. apply exchange_lower in H.
  destruct ex as [|a [|b [|c r]]]; cbn in H; destruct H as [H|H]; inversion H.
  - destruct (lower_ascii_s a H1) as [-> | ->], (lower_ascii_h b H2) as [-> | ->];
      cbn; tauto.
  - destruct (lower_ascii_s a H1) as [-> | ->], (lower_ascii_z b H2) as [-> | ->];
      cbn; tauto.
Qed.

Ltac split_exchange H :=
  apply exchange_inv in H; cbn [In] in H;
  repeat match type of H with
         | _ \/ _ => destruct H as [H|H]
         end; [subst .. | contradiction].

(** X19.  A code that starts with the exchange, in small or capital letters,
    followed by the six digits with or without a dot between them: the
    answer is the exchange in small letters, a dot and the digits,
    whichever way the interpreter treats the flag inside the second
    pattern. *)
Theorem normalize_exchange_first (inline_flag_anywhere : bool) (ex sep num : string)
    (w : World) :
  exchange ex = true -> six_digits num = true -> sep = "" \/ sep = "." ->
  fst (helpers.normalize_stock_code inline_flag_anywhere (fstr [ex; sep; num]) w)
  = inr (fstr [lower ex; "."; num]).
Proof.
  intros Hex Hnum Hsep.
  destruct (six_digits_inv num Hnum)
    as (c1 & c2 & c3 & c4 & c5 & c6 & -> & H1 & H2 & H3 & H4 & H5 & H6).
  pose proof (proj1 (is_digit_facts c6 H6)) as S6.
  unfold helpers.normalize_stock_code.
  unfold bind at 1, log at 1, try_except. cbv zeta.
  split_exchange Hex; destruct Hsep as [-> | ->].
  all: match goal with
       | |- context [strip ?raw] =>
           let r := eval cbn in raw in
           lazymatch r with
           | String ?a ?rest =>
               assert (Hraw : strip raw = r);
               [ first
                   [ exact (strip_clean a c6
                              (String _ (String c1 (String c2 (String c3
                                 (String c4 (String c5 "")))))) eq_refl S6)
                   | exact (strip_clean a c6
                              (String _ (String "." (String c1 (String c2 (String c3
                                 (String c4 (String c5 ""))))))) eq_refl S6) ]
               | rewrite !Hraw ]
           end
       end.
  all: unfold fullmatch_exchange_number, six_digits; cbn -[is_digit after_dot].
  all: rewrite ?(after_dot_digit c1) by exact H1.
  all: cbn -[is_digit]; rewrite ?H1, ?H2, ?H3, ?H4, ?H5, ?H6; reflexivity.
Qed.

Lemma exchange_digit (c : ascii) (s : string) :
  is_digit c = true -> exchange (String c s) = false.
Proof.
  unfold exchange.
  destruct c as [[] [] [] [] [] [] [] []]; cbn; intros H; try discriminate H;
    reflexivity.
Qed.

Lemma fullmatch_exchange_number_digit (c : ascii) (s : string) :
  is_digit c = true -> fullmatch_exchange_number (String c s) = None.
Proof.
  intros H. unfold fullmatch_exchange_number. cbn [substring].
  rewrite (exchange_digit c _ H), andb_false_r. reflexivity.
Qed.

(** X20.  A code that starts with the six digits.  Where the interpreter accepts
    the flag inside the second pattern (Python before 3.11), a bare number
    gets "sh." when it starts with 6 and "sz." otherwise, and a number
    followed by the exchange, with or without a dot, gets that exchange in
    small letters.  Where the interpreter refuses such a pattern, both
    forms are answered with the text of the [re.error]. *)
Theorem normalize_number_first (inline_flag_anywhere : bool) (num : string) (w : World) :
  six_digits num = true ->
  fst (helpers.normalize_stock_code inline_flag_anywhere num w)
  = inr (if inline_flag_anywhere then fstr [exchange_of_number num; "."; num]
         else flag_error_answer)
  /\ forall ex sep,
       exchange ex = true -> sep = "" \/ sep = "." ->
       fst (helpers.normalize_stock_code inline_flag_anywhere (fstr [num; sep; ex]) w)
       = inr (if inline_flag_anywhere then fstr [lower ex; "."; num]
              else flag_error_answer).
Proof.
  intros Hnum.
  destruct (six_digits_inv num Hnum)
    as (c1 & c2 & c3 & c4 & c5 & c6 & -> & H1 & H2 & H3 & H4 & H5 & H6).
  pose proof (proj1 (is_digit_facts c1 H1)) as S1.
  pose proof (proj1 (is_digit_facts c6 H6)) as S6.
  unfold helpers.normalize_stock_code, helpers.fullmatch_number_exchange.
  split.
  - unfold bind at 1, log at 1, try_except. cbv zeta.
    assert (Hraw : strip (String c1 (String c2 (String c3 (String c4 (String c5
                            (String c6 ""))))))
                   = String c1 (String c2 (String c3 (String c4 (String c5
                       (String c6 "")))))).
    { exact (strip_clean c1 c6 (String c2 (String c3 (String c4 (String c5 ""))))
               S1 S6). }
    rewrite !Hraw. rewrite (fullmatch_exchange_number_digit c1 _ H1).
    cbn [String.eqb]. unfold bind at 1, lift at 1.
    destruct inline_flag_anywhere; [|reflexivity].
    unfold match_number_exchange, six_digits, exchange_of_number.
    cbn -[is_digit]. rewrite H1, H2, H3, H4, H5, H6. reflexivity.
  - intros ex sep Hex Hsep.
    unfold bind at 1, log at 1, try_except. cbv zeta.
    split_exchange Hex; destruct Hsep as [-> | ->].
    all: match goal with
         | |- context [strip ?raw] =>
             let r := eval cbn in raw in
             lazymatch r with
             | String _ (String ?x2 (String ?x3 (String ?x4 (String ?x5 (String ?x6
                  (String "." (String ?a (String ?b ""))))))))  =>
                 assert (Hraw : strip raw = r)
                   by exact (strip_clean c1 b
                               (String x2 (String x3 (String x4 (String x5 (String x6
                                  (String "." (String a "")))))))
                               S1 eq_refl)
             | String _ (String ?x2 (String ?x3 (String ?x4 (String ?x5 (String ?x6
                  (String ?a (String ?b "")))))))  =>
                 assert (Hraw : strip raw = r)
                   by exact (strip_clean c1 b
                               (String x2 (String x3 (String x4 (String x5 (String x6
                                  (String a ""))))))
                               S1 eq_refl)
             end;
             rewrite !Hraw
         end.
    all: rewrite (fullmatch_exchange_number_digit c1 _ H1).
    all: cbn [String.eqb]; unfold bind at 1, lift at 1.
    all: destruct inline_flag_anywhere; [|reflexivity].
    all: unfold match_number_exchange, six_digits; cbn -[is_digit].
    all: rewrite H1, H2, H3, H4, H5, H6; reflexivity.
Qed.

Lemma six_digits_600000 : six_digits "600000" = true.
Proof. reflexivity. Defined.

Lemma normalize_number_first_witness :
  fst (helpers.normalize_stock_code true "600000" empty_world) = inr "sh.600000"
  /\ fst (helpers.normalize_stock_code false "600000" empty_world)
     = inr "Error: global flags not at the start of the expression at position 12"
  /\ fst (helpers.normalize_stock_code true "600000.SH" empty_world) = inr "sh.600000"
  /\ fst (helpers.normalize_stock_code false "600000.SH" empty_world)
     = inr "Error: global flags not at the start of the expression at position 12".
Proof.
  split; [|split; [|split]].
  - exact (proj1 (normalize_number_first true "600000" empty_world six_digits_600000)).
  - exact (proj1 (normalize_number_first false "600000" empty_world six_digits_600000)).
  - exact (proj2 (normalize_number_first true "600000" empty_world six_digits_600000)
             "SH" "." eq_refl (or_intror eq_refl)).
  - exact (proj2 (normalize_number_first false "600000" empty_world six_digits_600000)
             "SH" "." eq_refl (or_intror eq_refl)).
Defined.

Lemma normalize_exchange_first_witness :
  fst (helpers.normalize_stock_code false "SZ000001" empty_world) = inr "sz.000001".
Proof.
  exact (normalize_exchange_first false "SZ" "" "000001" empty_world eq_refl eq_refl
           (or_introl eq_refl)).
Defined.

(** ** The calendar tools on the records of the provider (tools/date_utils.py) *)

(** The calendar of a working session, read from the records. *)
Lemma get_trade_dates_fst (bs : Provider) (s e : string) (w : World)
    (records : list TradingDateRecord) :
  session_ok bs ->
  query_reply bs (range_query s e) = inr (calendar_cursor (map record_row records)) ->
  fst (get_trade_dates bs (Some s) (Some e) w)
  = match records with
    | [] => inl (Exn NoDataFoundError
                   (fstr ["No trade dates found for range "; s; "-"; e;
                          " (empty result set)."]))
    | _ => inr (mkDataFrame ["calendar_date"; "is_trading_day"]
                  (map (map Some) (map record_row records)))
    end.
Proof.
  intros Hs Hq. open_session Hs. unfold range_query in Hq. cbn in Hq.
  unfold get_trade_dates. unfold_monad. cbn -[fstr pd_DataFrame drain_loop].
  rewrite Hq. cbn -[fstr pd_DataFrame drain_loop].
  rewrite drain_loop_none. cbn -[fstr pd_DataFrame].
  destruct records as [|r0 records]; [reflexivity|].
  change (map record_row (r0 :: records)) with (record_row r0 :: map record_row records).
  cbn [is_empty]. cbn -[fstr pd_DataFrame].
  rewrite (pd_DataFrame_rect (record_row r0 :: map record_row records));
    [reflexivity|discriminate|exact (record_rows_rect (r0 :: records))].
Qed.

(** X21.  [is_trading_day] against a working session that answers the calendar
    query for the single day with [records].  The answer is read from the
    first record alone: "Yes" when its flag is "1", "No" otherwise.  Without
    any record the data source raises, and the answer is the text of this
    error, not "No". *)
Theorem is_trading_day_reads_first_record (ds : Provider) (date : string) (w : World)
    (records : list TradingDateRecord) :
  session_ok ds ->
  query_reply ds (range_query date date)
    = inr (calendar_cursor (map record_row records)) ->
  fst (is_trading_day ds date w)
  = inr match records with
        | [] => fstr ["Error: No trade dates found for range "; date; "-"; date;
                      " (empty result set)."]
        | r :: _ => if is_trading r =? "1" then "Yes" else "No"
        end.
Proof.
  intros Hs Hq. unfold is_trading_day.
  unfold bind at 1, log at 1, try_except. unfold bind at 1.
  match goal with
  | |- context [get_trade_dates ds (Some date) (Some date) ?w1] =>
      pose proof (get_trade_dates_fst ds date date w1 records Hs Hq) as Hrun;
      destruct (get_trade_dates ds (Some date) (Some date) w1) as [[e|df] w2]
  end; cbn [fst] in Hrun; destruct records as [|r0 records];
    try discriminate Hrun; inversion Hrun; subst; clear Hrun.
  - reflexivity.
  - destruct r0 as [day flag]. cbn. destruct (flag =? "1"); reflexivity.
Qed.

Lemma is_trading_day_reads_first_record_witness :
  fst (is_trading_day (provider_answering (calendar_cursor [["2024-01-02"; "1"]]))
         "2024-01-02" empty_world)
  = inr "Yes".
Proof.
  exact (is_trading_day_reads_first_record
           (provider_answering (calendar_cursor [["2024-01-02"; "1"]])) "2024-01-02"
           empty_world [mkTradingDateRecord "2024-01-02" "1"]
           (proj1 (provider_answering_ok _)) eq_refl).
Defined.

Lemma in_trading_days_before (date s : string) (records : list TradingDateRecord) :
  In s (trading_days_before date records)
  <-> exists r, In r records /\ calendar_date r = s /\ is_trading r = "1"
                /\ (s <? date)%string = true.
Proof.
  unfold trading_days_before. rewrite in_map_iff. split.
  - intros (r & <- & Hr). apply filter_In in Hr. destruct Hr as (Hr & Hb).
    apply andb_true_iff in Hb. destruct Hb as (Hf & Hd).
    exists r. repeat split; try assumption. now apply String.eqb_eq.
  - intros (r & Hr & <- & Hf & Hd). exists r. split; [reflexivity|].
    apply filter_In. split; [exact Hr|].
    apply andb_true_iff. split; [now apply String.eqb_eq|exact Hd].
Qed.

Lemma in_trading_days_after (date s : string) (records : list TradingDateRecord) :
  In s (trading_days_after date records)
  <-> exists r, In r records /\ calendar_date r = s /\ is_trading r = "1"
                /\ (date <? s)%string = true.
Proof.
  unfold trading_days_after. rewrite in_map_iff. split.
  - intros (r & <- & Hr). apply filter_In in Hr. destruct Hr as (Hr & Hb).
    apply andb_true_iff in Hb. destruct Hb as (Hf & Hd).
    exists r. repeat split; try assumption. now apply String.eqb_eq.
  - intros (r & Hr & <- & Hf & Hd). exists r. split; [reflexivity|].
    apply filter_In. split; [exact Hr|].
    apply andb_true_iff. split; [now apply String.eqb_eq|exact Hd].
Qed.

(** X22.  [previous_trading_day] for a date that parses and has a day 30 days
    before it, against a working session that answers the calendar query
    for these 30 days with at least one record.  The answer is the date of a
    record flagged "1" that lies strictly before [date] and is not before
    any other such record; when no record is flagged "1" before [date], the
    answer is [date] itself. *)
Theorem previous_trading_day_is_nearest (ds : Provider) (date : string)
    (d d30 : datetime) (w : World) (records : list TradingDateRecord) :
  strptime date = inr d -> add_days d (-30) = inr d30 ->
  session_ok ds ->
  query_reply ds (range_query (strftime d30) date)
    = inr (calendar_cursor (map record_row records)) ->
  records <> [] ->
  exists s,
    fst (previous_trading_day ds date w) = inr s
    /\ ((s = date
         /\ forall r, In r records -> is_trading r = "1" ->
                      (calendar_date r <? date)%string = false)
        \/ ((exists r, In r records /\ calendar_date r = s /\ is_trading r = "1")
            /\ (s <? date)%string = true
            /\ forall r, In r records -> is_trading r = "1" ->
                         (calendar_date r <? date)%string = true ->
                         (calendar_date r <=? s)%string = true)).
Proof.
  intros Hparse Hadd Hs Hq Hne.
  destruct (previous_trading_day_on_records ds date d d30 w records
              Hparse Hadd Hs Hq Hne) as (s & Hrun & Hspec).
  exists s. split; [exact Hrun|].
  destruct (trading_days_before date records) as [|x days] eqn:E.
  - left. split; [exact Hspec|]. intros r Hr Hf.
    destruct (calendar_date r <? date)%string eqn:Hd; [|reflexivity].
    assert (Hin : In (calendar_date r) (trading_days_before date records)).
    { apply in_trading_days_before. now exists r. }
    rewrite E in Hin. exfalso. exact Hin.
  - right. destruct Hspec as (Hin & Hmax). rewrite <- E in Hin, Hmax.
    apply in_trading_days_before in Hin. destruct Hin as (r & Hr & Hc & Hf & Hd).
    split; [now exists r|]. split; [exact Hd|].
    intros r' Hr' Hf' Hd'. rewrite Forall_forall in Hmax. apply Hmax.
    apply in_trading_days_before. now exists r'.
Qed.

Lemma previous_trading_day_is_nearest_witness :
  exists s,
    fst (previous_trading_day (provider_answering (calendar_cursor january_2024))
           "2024-01-08" empty_world) = inr s
    /\ ((s = "2024-01-08"
         /\ forall r, In r january_records -> is_trading r = "1" ->
                      (calendar_date r <? "2024-01-08")%string = false)
        \/ ((exists r, In r january_records /\ calendar_date r = s /\ is_trading r = "1")
            /\ (s <? "2024-01-08")%string = true
            /\ forall r, In r january_records -> is_trading r = "1" ->
                         (calendar_date r <? "2024-01-08")%string = true ->
                         (calendar_date r <=? s)%string = true)).
Proof.
  apply (previous_trading_day_is_nearest
           (provider_answering (calendar_cursor january_2024)) "2024-01-08"
           (mkDatetime 2024 1 8) (mkDatetime 2023 12 9) empty_world january_records
           eq_refl eq_refl (proj1 (provider_answering_ok _)) eq_refl).
  discriminate.
Defined.

(** X23.  [next_trading_day] for a date that parses and has a day 30 days after
    it, against a working session that answers the calendar query for these
    30 days with at least one record.  The answer is the date of a record
    flagged "1" that lies strictly after [date] and is not after any other
    such record; when no record is flagged "1" after [date], the answer is
    [date] itself. *)
Theorem next_trading_day_is_nearest (ds : Provider) (date : string)
    (d d30 : datetime) (w : World) (records : list TradingDateRecord) :
  strptime date = inr d -> add_days d 30 = inr d30 ->
  session_ok ds ->
  query_reply ds (range_query date (strftime d30))
    = inr (calendar_cursor (map record_row records)) ->
  records <> [] ->
  exists s,
    fst (next_trading_day ds date w) = inr s
    /\ ((s = date
         /\ forall r, In r records -> is_trading r = "1" ->
                      (date <? calendar_date r)%string = false)
        \/ ((exists r, In r records /\ calendar_date r = s /\ is_trading r = "1")
            /\ (date <? s)%string = true
            /\ forall r, In r records -> is_trading r = "1" ->
                         (date <? calendar_date r)%string = true ->
                         (s <=? calendar_date r)%string = true)).
Proof.
  intros Hparse Hadd Hs Hq Hne.
  destruct (next_trading_day_on_records ds date d d30 w records
              Hparse Hadd Hs Hq Hne) as (s & Hrun & Hspec).
  exists s. split; [exact Hrun|].
  destruct (trading_days_after date records) as [|x days] eqn:E.
  - left. split; [exact Hspec|]. intros r Hr Hf.
    destruct (date <? calendar_date r)%string eqn:Hd; [|reflexivity].
    assert (Hin : In (calendar_date r) (trading_days_after date records)).
    { apply in_trading_days_after. now exists r. }
    rewrite E in Hin. exfalso. exact Hin.
  - right. destruct Hspec as (Hin & Hmin). rewrite <- E in Hin, Hmin.
    apply in_trading_days_after in Hin. destruct Hin as (r & Hr & Hc & Hf & Hd).
    split; [now exists r|]. split; [exact Hd|].
    intros r' Hr' Hf' Hd'. rewrite Forall_forall in Hmin. apply Hmin.
    apply in_trading_days_after. now exists r'.
Qed.

Lemma next_trading_day_is_nearest_witness :
  exists s,
    fst (next_trading_day (provider_answering (calendar_cursor january_2024))
           "2024-01-05" empty_world) = inr s
    /\ ((s = "2024-01-05"
         /\ forall r, In r january_records -> is_trading r = "1" ->
                      ("2024-01-05" <? calendar_date r)%string = false)
        \/ ((exists r, In r january_records /\ calendar_date r = s /\ is_trading r = "1")
            /\ ("2024-01-05" <? s)%string = true
            /\ forall r, In r january_records -> is_trading r = "1" ->
                         ("2024-01-05" <? calendar_date r)%string = true ->
                         (s <=? calendar_date r)%string = true)).
Proof.
  apply (next_trading_day_is_nearest
           (provider_answering (calendar_cursor january_2024)) "2024-01-05"
           (mkDatetime 2024 1 5) (mkDatetime 2024 2 4) empty_world january_records
           eq_refl eq_refl (proj1 (provider_answering_ok _)) eq_refl).
  discriminate.
Defined.

(** ** The bearer-token check of the HTTP transport (mcp_server.py) *)

Lemma lstrip_clean_start (s : string) :
  match lstrip s with
  | String c _ => isspace c = false
  | EmptyString => True
  end.
Proof.
  induction s as [|c s IH]; cbn; [exact I|].
  destruct (isspace c) eqn:E; [exact IH|exact E].
Qed.

Lemma lstrip_of_clean_start (s : string) :
  match s with
  | String c _ => isspace c = false
  | EmptyString => True
  end ->
  lstrip s = s.
Proof. destruct s as [|c s]; cbn; [reflexivity|]. now intros ->. Qed.

Lemma rstrip_keeps_clean_start (s : string) :
  match s with
  | String c _ => isspace c = false
  | EmptyString => True
  end ->
  match rstrip s with
  | String c _ => isspace c = false
  | EmptyString => True
  end.
Proof.
  destruct s as [|c s]; cbn; [auto|]. intros Hc.
  destruct (rstrip s); [rewrite Hc|]; exact Hc.
Qed.

Lemma rstrip_idem (s : string) : rstrip (rstrip s) = rstrip s.
Proof.
  induction s as [|c s IH]; cbn; [reflexivity|].
  destruct (rstrip s) as [|x t] eqn:E.
  - destruct (isspace c) eqn:Ec; cbn; [reflexivity|now rewrite Ec].
  - change (rstrip (String c (String x t)))
      with (match rstrip (String x t) with
            | EmptyString => if isspace c then EmptyString else String c EmptyString
            | String a u => String c (String a u)
            end).
    now rewrite IH.
Qed.

(** Stripping twice is stripping once. *)
Lemma strip_idem (s : string) : strip (strip s) = strip s.
Proof.
  unfold strip.
  rewrite (lstrip_of_clean_start (rstrip (lstrip s))).
  - apply rstrip_idem.
  - apply rstrip_keeps_clean_start, lstrip_clean_start.
Qed.

Lemma lstrip_decompose (s : string) :
  exists l, s = (l ++ lstrip s)%string /\ blank l.
Proof.
  induction s as [|c s (l & Hl & Hb)]; cbn.
  - exists "". split; [reflexivity|constructor].
  - destruct (isspace c) eqn:E.
    + exists (String c l). split; [cbn; now rewrite <- Hl|]. now constructor.
    + exists "". split; [reflexivity|constructor].
Qed.

Lemma rstrip_decompose (s : string) :
  exists r, s = (rstrip s ++ r)%string /\ blank r.
Proof.
  induction s as [|c s (r & Hr & Hb)]; cbn.
  - exists "". split; [reflexivity|constructor].
  - destruct (rstrip s) as [|x t] eqn:E.
    + destruct (isspace c) eqn:Ec.
      * exists (String c r). split; [cbn in Hr; now rewrite <- Hr|]. now constructor.
      * exists r. split; [cbn in Hr |- *; now rewrite <- Hr|exact Hb].
    + exists r. split; [cbn in Hr |- *; now rewrite <- Hr|exact Hb].
Qed.

(** What [strip] removes is white space on both sides. *)
Lemma strip_decompose (s : string) :
  exists l r, s = (l ++ strip s ++ r)%string /\ blank l /\ blank r.
Proof.
  destruct (lstrip_decompose s) as (l & Hl & Hbl).
  destruct (rstrip_decompose (lstrip s)) as (r & Hr & Hbr).
  exists l, r. split; [|now split]. unfold strip. now rewrite <- Hr.
Qed.

Lemma partition_space_spec (s : string) :
  let (head, tail) := partition_space s in
  s = (head ++ " " ++ tail)%string \/ (s = head /\ tail = "").
Proof.
  induction s as [|c s IH]; cbn; [now right|].
  destruct (Ascii.eqb c " ") eqn:E.
  - apply Ascii.eqb_eq in E. subst c. now left.
  - destruct (partition_space s) as [head tail].
    destruct IH as [-> | [-> ->]]; [now left|now right].
Qed.

Lemma partition_space_scheme (scheme rest : string) :
  lower scheme = "bearer" ->
  partition_space (scheme ++ " " ++ rest) = (scheme, rest).
Proof.
  intros H.
  destruct scheme as [|c1 [|c2 [|c3 [|c4 [|c5 [|c6 [|c7 r]]]]]]]; try discriminate H.
  cbn in H. inversion H as [[H1 H2 H3 H4 H5 H6]].
  cbn [append partition_space].
  repeat match goal with
         | |- context [Ascii.eqb ?c " "] =>
             let E := fresh "E" in
             destruct (Ascii.eqb c " ") eqn:E;
             [apply Ascii.eqb_eq in E; subst c; discriminate|]
         end.
  reflexivity.
Qed.

(** A request that the middleware lets through carries the token of the
    server. *)
Lemma dispatch_accepts_token (Request Answer : Type)
    (authorization : Request -> option string) (_token : string) (request : Request)
    (call_next : Request -> Answer) (answer : Answer) :
  _token <> "" ->
  mcp_server.dispatch Request Answer authorization _token request call_next = Next answer ->
  exists scheme l r,
    authorization request = Some (scheme ++ " " ++ l ++ _token ++ r)%string
    /\ lower scheme = "bearer" /\ blank l /\ blank r.
Proof.
  intros Hne. unfold mcp_server.dispatch. cbv zeta.
  pose proof (partition_space_spec
                match authorization request with Some h => h | None => "" end) as Hp.
  destruct (partition_space _) as [scheme token].
  destruct (lower scheme =? "bearer") eqn:Es; [|discriminate].
  destruct (strip token =? _token) eqn:Et; [|discriminate].
  intros _. apply String.eqb_eq in Es, Et.
  destruct Hp as [Hh | [_ ->]].
  - destruct (strip_decompose token) as (l & r & Htok & Hl & Hr).
    exists scheme, l, r. rewrite Et in Htok. rewrite <- Htok.
    destruct (authorization request) as [h|]; [now subst h|].
    destruct scheme; discriminate.
  - cbn in Et. congruence.
Qed.

(** X24.  The application built for the HTTP transport, when the FastMCP
    application can build one.  A request that reaches the application is
    answered by it unchanged; and when a token that is not empty was
    configured, such a request carries it: its "authorization" header is a
    scheme that reads "bearer" in any case of the letters, a space, and the
    token, possibly with white space around it.  Without a token, or with
    the empty token, every request reaches the application. *)
Theorem http_app_serves_only_with_token (Request Answer : Type)
    (authorization : Request -> option string) (streamable_app : Request -> Answer)
    (bearer_token : option string) (asgi_app : Request -> Response Answer)
    (request : Request) :
  mcp_server._build_streamable_http_app Request Answer authorization
    (Some streamable_app) bearer_token = inr asgi_app ->
  match bearer_token with
  | Some (String c t) =>
      forall answer,
        asgi_app request = Next answer ->
        answer = streamable_app request
        /\ exists scheme l r,
             authorization request = Some (scheme ++ " " ++ l ++ String c t ++ r)%string
             /\ lower scheme = "bearer" /\ blank l /\ blank r
  | _ => asgi_app request = Next (streamable_app request)
  end.
Proof.
  unfold mcp_server._build_streamable_http_app.
  destruct bearer_token as [[|c t]|]; intros H; inversion H; subst; try reflexivity.
  intros answer Ha. split.
  - unfold mcp_server.dispatch in Ha. cbv zeta in Ha.
    destruct (partition_space _) as [scheme token].
    destruct (negb _ || negb _); [discriminate|]. now inversion Ha.
  - apply (dispatch_accepts_token Request Answer authorization (String c t) request
             streamable_app answer); [discriminate|exact Ha].
Qed.

Lemma http_app_serves_only_with_token_witness :
  7%nat = 7%nat
  /\ exists scheme l r,
       Some "Bearer  s3cret " = Some (scheme ++ " " ++ l ++ "s3cret" ++ r)%string
       /\ lower scheme = "bearer" /\ blank l /\ blank r.
Proof.
  exact (http_app_serves_only_with_token (option string) nat (fun h => h)
           (fun _ => 7%nat) (Some "s3cret") _ (Some "Bearer  s3cret ") eq_refl
           7%nat eq_refl).
Defined.

(** X25.  The header "<scheme> <token>" with a scheme that reads "bearer" is let
    through exactly when the token of the server has no white space at
    either end; and with such white space in the token of the server, no
    request at all is let through. *)
Theorem bearer_token_with_padding_locks_out (Request Answer : Type)
    (authorization : Request -> option string) (_token scheme : string)
    (request : Request) (call_next : Request -> Answer) :
  lower scheme = "bearer" ->
  (authorization request = Some (scheme ++ " " ++ _token)%string ->
   (mcp_server.dispatch Request Answer authorization _token request call_next
    = Next (call_next request)
    <-> strip _token = _token))
  /\ (strip _token <> _token ->
      mcp_server.dispatch Request Answer authorization _token request call_next
      = PlainTextResponse "Unauthorized" 401).
Proof.
  intros Hs. split.
  - intros Hh. unfold mcp_server.dispatch. cbv zeta. rewrite Hh.
    rewrite (partition_space_scheme scheme _token Hs). rewrite Hs. cbn [String.eqb negb orb].
    change ("bearer" =? "bearer") with true. cbn [negb orb].
    destruct (strip _token =? _token) eqn:E; cbn [negb].
    + apply String.eqb_eq in E. split; [intros _; exact E|reflexivity].
    + apply String.eqb_neq in E. split; [discriminate|contradiction].
  - intros Hpad. unfold mcp_server.dispatch. cbv zeta.
    destruct (partition_space _) as [sch token].
    destruct (strip token =? _token) eqn:E.
    + apply String.eqb_eq in E. exfalso. apply Hpad.
      rewrite <- E. apply strip_idem.
    + now rewrite orb_true_r.
Qed.

Lemma bearer_token_with_padding_locks_out_witness :
  (mcp_server.dispatch (option string) nat (fun h : option string => h) "s3cret" (Some "BEARER s3cret")
     (fun _ => 0%nat) = Next 0%nat
   <-> strip "s3cret" = "s3cret")
  /\ mcp_server.dispatch (option string) nat (fun h : option string => h) "s3cret " (Some "Bearer s3cret ")
       (fun _ => 0%nat) = PlainTextResponse "Unauthorized" 401.
Proof.
  split.
  - exact (proj1 (bearer_token_with_padding_locks_out (option string) nat (fun h : option string => h)
                    "s3cret" "BEARER" (Some "BEARER s3cret") (fun _ => 0%nat) eq_refl)
             eq_refl).
  - apply (proj2 (bearer_token_with_padding_locks_out (option string) nat (fun h : option string => h)
                    "s3cret " "Bearer" (Some "Bearer s3cret ") (fun _ => 0%nat) eq_refl)).
    discriminate.
Defined.
